(** * Infrastructure deployer: retry wrapper, resource managers and driver

    A shallow embedding of [infra/python/infra_deployer.py].  Provider
    (boto3) clients are an interface: a deterministic transition function
    on an abstract provider state that answers each request with a payload
    or an exception.  Python code is embedded in a state-and-exception
    monad that also writes the list of effects it performs (provider
    calls, [time.sleep], [LOGGER] lines), so that "which call was issued"
    is a statement about that list. *)

From Stdlib Require Import ZArith List String Bool Lia DecimalString.
Import ListNotations.
Open Scope string_scope.
Open Scope list_scope.
Open Scope Z_scope.

Set Implicit Arguments.
Set Warnings "-register-all".

(** ** Python values and exceptions *)

(** [Dict[str, Any]] payloads read from the configuration document. *)
Inductive PyVal : Type :=
| PStr (s : string)
| PInt (z : Z)
| PBool (b : bool)
| PList (items : list PyVal)
| PDict (entries : list (string * PyVal)).

(** [botocore.exceptions.ClientError] carries [response["Error"]["Code"]];
    every other exception class is [PyError cls msg]. *)
Inductive exn : Type :=
| ClientError (code message : string)
| PyError (cls message : string).

Inductive Outcome (A : Type) : Type :=
| Ret (a : A)
| Raise (e : exn).
Arguments Raise {A} e.

Definition raised {A} (o : Outcome A) : option exn :=
  match o with Ret _ => None | Raise e => Some e end.

(** ** Dictionaries of tags

    A Python [dict] keeps insertion order and one entry per key. *)
Definition TagSet := list (string * string).

Fixpoint dict_set (k v : string) (d : TagSet) : TagSet :=
  match d with
  | [] => [(k, v)]
  | (k', v') :: rest =>
      if String.eqb k k' then (k, v) :: rest else (k', v') :: dict_set k v rest
  end.

(** [{**d, **extra}] *)
Definition dict_merge (d extra : TagSet) : TagSet :=
  fold_left (fun acc kv => dict_set (fst kv) (snd kv) acc) extra d.

(** [_tags(name, extra)]: [{"Name": name, **extra}] as Key/Value pairs. *)
Definition _tags (name : string) (extra : TagSet) : TagSet :=
  dict_merge [("Name", name)] extra.

(** ** Provider requests and responses *)

Inductive VpcAttribute := EnableDnsSupport | EnableDnsHostnames.

(** Keyword arguments built by [ensure_auto_scaling_group]. *)
Record AsgParams := mkAsgParams {
  AutoScalingGroupName : string;
  LaunchTemplateId : string;
  VPCZoneIdentifier : string;
  DesiredCapacity : Z;
  MinSize : Z;
  MaxSize : Z;
  (* every tag is sent with PropagateAtLaunch = True *)
  AsgTags : TagSet
}.

Inductive Request : Type :=
(* ec2: network *)
| DescribeVpcs (name_tag : string)
| CreateVpc (cidr : string) (tags : TagSet)
| ModifyVpcAttribute (vpc_id : string) (attr : VpcAttribute)
| DescribeInternetGateways (vpc_id : string)
| CreateInternetGateway (tags : TagSet)
| AttachInternetGateway (igw_id vpc_id : string)
| DescribeAvailabilityZones (region : string)
| DescribeSubnets (vpc_id cidr : string)
| CreateSubnet (vpc_id cidr az : string) (tags : TagSet)
| ModifySubnetAttributeMapPublicIp (subnet_id : string)
(* ec2: routing and NAT *)
| CreateRoute (route_table_id destination_cidr : string)
              (gateway_id nat_gateway_id : option string)
| AllocateAddress (tags : TagSet)
| CreateNatGateway (subnet_id allocation_id : string) (tags : TagSet)
| WaitNatGatewayAvailable (nat_gateway_id : string)
(* ec2: security groups and launch templates *)
| DescribeSecurityGroups (vpc_id name : string)
| CreateSecurityGroup (name description vpc_id : string) (tags : TagSet)
| DescribeSecurityGroupRules (group_id : string) (is_egress : bool)
| AuthorizeSecurityGroupIngress (group_id : string) (permissions : list PyVal)
| AuthorizeSecurityGroupEgress (group_id : string) (permissions : list PyVal)
| DescribeLaunchTemplates (name : string)
| CreateLaunchTemplate (name : string)
(* autoscaling *)
| DescribeAutoScalingGroups (name : string)
| UpdateAutoScalingGroup (params : AsgParams)
| CreateAutoScalingGroup (params : AsgParams)
(* rds *)
| DescribeDBInstances (identifier : string)
| CreateDBInstance (identifier : string)
(* s3 *)
| HeadBucket (bucket : string)
| CreateBucket (bucket : string) (location_constraint : option string)
| PutBucketVersioning (bucket : string).

(** What the deployer reads from a response: the identifiers of the
    resources a describe call lists, the identifier of the resource a
    create call made, or nothing. *)
Inductive Response : Type :=
| RList (ids : list string)
| RId (id : string)
| RNone.

Inductive ApiResult : Type :=
| Ok (r : Response)
| Err (e : exn).

(** The boto3 clients, as one transition function on the provider state. *)
Class Provider (PS : Type) := handle : Request -> PS -> ApiResult * PS.

(** ** Effects *)

Inductive Event : Type :=
| Api (rq : Request) (res : ApiResult)
| Sleep (seconds : Z)
| LogWarning (func_name : string) (attempt attempts : Z) (exc : exn)
| LogInfo (message : string)
(* [console.print(table)]: the rows added to the table *)
| ConsolePrint (rows : list (string * string))
(* call frame of an observed operation: what it did, what it raised *)
| Called (inner : list Event) (exc : option exn).

Record Run (S A : Type) : Type := mkRun {
  outcome : Outcome A;
  final : S;
  events : list Event
}.

(** A computation: from a state to an outcome, the state left behind
    (also when an exception is raised) and the effects performed. *)
Definition M (S A : Type) : Type := S -> Run S A.

Definition ret {S A} (a : A) : M S A :=
  fun s => mkRun (Ret a) s [].

Definition raise {S A} (e : exn) : M S A :=
  fun s => mkRun (Raise e) s [].

Definition bind {S A B} (m : M S A) (k : A -> M S B) : M S B :=
  fun s =>
    let r := m s in
    match outcome r with
    | Ret a =>
        let r' := k a (final r) in
        mkRun (outcome r') (final r') (events r ++ events r')
    | Raise e => mkRun (Raise e) (final r) (events r)
    end.

Notation "x <- m ;; k" := (bind m (fun x => k))
  (at level 61, m at next level, right associativity).
Notation "m ;; k" := (bind m (fun _ => k))
  (at level 61, right associativity).

Definition emit {S} (e : Event) : M S unit :=
  fun s => mkRun (Ret tt) s [e].

(** [time.sleep(seconds)]; a negative length raises [ValueError]. *)
Definition sleep {S} (seconds : Z) : M S unit :=
  if seconds <? 0
  then raise (PyError "ValueError" "sleep length must be non-negative")
  else emit (Sleep seconds).

(** [try: body  except <classes matched by handler>: ...]; an exception
    the handler does not match propagates. *)
Definition try_except {S A} (body : M S A) (handler : exn -> option (M S A)) : M S A :=
  fun s =>
    let r := body s in
    match outcome r with
    | Ret a => r
    | Raise e =>
        match handler e with
        | Some h =>
            let r' := h (final r) in
            mkRun (outcome r') (final r') (events r ++ events r')
        | None => r
        end
    end.

(** One provider call. *)
Definition call {PS} `{Provider PS} (rq : Request) : M PS Response :=
  fun s =>
    match handle rq s with
    | (Ok r, s') => mkRun (Ret r) s' [Api rq (Ok r)]
    | (Err e, s') => mkRun (Raise e) s' [Api rq (Err e)]
    end.

(** [for x in xs: ys.append(f(x))] *)
Fixpoint for_each {S A B} (f : A -> M S B) (xs : list A) : M S (list B) :=
  match xs with
  | [] => ret []
  | x :: rest => y <- f x ;; ys <- for_each f rest ;; ret (y :: ys)
  end.

(** ** The retry wrapper *)

(** Python's [range(lo, hi)]. *)
Definition range (lo hi : Z) : list Z :=
  map (fun i => lo + Z.of_nat i) (seq 0 (Z.to_nat (hi - lo))).

(** The [for attempt in range(1, attempts + 1)] loop of [wrapper]; falling
    off the end of the loop returns Python's [None]. *)
Fixpoint retry_loop {S A} (func_name : string) (func : M S A)
    (attempts delay : Z) (todo : list Z) : M S (option A) :=
  match todo with
  | [] => ret None
  | attempt :: rest =>
      fun s =>
        let r := func s in
        match outcome r with
        | Ret v => mkRun (Ret (Some v)) (final r) (events r)
        | Raise (ClientError code msg) =>
            if attempt =? attempts
            then mkRun (Raise (ClientError code msg)) (final r) (events r)
            else
              let r' := (emit (LogWarning func_name attempt attempts
                                          (ClientError code msg)) ;;
                         sleep (delay * attempt) ;;
                         retry_loop func_name func attempts delay rest) (final r) in
              mkRun (outcome r') (final r') (events r ++ events r')
        | Raise e => mkRun (Raise e) (final r) (events r)
        end
  end.

(** [retryable(func)] called with [max_attempts] and [backoff_seconds]. *)
Definition retryable {S A} (func_name : string) (func : M S A)
    (max_attempts backoff_seconds : Z) : M S (option A) :=
  retry_loop func_name func max_attempts backoff_seconds
             (range 1 (max_attempts + 1)).

(** Defaults of [kwargs.pop("max_attempts", 5)] and
    [kwargs.pop("backoff_seconds", 2)]. *)
Definition default_max_attempts : Z := 5.
Definition default_backoff_seconds : Z := 2.

(** ** Observing the wrapped operation

    [observed f] behaves as [f] and wraps what [f] did in one [Called]
    frame, as a test double that records its calls would. *)
Definition observed {S A} (f : M S A) : M S A :=
  fun s =>
    let r := f s in
    mkRun (outcome r) (final r) [Called (events r) (raised (outcome r))].

Definition is_called (e : Event) : bool :=
  match e with Called _ _ => true | _ => false end.

Definition invocations (t : list Event) : Z :=
  Z.of_nat (List.length (filter is_called t)).

Fixpoint sleeps (t : list Event) : list Z :=
  match t with
  | [] => []
  | Sleep d :: rest => d :: sleeps rest
  | _ :: rest => sleeps rest
  end.

Definition total (l : list Z) : Z := fold_right Z.add 0 l.

(** The exception recorded by the last call frame of a trace. *)
Fixpoint last_called (t : list Event) : option (option exn) :=
  match t with
  | [] => None
  | Called _ x :: rest =>
      match last_called rest with Some y => Some y | None => Some x end
  | _ :: rest => last_called rest
  end.

(** ** Reading responses *)

(** [response.get(key)]: a missing key gives [None], which is falsy like
    the empty list. *)
Definition get_list (r : Response) : list string :=
  match r with RList ids => ids | _ => [] end.

(** [response[key][id_key]]: a missing key raises [KeyError]. *)
Definition item_id {S} (r : Response) : M S string :=
  match r with
  | RId id => ret id
  | _ => raise (PyError "KeyError" "identifier")
  end.

(** [response[key]] for a list-valued key. *)
Definition index_list {S} (r : Response) : M S (list string) :=
  match r with
  | RList ids => ret ids
  | _ => raise (PyError "KeyError" "list")
  end.

(** Truthiness of an [Optional[str]] argument: [None] and [""] are falsy. *)
Definition truthy_str (o : option string) : option string :=
  match o with
  | Some s => if String.eqb s "" then None else Some s
  | None => None
  end.

(** boto3 raises the modelled exception class of a service when the error
    code of the response is that shape's code:
    [autoscaling.exceptions.ResourceInUseFault] is the [ClientError] whose
    code is [ResourceInUse]. *)
Definition is_ResourceInUseFault (e : exn) : bool :=
  match e with
  | ClientError code _ => String.eqb code "ResourceInUse"
  | PyError _ _ => false
  end.

(** A value the wrapper returned.  [None] only comes out of the wrapper
    when [max_attempts <= 0]; [main] leaves the default of 5, and what it
    would do with [None] is cut short here as a [TypeError]. *)
Definition returned {S A} (m : M S (option A)) : M S A :=
  v <- m ;;
  match v with
  | Some a => ret a
  | None => raise (PyError "TypeError" "NoneType")
  end.

Section Managers.

Context {PS : Type} `{Provider PS}.

(** *** VPCManager *)

Definition ensure_vpc_body (name cidr : string) (tags : TagSet) : M PS string :=
  r <- call (DescribeVpcs name) ;;
  match get_list r with
  | vpc_id :: _ =>
      emit (LogInfo (String.append "Reusing VPC " vpc_id)) ;;
      ret vpc_id
  | [] =>
      response <- call (CreateVpc cidr (_tags name tags)) ;;
      vpc_id <- item_id response ;;
      call (ModifyVpcAttribute vpc_id EnableDnsSupport) ;;
      call (ModifyVpcAttribute vpc_id EnableDnsHostnames) ;;
      ret vpc_id
  end.

Definition ensure_vpc (name cidr : string) (tags : TagSet)
    (max_attempts backoff_seconds : Z) : M PS (option string) :=
  retryable "ensure_vpc" (ensure_vpc_body name cidr tags)
            max_attempts backoff_seconds.

Definition ensure_internet_gateway_body (vpc_id name : string) (tags : TagSet)
    : M PS string :=
  r <- call (DescribeInternetGateways vpc_id) ;;
  match get_list r with
  | igw_id :: _ => ret igw_id
  | [] =>
      igw <- call (CreateInternetGateway (_tags name tags)) ;;
      igw_id <- item_id igw ;;
      call (AttachInternetGateway igw_id vpc_id) ;;
      ret igw_id
  end.

Definition ensure_internet_gateway (vpc_id name : string) (tags : TagSet)
    (max_attempts backoff_seconds : Z) : M PS (option string) :=
  retryable "ensure_internet_gateway"
            (ensure_internet_gateway_body vpc_id name tags)
            max_attempts backoff_seconds.

Definition ensure_subnet_body (name vpc_id cidr az : string) (public : bool)
    (tags : TagSet) : M PS string :=
  r <- call (DescribeSubnets vpc_id cidr) ;;
  match get_list r with
  | subnet_id :: _ => ret subnet_id
  | [] =>
      subnet <- call (CreateSubnet vpc_id cidr az (_tags name tags)) ;;
      subnet_id <- item_id subnet ;;
      (if public
       then call (ModifySubnetAttributeMapPublicIp subnet_id) ;; ret tt
       else ret tt) ;;
      ret subnet_id
  end.

Definition ensure_subnet (name vpc_id cidr az : string) (public : bool)
    (tags : TagSet) (max_attempts backoff_seconds : Z) : M PS (option string) :=
  retryable "ensure_subnet" (ensure_subnet_body name vpc_id cidr az public tags)
            max_attempts backoff_seconds.

(** *** RouteTableManager *)

Definition ensure_route_body (route_table_id destination_cidr : string)
    (gateway_id nat_gateway_id : option string) : M PS unit :=
  let params :=
    CreateRoute route_table_id destination_cidr
                (truthy_str gateway_id) (truthy_str nat_gateway_id) in
  try_except (call params ;; ret tt)
    (fun exc =>
       match exc with
       | ClientError code _ =>
           if negb (String.eqb code "RouteAlreadyExists")
           then None          (* raise *)
           else Some (ret tt)
       | PyError _ _ => None
       end).

Definition ensure_route (route_table_id destination_cidr : string)
    (gateway_id nat_gateway_id : option string)
    (max_attempts backoff_seconds : Z) : M PS (option unit) :=
  retryable "ensure_route"
            (ensure_route_body route_table_id destination_cidr
                               gateway_id nat_gateway_id)
            max_attempts backoff_seconds.

(** *** NATGatewayManager *)

Definition ensure_nat_gateway_body (subnet_id name : string) (tags : TagSet)
    : M PS string :=
  eip <- call (AllocateAddress (_tags name tags)) ;;
  allocation_id <- item_id eip ;;
  nat <- call (CreateNatGateway subnet_id allocation_id (_tags name tags)) ;;
  nat_gateway_id <- item_id nat ;;
  call (WaitNatGatewayAvailable nat_gateway_id) ;;
  ret nat_gateway_id.

Definition ensure_nat_gateway (subnet_id name : string) (tags : TagSet)
    (max_attempts backoff_seconds : Z) : M PS (option string) :=
  retryable "ensure_nat_gateway" (ensure_nat_gateway_body subnet_id name tags)
            max_attempts backoff_seconds.

(** *** SecurityGroupManager

    [_normalize_rules] is called by [_authorize_if_missing] and is neither
    defined nor imported anywhere in the module: evaluating the name raises
    [NameError] before the call. *)

Definition _normalize_rules {S} (rules : list PyVal) : M S (list PyVal) :=
  raise (PyError "NameError" "name '_normalize_rules' is not defined").

Definition _authorize_if_missing (group_id : string) (rules : list PyVal)
    (egress : bool) : M PS unit :=
  r <- call (DescribeSecurityGroupRules group_id egress) ;;
  match get_list r with
  | _ :: _ => ret tt
  | [] =>
      permissions <- _normalize_rules rules ;;
      if egress
      then call (AuthorizeSecurityGroupEgress group_id permissions) ;; ret tt
      else call (AuthorizeSecurityGroupIngress group_id permissions) ;; ret tt
  end.

Definition configure_rules (group_id : string)
    (ingress_rules egress_rules : list PyVal) : M PS unit :=
  (match ingress_rules with
   | _ :: _ => _authorize_if_missing group_id ingress_rules false
   | [] => ret tt
   end) ;;
  (match egress_rules with
   | _ :: _ => _authorize_if_missing group_id egress_rules true
   | [] => ret tt
   end).

(** *** AutoScalingManager *)

Definition ensure_auto_scaling_group_body (name launch_template_id : string)
    (subnets : list string) (desired minimum maximum : Z) (tags : TagSet)
    : M PS unit :=
  exists_ <- try_except
               (call (DescribeAutoScalingGroups name) ;; ret true)
               (fun exc =>
                  if is_ResourceInUseFault exc then Some (ret false) else None) ;;
  let params :=
    mkAsgParams name launch_template_id (String.concat "," subnets)
                desired minimum maximum tags in
  if exists_ : bool
  then call (UpdateAutoScalingGroup params) ;; ret tt
  else call (CreateAutoScalingGroup params) ;; ret tt.

Definition ensure_auto_scaling_group (name launch_template_id : string)
    (subnets : list string) (desired minimum maximum : Z) (tags : TagSet)
    (max_attempts backoff_seconds : Z) : M PS (option unit) :=
  retryable "ensure_auto_scaling_group"
            (ensure_auto_scaling_group_body name launch_template_id subnets
                                            desired minimum maximum tags)
            max_attempts backoff_seconds.

(** *** S3Manager *)

Definition ensure_bucket_body (bucket region : string) : M PS unit :=
  try_except
    (call (HeadBucket bucket) ;;
     emit (LogInfo (String.append "Bucket " (String.append bucket " already exists"))))
    (fun exc =>
       match exc with
       | ClientError error_code _ =>
           if String.eqb error_code "404" || String.eqb error_code "NoSuchBucket"
           then Some (emit (LogInfo (String.append "Creating bucket " bucket)) ;;
                      call (CreateBucket bucket
                              (if negb (String.eqb region "us-east-1")
                               then Some region else None)) ;;
                      ret tt)
           else None          (* raise *)
       | PyError _ _ => None
       end).

Definition ensure_bucket (bucket region : string)
    (max_attempts backoff_seconds : Z) : M PS (option unit) :=
  retryable "ensure_bucket" (ensure_bucket_body bucket region)
            max_attempts backoff_seconds.

Definition enable_versioning (bucket : string) : M PS unit :=
  call (PutBucketVersioning bucket) ;; ret tt.

End Managers.

(** ** The driver *)

(** The keys of the configuration document that [main] reads. *)
Record Config := mkConfig {
  project_name : string;
  project_region : string;
  project_environment : string;
  network_vpc_cidr : string;
  network_vpc_az_count : Z;
  subnets_public_cidr_blocks : list string;
  subnets_private_cidr_blocks : list string;
  s3_raw_bucket : string;
  s3_curated_bucket : string
}.

(** [xs[:k]] *)
Definition slice_to {A} (k : Z) (xs : list A) : list A :=
  if 0 <=? k then firstn (Z.to_nat k) xs
  else firstn (List.length xs - Z.to_nat (- k)) xs.

Section Driver.

Context {PS : Type} `{Provider PS}.

Definition main (config : Config) : M PS unit :=
  let region := project_region config in
  let env := project_environment config in
  let tags := [("Project", project_name config); ("Environment", env)] in
  let stem := String.append (project_name config) (String.append "-" env) in
  vpc_id <- returned (ensure_vpc stem (network_vpc_cidr config) tags
                        default_max_attempts default_backoff_seconds) ;;
  igw_id <- returned (ensure_internet_gateway vpc_id (String.append stem "-igw") tags
                        default_max_attempts default_backoff_seconds) ;;
  response <- call (DescribeAvailabilityZones region) ;;
  azs <- index_list response ;;
  let az_names := slice_to (network_vpc_az_count config) azs in
  public_subnets <-
    for_each (fun ca =>
                returned (ensure_subnet (String.append "public-" (snd ca)) vpc_id
                            (fst ca) (snd ca) true
                            (dict_merge tags [("Tier", "public")])
                            default_max_attempts default_backoff_seconds))
             (combine (subnets_public_cidr_blocks config) az_names) ;;
  private_subnets <-
    for_each (fun ca =>
                returned (ensure_subnet (String.append "private-" (snd ca)) vpc_id
                            (fst ca) (snd ca) false
                            (dict_merge tags [("Tier", "private")])
                            default_max_attempts default_backoff_seconds))
             (combine (subnets_private_cidr_blocks config) az_names) ;;
  ensure_bucket (s3_raw_bucket config) region
                default_max_attempts default_backoff_seconds ;;
  enable_versioning (s3_raw_bucket config) ;;
  ensure_bucket (s3_curated_bucket config) region
                default_max_attempts default_backoff_seconds ;;
  enable_versioning (s3_curated_bucket config) ;;
  emit (ConsolePrint
          [("VPC", vpc_id);
           ("InternetGateway", igw_id);
           ("PublicSubnets", String.concat ", " public_subnets);
           ("PrivateSubnets", String.concat ", " private_subnets)]).

End Driver.

(** ** Providers to run the code against *)

(** A provider without state: every request has one fixed answer. *)
Definition Stateless (answer : Request -> ApiResult) : Provider unit :=
  fun rq s => (answer rq, s).

(** A small in-memory cloud, standing for the remote control plane.
    Resources are rows (kind, key, identifier); the key is what the
    provider's describe filters look at.  Identifiers are numbered in the
    order of creation. *)
Module Cloud.

Record t := mk {
  next_id : nat;
  zones : list string;
  resources : list (string * string * string)
}.

Definition empty (zones : list string) : t := mk 1 zones [].

Definition decimal (n : nat) : string :=
  NilEmpty.string_of_uint (Nat.to_uint n).

Definition pair_key (a b : string) : string :=
  String.append a (String.append "|" b).

Definition lookup (kind key : string) (c : t) : list string :=
  map (fun row => snd row)
      (filter (fun row => String.eqb (fst (fst row)) kind
                          && String.eqb (snd (fst row)) key)
              (resources c)).

Definition create (kind prefix key : string) (c : t) : ApiResult * t :=
  let id := String.append prefix (String.append "-" (decimal (next_id c))) in
  (Ok (RId id), mk (S (next_id c)) (zones c) (resources c ++ [(kind, key, id)])).

Definition rekey (kind id key : string) (c : t) : t :=
  mk (next_id c) (zones c)
     (map (fun row =>
             if String.eqb (fst (fst row)) kind && String.eqb (snd row) id
             then (kind, key, id) else row)
          (resources c)).

Definition tag (k : string) (tags : TagSet) : string :=
  match find (fun kv => String.eqb (fst kv) k) tags with
  | Some kv => snd kv
  | None => ""
  end.

Definition listed (kind key : string) (c : t) : ApiResult * t :=
  (Ok (RList (lookup kind key c)), c).

Definition done (c : t) : ApiResult * t := (Ok RNone, c).

Definition put (kind key : string) (c : t) : ApiResult * t :=
  (Ok RNone, mk (next_id c) (zones c) (resources c ++ [(kind, key, key)])).

Definition put_rules (kind key : string) (n : nat) (c : t) : ApiResult * t :=
  (Ok RNone, mk (next_id c) (zones c)
                (resources c ++ repeat (kind, key, "sgr") n)).

Definition respond (rq : Request) (c : t) : ApiResult * t :=
  match rq with
  | DescribeVpcs name => listed "vpc" name c
  | CreateVpc _ tags => create "vpc" "vpc" (tag "Name" tags) c
  | ModifyVpcAttribute _ _ => done c
  | DescribeInternetGateways vpc_id => listed "igw" vpc_id c
  | CreateInternetGateway _ => create "igw" "igw" "" c
  | AttachInternetGateway igw_id vpc_id => (Ok RNone, rekey "igw" igw_id vpc_id c)
  | DescribeAvailabilityZones _ => (Ok (RList (zones c)), c)
  | DescribeSubnets vpc_id cidr => listed "subnet" (pair_key vpc_id cidr) c
  | CreateSubnet vpc_id cidr _ _ => create "subnet" "subnet" (pair_key vpc_id cidr) c
  | ModifySubnetAttributeMapPublicIp _ => done c
  | CreateRoute rt dest _ _ =>
      match lookup "route" (pair_key rt dest) c with
      | [] => put "route" (pair_key rt dest) c
      | _ :: _ => (Err (ClientError "RouteAlreadyExists" dest), c)
      end
  | AllocateAddress _ => create "eip" "eipalloc" "" c
  | CreateNatGateway subnet_id _ _ => create "nat" "nat" subnet_id c
  | WaitNatGatewayAvailable _ => done c
  | DescribeSecurityGroups vpc_id name => listed "sg" (pair_key vpc_id name) c
  | CreateSecurityGroup name _ vpc_id _ => create "sg" "sg" (pair_key vpc_id name) c
  | DescribeSecurityGroupRules gid egress =>
      listed (if egress then "egress" else "ingress") gid c
  | AuthorizeSecurityGroupIngress gid perms =>
      put_rules "ingress" gid (List.length perms) c
  | AuthorizeSecurityGroupEgress gid perms =>
      put_rules "egress" gid (List.length perms) c
  | DescribeLaunchTemplates name => listed "lt" name c
  | CreateLaunchTemplate name => create "lt" "lt" name c
  | DescribeAutoScalingGroups name => listed "asg" name c
  | UpdateAutoScalingGroup _ => done c
  | CreateAutoScalingGroup p => put "asg" (AutoScalingGroupName p) c
  | DescribeDBInstances id =>
      match lookup "db" id c with
      | [] => (Err (ClientError "DBInstanceNotFound" id), c)
      | _ :: _ => listed "db" id c
      end
  | CreateDBInstance id => put "db" id c
  | HeadBucket b =>
      match lookup "bucket" b c with
      | [] => (Err (ClientError "404" "Not Found"), c)
      | _ :: _ => done c
      end
  | CreateBucket b _ => put "bucket" b c
  | PutBucketVersioning _ => done c
  end.

Definition provider : Provider t := respond.

End Cloud.

(** One VPC over two zones with two public and two private subnets, and
    two buckets. *)
Definition scenario : Config :=
  mkConfig "cda" "eu-west-1" "dev" "10.0.0.0/16" 2
           ["10.0.0.0/24"; "10.0.1.0/24"] ["10.0.10.0/24"; "10.0.11.0/24"]
           "cda-raw" "cda-curated".

(** ** Observations on runs, and providers for the examples *)

(** Calls and sleeps of a trace, in order: [None] for a call frame,
    [Some d] for a sleep of [d] seconds. *)
Fixpoint marks (t : list Event) : list (option Z) :=
  match t with
  | [] => []
  | Called _ _ :: rest => None :: marks rest
  | Sleep d :: rest => Some d :: marks rest
  | _ :: rest => marks rest
  end.

(** An operation that answers every call with a throttling error. *)
Definition throttled : M unit unit :=
  fun s => mkRun (Raise (ClientError "Throttling" "Rate exceeded")) s [].

(** An operation that answers every call with a malformed-request error. *)
Definition malformed : M unit unit :=
  fun s => mkRun (Raise (ClientError "MalformedQueryString" "bad query")) s [].

(** An operation that fails outside the provider. *)
Definition misconfigured : M unit unit :=
  fun s => mkRun (Raise (PyError "ValueError" "no SecretString")) s [].

(** An operation that returns at once. *)
Definition answers (v : string) : M unit string :=
  fun s => mkRun (Ret v) s [].

(** "Propagates on the first attempt": one invocation, no sleep. *)
Definition first_attempt_only {St A : Type} (r : Run St A) : Prop :=
  invocations (events r) = 1 /\ sleeps (events r) = [].

(** No effect of the trace satisfies [p]. *)
Definition never (p : Event -> bool) (t : list Event) : Prop :=
  Forall (fun e => p e = false) t.

(** The request was sent to the provider. *)
Definition issues (rq : Request) (t : list Event) : Prop :=
  exists res, In (Api rq res) t.

Definition is_update_asg (name : string) (e : Event) : bool :=
  match e with
  | Api (UpdateAutoScalingGroup p) _ => String.eqb (AutoScalingGroupName p) name
  | _ => false
  end.

Definition is_create_asg (name : string) (e : Event) : bool :=
  match e with
  | Api (CreateAutoScalingGroup p) _ => String.eqb (AutoScalingGroupName p) name
  | _ => false
  end.

(** A provider whose describe call for auto scaling groups always raises
    the in-use fault and that accepts everything else. *)
Definition asg_in_use (rq : Request) : ApiResult :=
  match rq with
  | DescribeAutoScalingGroups _ => Err (ClientError "ResourceInUse" "in use")
  | _ => Ok RNone
  end.

(** A provider that accepts every request with an empty payload. *)
Definition accepts_all (rq : Request) : ApiResult := Ok RNone.

(** A provider whose create-route call is always refused with the given
    error. *)
Definition route_refused (code : string) (rq : Request) : ApiResult :=
  match rq with
  | CreateRoute _ _ _ _ => Err (ClientError code "refused")
  | _ => Ok RNone
  end.

(** Requests that look for what exists. *)
Definition is_lookup (e : Event) : bool :=
  match e with
  | Api (DescribeVpcs _) _ | Api (DescribeInternetGateways _) _
  | Api (DescribeAvailabilityZones _) _ | Api (DescribeSubnets _ _) _
  | Api (DescribeSecurityGroups _ _) _ | Api (DescribeSecurityGroupRules _ _) _
  | Api (DescribeLaunchTemplates _) _ | Api (DescribeAutoScalingGroups _) _
  | Api (DescribeDBInstances _) _ | Api (HeadBucket _) _ => true
  | _ => false
  end.

Definition is_allocate_address (e : Event) : bool :=
  match e with Api (AllocateAddress _) _ => true | _ => false end.

Definition is_create_nat_gateway (subnet_id : string) (e : Event) : bool :=
  match e with
  | Api (CreateNatGateway sn _ _) _ => String.eqb sn subnet_id
  | _ => false
  end.

Definition count (p : Event -> bool) (t : list Event) : nat :=
  List.length (filter p t).

Definition is_create_bucket (bucket : string) (e : Event) : bool :=
  match e with
  | Api (CreateBucket b _) _ => String.eqb b bucket
  | _ => false
  end.

(** A provider whose head-bucket call always fails with the given code. *)
Definition head_fails (code : string) (rq : Request) : ApiResult :=
  match rq with
  | HeadBucket _ => Err (ClientError code "head_bucket")
  | _ => Ok RNone
  end.

Definition is_authorize (group_id : string) (egress : bool) (e : Event) : bool :=
  match e with
  | Api (AuthorizeSecurityGroupIngress g _) _ => negb egress && String.eqb g group_id
  | Api (AuthorizeSecurityGroupEgress g _) _ => egress && String.eqb g group_id
  | _ => false
  end.

(** Whether the effect is an authorize call on the group, in either
    direction. *)
Definition is_any_authorize (group_id : string) (e : Event) : bool :=
  is_authorize group_id false e || is_authorize group_id true e.

(** A provider that lists one rule for every describe-rules request and
    accepts everything else. *)
Definition rules_listed (rq : Request) : ApiResult :=
  match rq with
  | DescribeSecurityGroupRules _ _ => Ok (RList ["sgr-1"])
  | _ => Ok RNone
  end.

(** The error of calling the helper that the module does not define. *)
Definition name_error : exn :=
  PyError "NameError" "name '_normalize_rules' is not defined".

(** A rule as the configuration document gives it. *)
Definition tcp_rule (port : Z) : PyVal :=
  PDict [("protocol", PStr "tcp"); ("port", PInt port); ("cidr", PStr "0.0.0.0/0")].

Definition all_events {St A : Type} (Q : Event -> Prop) (m : M St A) : Prop :=
  forall s, Forall Q (events (m s)).



Inductive ResourceKind : Type :=
| KVpc | KInternetGateway | KSubnet | KBucket
| KSecurityGroup | KLaunchTemplate | KAutoScalingGroup | KDatabase.

(** The create request of a kind that the provider accepted. *)
Definition created (kind : ResourceKind) (e : Event) : bool :=
  match e, kind with
  | Api (CreateVpc _ _) (Ok _), KVpc
  | Api (CreateInternetGateway _) (Ok _), KInternetGateway
  | Api (CreateSubnet _ _ _ _) (Ok _), KSubnet
  | Api (CreateBucket _ _) (Ok _), KBucket
  | Api (CreateSecurityGroup _ _ _ _) (Ok _), KSecurityGroup
  | Api (CreateLaunchTemplate _) (Ok _), KLaunchTemplate
  | Api (CreateAutoScalingGroup _) (Ok _), KAutoScalingGroup
  | Api (CreateDBInstance _) (Ok _), KDatabase => true
  | _, _ => false
  end.


Definition fresh_cloud : Cloud.t :=
  Cloud.empty ["eu-west-1a"; "eu-west-1b"; "eu-west-1c"].

(** ** The rest of the module

    The managers that [main] does not call, with the provider requests
    they send.  These requests carry their keyword arguments in full; the
    session around the clients keeps a journal of the requests sent and of
    the answers received. *)

(** [None] or a value. *)
Definition PyObj := option PyVal.

(** A Python [dict] with string keys. *)
Definition PyDict := list (string * PyObj).

Fixpoint assoc {V : Type} (k : string) (d : list (string * V)) : option V :=
  match d with
  | [] => None
  | (k', v) :: rest => if String.eqb k k' then Some v else assoc k rest
  end.

(** [d[k]]: a missing key raises [KeyError]. *)
Definition getitem {S} (d : PyDict) (k : string) : M S PyObj :=
  match assoc k d with
  | Some v => ret v
  | None => raise (PyError "KeyError" k)
  end.

(** [d.get(k)] *)
Definition dict_get (d : PyDict) (k : string) : PyObj :=
  match assoc k d with
  | Some v => v
  | None => None
  end.

(** Truth value of an object in [if obj:]. *)
Definition truthy (o : PyObj) : bool :=
  match o with
  | None => false
  | Some (PStr s) => negb (String.eqb s "")
  | Some (PInt z) => negb (z =? 0)
  | Some (PBool b) => b
  | Some (PList items) => match items with [] => false | _ :: _ => true end
  | Some (PDict entries) => match entries with [] => false | _ :: _ => true end
  end.

(** [obj[k]] for a string key on whatever [yaml.safe_load] returned. *)
Definition subscript {S} (obj : PyObj) (k : string) : M S PyObj :=
  match obj with
  | Some (PDict entries) =>
      match assoc k entries with
      | Some v => ret (Some v)
      | None => raise (PyError "KeyError" k)
      end
  | _ => raise (PyError "TypeError" "not subscriptable by a string")
  end.

(** [[{"Key": k, "Value": v} for k, v in tags.items()]] *)
Definition tags_value (tags : TagSet) : PyVal :=
  PList (map (fun kv => PDict [("Key", PStr (fst kv)); ("Value", PStr (snd kv))]) tags).

Module Service.

Inductive Request : Type :=
(* ec2 *)
| DescribeRouteTables (vpc_id name_tag : string)
| CreateRouteTable (vpc_id : string) (tags : TagSet)
| AssociateRouteTable (route_table_id subnet_id : string)
| DescribeLaunchTemplates (name : string)
| CreateLaunchTemplate (params : PyVal)
(* iam *)
| GetInstanceProfile (name : string)
| CreateInstanceProfile (name : string)
| AddRoleToInstanceProfile (name role_name : string)
(* secretsmanager *)
| GetSecretValue (secret_id : string)
(* rds *)
| DescribeDBInstances (identifier : PyObj)
| CreateDBInstance (params : PyDict)
(* s3: one rule, its SSEAlgorithm and, when given, its KMSMasterKeyID *)
| PutBucketEncryption (bucket : string) (sse_algorithm : PyObj)
                      (kms_master_key_id : option PyObj).

End Service.

(** The clients behind these requests. *)
Class Services (PS : Type) := serve : Service.Request -> PS -> ApiResult * PS.

Record Session (PS : Type) : Type := mkSession {
  remote : PS;
  journal : list (Service.Request * ApiResult)
}.

(** One request, entered in the journal with its answer. *)
Definition request {PS} `{Services PS} (rq : Service.Request) : M (Session PS) Response :=
  fun w =>
    let answer := serve rq (remote w) in
    let w' := mkSession (snd answer) (journal w ++ [(rq, fst answer)]) in
    match fst answer with
    | Ok r => mkRun (Ret r) w' []
    | Err e => mkRun (Raise e) w' []
    end.

(** [iam.exceptions.NoSuchEntityException] *)
Definition is_NoSuchEntityException (e : exn) : bool :=
  match e with
  | ClientError code _ => String.eqb code "NoSuchEntity"
  | PyError _ _ => false
  end.

(** [rds.exceptions.DBInstanceNotFoundFault] *)
Definition is_DBInstanceNotFoundFault (e : exn) : bool :=
  match e with
  | ClientError code _ => String.eqb code "DBInstanceNotFound"
  | PyError _ _ => false
  end.

(** [response.get("SecretString")] *)
Definition secret_string (r : Response) : option string :=
  match r with RId text => Some text | _ => None end.

(** Where the value of a keyword argument of [create_db_instance] comes
    from; the dict literal evaluates them from top to bottom. *)
Inductive Field : Type :=
| Given (v : PyObj)
| FromConfig (key : string)
| FromCredentials (key : string).

Definition db_fields (identifier : PyObj) (subnet_group security_group_id : string)
    (tags : TagSet) : list (string * Field) :=
  [("DBInstanceIdentifier", Given identifier);
   ("AllocatedStorage", FromConfig "allocated_storage");
   ("DBInstanceClass", FromConfig "instance_class");
   ("Engine", FromConfig "engine");
   ("EngineVersion", FromConfig "engine_version");
   ("MasterUsername", FromCredentials "username");
   ("MasterUserPassword", FromCredentials "password");
   ("DBSubnetGroupName", Given (Some (PStr subnet_group)));
   ("VpcSecurityGroupIds", Given (Some (PList [PStr security_group_id])));
   ("StorageEncrypted", FromConfig "storage_encrypted");
   ("BackupRetentionPeriod", FromConfig "backup_retention_days");
   ("PreferredBackupWindow", FromConfig "backup_window");
   ("PreferredMaintenanceWindow", FromConfig "maintenance_window");
   ("MultiAZ", FromConfig "multi_az");
   ("EnableIAMDatabaseAuthentication", FromConfig "iam_authentication");
   ("DeletionProtection", FromConfig "deletion_protection");
   ("DBName", FromConfig "db_name");
   ("Tags", Given (Some (tags_value tags)))].

Definition field_value {S} (config credentials : PyDict) (f : Field) : M S PyObj :=
  match f with
  | Given v => ret v
  | FromConfig key => getitem config key
  | FromCredentials key => getitem credentials key
  end.

Definition build_params {S} (config credentials : PyDict)
    (fields : list (string * Field)) : M S PyDict :=
  for_each (fun nf => v <- field_value config credentials (snd nf) ;; ret (fst nf, v))
           fields.

(** The keyword arguments of [create_launch_template]. *)
Definition launch_template_params (name image_id instance_type iam_profile : string)
    (security_group_ids : list string) (user_data : option string) (tags : TagSet)
    : PyVal :=
  let data :=
    [("ImageId", PStr image_id);
     ("InstanceType", PStr instance_type);
     ("IamInstanceProfile", PDict [("Name", PStr iam_profile)]);
     ("SecurityGroupIds", PList (map PStr security_group_ids));
     ("TagSpecifications",
      PList [PDict [("ResourceType", PStr "instance");
                    ("Tags", tags_value (_tags name tags))];
             PDict [("ResourceType", PStr "volume");
                    ("Tags", tags_value (_tags name tags))]])] in
  PDict [("LaunchTemplateName", PStr name);
         ("LaunchTemplateData",
          PDict (match truthy_str user_data with
                 | Some text => data ++ [("UserData", PStr text)]
                 | None => data
                 end))].

(** [str(obj)], which [%s] applies to a logged argument. *)
Definition py_str (repr : PyVal -> string) (o : PyObj) : string :=
  match o with
  | None => "None"
  | Some (PStr s) => s
  | Some (PInt z) => NilZero.string_of_int (Z.to_int z)
  | Some (PBool true) => "True"
  | Some (PBool false) => "False"
  | Some v => repr v
  end.

Section SecurityGroupManager.

Context {PS : Type} `{Provider PS}.

Definition ensure_security_group_body (vpc_id name description : string)
    (tags : TagSet) : M PS string :=
  r <- call (DescribeSecurityGroups vpc_id name) ;;
  match get_list r with
  | group_id :: _ => ret group_id
  | [] =>
      response <- call (CreateSecurityGroup name description vpc_id (_tags name tags)) ;;
      item_id response
  end.

Definition ensure_security_group (vpc_id name description : string) (tags : TagSet)
    (max_attempts backoff_seconds : Z) : M PS (option string) :=
  retryable "ensure_security_group"
            (ensure_security_group_body vpc_id name description tags)
            max_attempts backoff_seconds.

End SecurityGroupManager.

Section ServiceManagers.

Context {PS : Type} `{Services PS}.

(** *** RouteTableManager *)

Definition ensure_route_table_body (vpc_id name : string) (tags : TagSet)
    : M (Session PS) string :=
  r <- request (Service.DescribeRouteTables vpc_id name) ;;
  match get_list r with
  | route_table_id :: _ => ret route_table_id
  | [] =>
      response <- request (Service.CreateRouteTable vpc_id (_tags name tags)) ;;
      item_id response
  end.

Definition ensure_route_table (vpc_id name : string) (tags : TagSet)
    (max_attempts backoff_seconds : Z) : M (Session PS) (option string) :=
  retryable "ensure_route_table" (ensure_route_table_body vpc_id name tags)
            max_attempts backoff_seconds.

Definition associate_body (route_table_id subnet_id : string) : M (Session PS) unit :=
  request (Service.AssociateRouteTable route_table_id subnet_id) ;; ret tt.

Definition associate (route_table_id subnet_id : string)
    (max_attempts backoff_seconds : Z) : M (Session PS) (option unit) :=
  retryable "associate" (associate_body route_table_id subnet_id)
            max_attempts backoff_seconds.

(** *** IAMManager *)

Definition ensure_instance_profile_body (name role_name : string)
    : M (Session PS) string :=
  try_except
    (request (Service.GetInstanceProfile name) ;; ret tt)
    (fun exc =>
       if is_NoSuchEntityException exc
       then Some (request (Service.CreateInstanceProfile name) ;;
                  request (Service.AddRoleToInstanceProfile name role_name) ;;
                  ret tt)
       else None) ;;
  ret name.

Definition ensure_instance_profile (name role_name : string)
    (max_attempts backoff_seconds : Z) : M (Session PS) (option string) :=
  retryable "ensure_instance_profile" (ensure_instance_profile_body name role_name)
            max_attempts backoff_seconds.

(** *** LaunchTemplateManager *)

Definition ensure_launch_template_body (name image_id instance_type iam_profile : string)
    (security_group_ids : list string) (user_data : option string) (tags : TagSet)
    : M (Session PS) string :=
  found <- try_except
             (response <- request (Service.DescribeLaunchTemplates name) ;;
              templates <- index_list response ;;
              match templates with
              | template_id :: _ => ret (Some template_id)   (* return *)
              | [] => ret None
              end)
             (fun exc =>
                match exc with
                | ClientError code _ =>
                    if negb (String.eqb code
                               "InvalidLaunchTemplateName.NotFoundException")
                    then None          (* raise *)
                    else Some (ret None)
                | PyError _ _ => None
                end) ;;
  match found with
  | Some template_id => ret template_id
  | None =>
      response <- request (Service.CreateLaunchTemplate
                             (launch_template_params name image_id instance_type
                                iam_profile security_group_ids user_data tags)) ;;
      item_id response
  end.

Definition ensure_launch_template (name image_id instance_type iam_profile : string)
    (security_group_ids : list string) (user_data : option string) (tags : TagSet)
    (max_attempts backoff_seconds : Z) : M (Session PS) (option string) :=
  retryable "ensure_launch_template"
            (ensure_launch_template_body name image_id instance_type iam_profile
                                         security_group_ids user_data tags)
            max_attempts backoff_seconds.

(** *** SecretsManager

    [yaml.safe_load] is the library's parser: a parameter. *)

Section Secrets.

Variable safe_load : string -> Outcome PyObj.

Definition fetch_credentials_body (secret_name username_key password_key : string)
    : M (Session PS) PyDict :=
  response <- request (Service.GetSecretValue secret_name) ;;
  match secret_string response with
  | None | Some EmptyString =>
      raise (PyError "ValueError"
               (String.append "Secret "
                  (String.append secret_name " does not contain SecretString")))
  | Some text =>
      match safe_load text with
      | Raise e => raise e
      | Ret secret =>
          username <- subscript secret username_key ;;
          password <- subscript secret password_key ;;
          ret [("username", username); ("password", password)]
      end
  end.

Definition fetch_credentials (secret_name username_key password_key : string)
    (max_attempts backoff_seconds : Z) : M (Session PS) (option PyDict) :=
  retryable "fetch_credentials"
            (fetch_credentials_body secret_name username_key password_key)
            max_attempts backoff_seconds.

End Secrets.

(** *** RDSManager *)

Section Database.

(** [repr] of a list or a dict, as [str] uses it. *)
Variable repr : PyVal -> string.

Definition ensure_postgres_body (config : PyDict) (subnet_group security_group_id : string)
    (credentials : PyDict) (tags : TagSet) : M (Session PS) PyObj :=
  identifier <- getitem config "identifier" ;;
  found <- try_except
             (request (Service.DescribeDBInstances identifier) ;;
              emit (LogInfo (String.append "Reusing RDS instance "
                                (py_str repr identifier))) ;;
              ret true)               (* return identifier *)
             (fun exc =>
                if is_DBInstanceNotFoundFault exc then Some (ret false) else None) ;;
  if found : bool then ret identifier
  else
    params <- build_params config credentials
                (db_fields identifier subnet_group security_group_id tags) ;;
    parameter_group <- getitem config "parameter_group_name" ;;
    request (Service.CreateDBInstance
               (if truthy parameter_group
                then params ++ [("DBParameterGroupName", parameter_group)]
                else params)) ;;
    ret identifier.

Definition ensure_postgres (config : PyDict) (subnet_group security_group_id : string)
    (credentials : PyDict) (tags : TagSet) (max_attempts backoff_seconds : Z)
    : M (Session PS) (option PyObj) :=
  retryable "ensure_postgres"
            (ensure_postgres_body config subnet_group security_group_id credentials tags)
            max_attempts backoff_seconds.

End Database.

(** *** S3Manager *)

Definition apply_encryption (bucket : string) (encryption : PyDict)
    : M (Session PS) unit :=
  algorithm <- getitem encryption "type" ;;
  request (Service.PutBucketEncryption bucket algorithm
             (if truthy (dict_get encryption "kms_key_arn")
              then Some (dict_get encryption "kms_key_arn")
              else None)) ;;
  ret tt.

End ServiceManagers.

(** ** Observations on the rest of the module *)

(** The requests of a journal, in the order they were sent. *)
Definition sent {PS : Type} (w : Session PS) : list Service.Request :=
  map fst (journal w).

(** A session that has sent nothing yet. *)
Definition fresh_session {PS : Type} (ps : PS) : Session PS := mkSession ps [].

(** A provider that reads its answers off a script, one per request, and
    accepts every request once the script is used up. *)
Definition Scripted : Provider (list ApiResult) :=
  fun rq script =>
    match script with
    | [] => (Ok RNone, [])
    | answer :: rest => (answer, rest)
    end.

Definition ScriptedServices : Services (list ApiResult) :=
  fun rq script =>
    match script with
    | [] => (Ok RNone, [])
    | answer :: rest => (answer, rest)
    end.

(** Services that refuse every request with the given error. *)
Definition refusing (code msg : string) : Services unit :=
  fun rq s => (Err (ClientError code msg), s).

(** [fails_then_returns k f s v]: from state [s], the operation [f] raises
    a provider error at each of its first [k] invocations and returns [v]
    at the next one. *)
Inductive fails_then_returns {St A : Type} (f : M St A) : nat -> St -> A -> Prop :=
| returns_now s v :
    outcome (f s) = Ret v -> fails_then_returns f 0 s v
| fails_first k s code msg v :
    outcome (f s) = Raise (ClientError code msg) ->
    fails_then_returns f k (final (f s)) v ->
    fails_then_returns f (S k) s v.

(** The state an operation is in after [k] invocations. *)
Fixpoint after {St A : Type} (f : M St A) (k : nat) (s : St) : St :=
  match k with
  | O => s
  | S k' => after f k' (final (f s))
  end.

(** An operation that fails with a throttling error until its counter
    reaches zero and then returns the text. *)
Definition flaky (text : string) : M nat string :=
  fun n =>
    match n with
    | O => mkRun (Ret text) O []
    | S n' => mkRun (Raise (ClientError "Throttling" "Rate exceeded")) n' []
    end.

(** The keys of the database configuration that [ensure_postgres] reads
    when it creates the instance. *)
Definition db_config_keys : list string :=
  ["allocated_storage"; "instance_class"; "engine"; "engine_version";
   "storage_encrypted"; "backup_retention_days"; "backup_window";
   "maintenance_window"; "multi_az"; "iam_authentication"; "deletion_protection";
   "db_name"; "parameter_group_name"].

(** The value a field takes when its key is there. *)
Definition field_denote (config credentials : PyDict) (f : Field) : PyObj :=
  match f with
  | Given v => v
  | FromConfig key => dict_get config key
  | FromCredentials key => dict_get credentials key
  end.

(** The key a field needs, when the dictionary lacks it. *)
Definition field_missing (config credentials : PyDict) (f : Field) : option string :=
  match f with
  | Given _ => None
  | FromConfig key => match assoc key config with Some _ => None | None => Some key end
  | FromCredentials key =>
      match assoc key credentials with Some _ => None | None => Some key end
  end.

(** A database configuration with every key, and one without a parameter
    group. *)
Definition db_config (parameter_group : PyObj) : PyDict :=
  [("identifier", Some (PStr "cda-db"));
   ("allocated_storage", Some (PInt 20));
   ("instance_class", Some (PStr "db.t3.micro"));
   ("engine", Some (PStr "postgres"));
   ("engine_version", Some (PStr "15.4"));
   ("storage_encrypted", Some (PBool true));
   ("backup_retention_days", Some (PInt 7));
   ("backup_window", Some (PStr "02:00-03:00"));
   ("maintenance_window", Some (PStr "sun:04:00-sun:05:00"));
   ("multi_az", Some (PBool false));
   ("iam_authentication", Some (PBool true));
   ("deletion_protection", Some (PBool true));
   ("db_name", Some (PStr "analytics"));
   ("parameter_group_name", parameter_group)].

Definition db_credentials : PyDict :=
  [("username", Some (PStr "admin")); ("password", Some (PStr "s3cret"))].

(** A [repr] for the examples, which log strings only. *)
Definition toy_repr (v : PyVal) : string := "<container>".

(** A parser for the examples: the one payload it knows is a mapping with
    a user and a password. *)
Definition toy_safe_load (text : string) : Outcome PyObj :=
  if String.eqb text "user: admin"
  then Ret (Some (PDict [("user", PStr "admin"); ("pass", PStr "s3cret")]))
  else Raise (PyError "YAMLError" text).

(** A dictionary without one of its keys. *)
Definition without (key : string) (d : PyDict) : PyDict :=
  filter (fun kv => negb (String.eqb (fst kv) key)) d.

(** The table of identifiers is written to the console. *)
Definition is_print (e : Event) : bool :=
  match e with
  | ConsolePrint _ => true
  | _ => false
  end.

(** A computation that prints once, as its last effect, when it returns,
    and not at all when it raises. *)
Definition prints_on_return {St A : Type} (r : Run St A) : Prop :=
  match outcome r with
  | Ret _ =>
      exists before rows,
        events r = before ++ [ConsolePrint rows] /\ never is_print before
  | Raise _ => never is_print (events r)
  end.

(** Every subnet the effect creates pairs a CIDR block with a zone as
    [pairs] does. *)
Definition subnet_among (pairs : list (string * string)) (e : Event) : Prop :=
  match e with
  | Api (CreateSubnet _ cidr az _) _ => In (cidr, az) pairs
  | _ => True
  end.

(** ** Attempts that failed with a provider error *)

(** [provider_errors f k s]: from state [s], each of the first [k]
    invocations of [f] raises a provider error, whatever its code. *)
Inductive provider_errors {St A : Type} (f : M St A) : nat -> St -> Prop :=
| no_error_yet s : provider_errors f 0 s
| one_more_error k s code msg :
    outcome (f s) = Raise (ClientError code msg) ->
    provider_errors f k (final (f s)) ->
    provider_errors f (S k) s.

(** What the wrapper leaves in the trace for [k] attempts that failed,
    the first of them numbered [attempt]: for each, the call frame of the
    invocation, the warning and the sleep of [delay * attempt]. *)
Fixpoint failed_attempts {St A : Type} (func_name : string) (f : M St A)
    (attempts delay : Z) (k : nat) (attempt : Z) (s : St) : list Event :=
  match k with
  | O => []
  | S k' =>
      match raised (outcome (f s)) with
      | Some exc =>
          Called (events (f s)) (Some exc)
          :: LogWarning func_name attempt attempts exc
          :: Sleep (delay * attempt)
          :: failed_attempts func_name f attempts delay k' (attempt + 1) (final (f s))
      | None => []
      end
  end.

(** ** What the in-memory cloud holds after the subnets of a VPC *)


(** The rows the cloud keeps for the subnets of these CIDR blocks in the
    VPC, created one after the other from number [first]. *)
Fixpoint subnet_rows (vpc_id : string) (first : nat) (cidrs : list string)
    : list (string * string * string) :=
  match cidrs with
  | [] => []
  | cidr :: rest =>
      ("subnet", Cloud.pair_key vpc_id cidr,
       String.append "subnet-" (Cloud.decimal first))
      :: subnet_rows vpc_id (S first) rest
  end.


(** * Vehicle market value pipeline

    A shallow embedding of [etl/pipelines/vehicle_market_value.py].  What
    the pipeline talks to (Secrets Manager, the valuation API, S3 and the
    clock) is an interface on an abstract world; every exchange with it is
    appended to a ledger kept beside the world. *)

Module Pipeline.

(** What [json.loads] and [response.json()] return; numbers are integers
    here. *)
Inductive Json : Type :=
| JNull
| JBool (b : bool)
| JNum (n : Z)
| JStr (s : string)
| JList (items : list Json)
| JObj (entries : list (string * Json)).

Record PipelineConfig := mkPipelineConfig {
  environment : string;
  region : string;
  endpoint : string;
  secret_name : string;
  max_attempts : Z;
  backoff_seconds : Z;
  default_state : string;
  plates : list string;
  raw_bucket : string;
  curated_bucket : string;
  raw_prefix : string;
  curated_prefix : string;
  rds_endpoint : string;
  rds_database : string;
  rds_table : string;
  rds_secret : string;
  rds_username_key : string;
  rds_password_key : string
}.

(** A call into the world returns or raises. *)
Inductive Reply (A : Type) : Type :=
| Returned (a : A)
| Failed (e : exn).

Arguments Returned {A} a.
Arguments Failed {A} e.

(** [get_secret_value] answers with the [SecretString] of its response, if
    there is one; [requests_get] stands for [requests.get], then
    [raise_for_status], then [response.json()], whose failures all reach
    the caller alike; [utcnow] is [datetime.now(timezone.utc)]. *)
Class World (W : Type) := {
  get_secret_value : string -> W -> Reply (option string) * W;
  requests_get : string -> Json -> string -> string -> W -> Reply Json * W;
  put_object : string -> string -> string -> W -> Reply unit * W;
  utcnow : W -> Z * W
}.

Inductive Entry : Type :=
| SecretRead (name : string) (reply : Reply (option string))
| Fetched (endpoint : string) (api_key : Json) (plate state : string) (reply : Reply Json)
| Put (bucket key body : string) (reply : Reply unit)
| Clock (t : Z).

Record Host (W : Type) : Type := mkHost {
  world : W;
  ledger : list Entry
}.

Arguments mkHost {W} world ledger.
Arguments world {W} h.
Arguments ledger {W} h.

Definition outcome_of {A} (reply : Reply A) : Outcome A :=
  match reply with
  | Returned a => Ret a
  | Failed e => Raise e
  end.

(** A call into the world, entered in the ledger with its reply. *)
Definition perform {W A} (op : W -> Reply A * W) (entry : Reply A -> Entry)
    : M (Host W) A :=
  fun h =>
    let (reply, w') := op (world h) in
    mkRun (outcome_of reply) (mkHost w' (ledger h ++ [entry reply])) [].

Definition clock {W} `{World W} : M (Host W) Z :=
  fun h =>
    let (t, w') := utcnow (world h) in
    mkRun (Ret t) (mkHost w' (ledger h ++ [Clock t])) [].

(** [obj[key]] for a string key. *)
Definition getitem {S} (obj : Json) (key : string) : M S Json :=
  match obj with
  | JObj entries =>
      match assoc key entries with
      | Some v => ret v
      | None => raise (PyError "KeyError" key)
      end
  | _ => raise (PyError "TypeError" "indices must be integers")
  end.

(** [obj.get(key, default)]: only a dict has the method. *)
Definition get {S} (obj : Json) (key : string) (default : Json) : M S Json :=
  match obj with
  | JObj entries =>
      ret match assoc key entries with
          | Some v => v
          | None => default
          end
  | _ => raise (PyError "AttributeError" "get")
  end.

Section VehicleMarketPipeline.

Context {W : Type} `{World W}.

(** [json.loads], [json.dumps], [datetime.isoformat] and
    [datetime.strftime('%Y/%m/%d')]. *)
Variable loads : string -> Outcome Json.
Variable dumps : Json -> string.
Variable isoformat : Z -> string.
Variable strftime : Z -> string.

Variable config : PipelineConfig.

Definition _get_secret (name : string) : M (Host W) Json :=
  secret_string <- perform (get_secret_value name) (SecretRead name) ;;
  match truthy_str secret_string with
  | None =>
      raise (PyError "ValueError"
               (String.append "Secret " (String.append name " missing SecretString")))
  | Some text =>
      match loads text with
      | Raise e => raise e
      | Ret secret => getitem secret "x-rapidapi-key"
      end
  end.

Definition _fetch_vehicle_value (api_key : Json) (plate state : string)
    : M (Host W) Json :=
  perform (requests_get (endpoint config) api_key plate state)
          (Fetched (endpoint config) api_key plate state).

Definition raw_key (plate : string) (t : Z) : string :=
  String.concat "/" [raw_prefix config; plate; String.append (isoformat t) ".json"].

Definition _write_raw (plate : string) (payload : Json) : M (Host W) unit :=
  t <- clock ;;
  let key := raw_key plate t in
  perform (put_object (raw_bucket config) key (dumps payload))
          (Put (raw_bucket config) key (dumps payload)).

Definition _normalize_payload (plate : string) (payload : Json) : M (Host W) Json :=
  valuation <- get payload "valuation" (JObj []) ;;
  year <- get payload "year" JNull ;;
  make <- get payload "make" JNull ;;
  model <- get payload "model" JNull ;;
  trim <- get payload "trim" JNull ;;
  mileage <- get payload "mileage" JNull ;;
  condition <- get payload "condition" JNull ;;
  retail <- get valuation "retail" JNull ;;
  wholesale <- get valuation "wholesale" JNull ;;
  trade_in <- get valuation "trade_in" JNull ;;
  t <- clock ;;
  ret (JObj [("plate", JStr plate);
             ("year", year);
             ("make", make);
             ("model", model);
             ("trim", trim);
             ("mileage", mileage);
             ("condition", condition);
             ("retail_value", retail);
             ("wholesale_value", wholesale);
             ("trade_in_value", trade_in);
             ("timestamp", JStr (isoformat t));
             ("source", JStr "vehicle_market_value_api")]).

Definition _to_curated (records : list Json) : list Json := records.

Definition curated_key (t : Z) : string :=
  String.concat "/" [curated_prefix config; strftime t; "vehicles.json"].

Definition _write_curated (records : list Json) : M (Host W) unit :=
  t <- clock ;;
  let key := curated_key t in
  let body := dumps (JList records) in
  perform (put_object (curated_bucket config) key body)
          (Put (curated_bucket config) key body).

(** The body of the loop over the plates; its value is what is appended
    to [records]. *)
Definition ingest (api_key : Json) (plate : string) : M (Host W) Json :=
  payload <- _fetch_vehicle_value api_key plate (default_state config) ;;
  record <- _normalize_payload plate payload ;;
  _write_raw plate payload ;;
  ret record.

(** ["Pipeline completed with %d records" % n] *)
Definition completed (n : nat) : string :=
  String.append "Pipeline completed with "
    (String.append (NilEmpty.string_of_uint (Nat.to_uint n)) " records").

Definition run : M (Host W) unit :=
  emit (LogInfo "Starting vehicle market value pipeline") ;;
  api_key <- _get_secret (secret_name config) ;;
  records <- for_each (ingest api_key) (plates config) ;;
  let curated := _to_curated records in
  _write_curated curated ;;
  emit (LogInfo (completed (List.length curated))).

(** The record of a payload that is a dict whose valuation, if given, is
    a dict. *)
Definition field (entries : list (string * Json)) (key : string) : Json :=
  match assoc key entries with
  | Some v => v
  | None => JNull
  end.

Definition record_of (plate : string) (payload valuation : list (string * Json)) (t : Z)
    : Json :=
  JObj [("plate", JStr plate);
        ("year", field payload "year");
        ("make", field payload "make");
        ("model", field payload "model");
        ("trim", field payload "trim");
        ("mileage", field payload "mileage");
        ("condition", field payload "condition");
        ("retail_value", field valuation "retail");
        ("wholesale_value", field valuation "wholesale");
        ("trade_in_value", field valuation "trade_in");
        ("timestamp", JStr (isoformat t));
        ("source", JStr "vehicle_market_value_api")].

(** The valuation of a payload, when [_normalize_payload] accepts it. *)
Definition valuation_of (payload : Json) : option (list (string * Json)) :=
  match payload with
  | JObj entries =>
      match assoc "valuation" entries with
      | None => Some []
      | Some (JObj valuation) => Some valuation
      | Some _ => None
      end
  | _ => None
  end.



End VehicleMarketPipeline.




(** A world for the examples: the clock ticks, the secret is as given, the
    API knows the plates of its table and refuses the others, and S3
    accepts everything. *)
Definition ticking (secret : option string) (table : list (string * Json)) : World Z := {|
  get_secret_value := fun name t => (Returned secret, t);
  requests_get :=
    fun endpoint api_key plate state t =>
      (match assoc plate table with
       | Some payload => Returned payload
       | None => Failed (PyError "HTTPError" "404 Client Error")
       end, t);
  put_object := fun bucket key body t => (Returned tt, t);
  utcnow := fun t => (t, t + 1)
|}.


Definition toy_loads (text : string) : Outcome Json :=
  if String.eqb text "key: k-1"
  then Ret (JObj [("x-rapidapi-key", JStr "k-1")])
  else Raise (PyError "JSONDecodeError" text).

Definition toy_dumps (j : Json) : string :=
  match j with
  | JList items => "records"
  | JObj _ => "payload"
  | _ => "value"
  end.

Definition toy_format (t : Z) : string :=
  NilZero.string_of_int (Z.to_int t).

Definition toy_config (plates : list string) : PipelineConfig :=
  mkPipelineConfig "test" "eu-north-1" "https://vmv" "test/secret" 3 1 "AL" plates
                   "raw" "curated" "raw_prefix" "curated_prefix"
                   "endpoint" "analytics" "vehicle_market_valuation" "rds/secret"
                   "username" "password".

Definition tesla : Json :=
  JObj [("year", JNum 2020); ("make", JStr "Tesla"); ("model", JStr "Model 3");
        ("valuation", JObj [("retail", JNum 50000)])].

End Pipeline.
(** * Properties *)

(** ** Traces *)

Lemma bind_unfold {St A B : Type} (m : M St A) (k : A -> M St B) (s : St) :
  bind m k s
  = match outcome (m s) with
    | Ret a =>
        mkRun (outcome (k a (final (m s)))) (final (k a (final (m s))))
              (events (m s) ++ events (k a (final (m s))))
    | Raise e => mkRun (Raise e) (final (m s)) (events (m s))
    end.
Proof. reflexivity. Qed.

Lemma run_eta {S A : Type} (r : Run S A) :
  mkRun (outcome r) (final r) (events r) = r.
Proof. destruct r; reflexivity. Qed.

Lemma invocations_app (a b : list Event) :
  invocations (a ++ b) = invocations a + invocations b.
Proof.
  unfold invocations. rewrite filter_app, length_app. lia.
Qed.

Lemma total_app (a b : list Z) : total (a ++ b) = total a + total b.
Proof.
  unfold total. induction a as [|x a IH]; simpl; lia.
Qed.

(** ** Python's range *)

Lemma range_nil (lo hi : Z) : hi <= lo -> range lo hi = [].
Proof.
  intros Hle. unfold range.
  replace (Z.to_nat (hi - lo)) with 0%nat by lia. reflexivity.
Qed.

Lemma range_cons (lo hi : Z) : lo < hi -> range lo hi = lo :: range (lo + 1) hi.
Proof.
  intros Hlt. unfold range.
  replace (Z.to_nat (hi - lo)) with (S (Z.to_nat (hi - (lo + 1)))) by lia.
  simpl. f_equal; [lia|].
  rewrite <- seq_shift, map_map.
  apply map_ext. intros i. lia.
Qed.

Lemma range_snoc (lo hi : Z) : lo <= hi -> range lo (hi + 1) = range lo hi ++ [hi].
Proof.
  intros Hle. unfold range.
  replace (Z.to_nat (hi + 1 - lo)) with (Z.to_nat (hi - lo) + 1)%nat by lia.
  rewrite seq_app, map_app. simpl. do 2 f_equal. lia.
Qed.

Lemma total_scaled (B : Z) (l : list Z) :
  total (map (fun k => B * k) l) = B * total l.
Proof.
  unfold total. induction l as [|x l IH]; simpl; lia.
Qed.

(** Gauss: 1 + 2 + ... + (N-1). *)
Lemma total_range (N : Z) : 1 <= N -> total (range 1 N) = N * (N - 1) / 2.
Proof.
  intros HN.
  assert (Hgen : forall n : nat,
             2 * total (range 1 (1 + Z.of_nat n)) = Z.of_nat n * (Z.of_nat n + 1)).
  { induction n as [|n IH].
    - rewrite range_nil by lia. reflexivity.
    - replace (1 + Z.of_nat (S n)) with ((1 + Z.of_nat n) + 1) by lia.
      rewrite range_snoc by lia. rewrite total_app.
      change (total [1 + Z.of_nat n]) with (1 + Z.of_nat n + 0).
      rewrite Nat2Z.inj_succ. nia. }
  specialize (Hgen (Z.to_nat (N - 1))).
  replace (1 + Z.of_nat (Z.to_nat (N - 1))) with N in Hgen by lia.
  replace (Z.of_nat (Z.to_nat (N - 1))) with (N - 1) in Hgen by lia.
  replace (N * (N - 1)) with (total (range 1 N) * 2) by lia.
  rewrite Z.div_mul by lia. reflexivity.
Qed.

(** ** The retry loop, one iteration at a time *)

Section RetryLoop.

Context {St A : Type}.
Variables (name : string) (f : M St A) (N B : Z).

Lemma retry_loop_ret k rest s v :
  outcome (f s) = Ret v ->
  retry_loop name f N B (k :: rest) s
  = mkRun (Ret (Some v)) (final (f s)) (events (f s)).
Proof. intros Hf. simpl. rewrite Hf. reflexivity. Qed.

Lemma retry_loop_pyerror k rest s cls msg :
  outcome (f s) = Raise (PyError cls msg) ->
  retry_loop name f N B (k :: rest) s
  = mkRun (Raise (PyError cls msg)) (final (f s)) (events (f s)).
Proof. intros Hf. simpl. rewrite Hf. reflexivity. Qed.

Lemma retry_loop_last rest s code msg :
  outcome (f s) = Raise (ClientError code msg) ->
  retry_loop name f N B (N :: rest) s
  = mkRun (Raise (ClientError code msg)) (final (f s)) (events (f s)).
Proof. intros Hf. simpl. rewrite Hf, Z.eqb_refl. reflexivity. Qed.

Lemma retry_loop_again k rest s code msg :
  outcome (f s) = Raise (ClientError code msg) ->
  k <> N ->
  0 <= B * k ->
  retry_loop name f N B (k :: rest) s
  = let r' := retry_loop name f N B rest (final (f s)) in
    mkRun (outcome r') (final r')
          (events (f s) ++ LogWarning name k N (ClientError code msg)
                        :: Sleep (B * k) :: events r').
Proof.
  intros Hf Hk Hpos. simpl. rewrite Hf.
  destruct (Z.eqb_spec k N) as [|_]; [contradiction|].
  unfold bind, emit, sleep. cbn.
  destruct (Z.ltb_spec (B * k) 0) as [|_]; [lia|]. reflexivity.
Qed.

(** A negative backoff makes [time.sleep] raise in the handler. *)
Lemma retry_loop_interrupted k rest s code msg :
  outcome (f s) = Raise (ClientError code msg) ->
  k <> N ->
  B * k < 0 ->
  retry_loop name f N B (k :: rest) s
  = mkRun (Raise (PyError "ValueError" "sleep length must be non-negative"))
          (final (f s))
          (events (f s) ++ [LogWarning name k N (ClientError code msg)]).
Proof.
  intros Hf Hk Hneg. simpl. rewrite Hf.
  destruct (Z.eqb_spec k N) as [|_]; [contradiction|].
  unfold bind, emit, sleep. cbn.
  destruct (Z.ltb_spec (B * k) 0) as [_|]; [|lia]. reflexivity.
Qed.

(** The first thing the loop does is run the operation. *)
Lemma retry_loop_first_attempt k rest s :
  exists more, events (retry_loop name f N B (k :: rest) s) = events (f s) ++ more.
Proof.
  destruct (outcome (f s)) as [v|[code msg|cls msg]] eqn:Hf.
  - rewrite (retry_loop_ret _ _ _ Hf). exists []. simpl. now rewrite app_nil_r.
  - destruct (Z.eq_dec k N) as [->|Hk].
    + rewrite (retry_loop_last _ _ Hf). exists []. simpl. now rewrite app_nil_r.
    + destruct (Z_lt_le_dec (B * k) 0) as [Hneg|Hpos].
      * rewrite (retry_loop_interrupted _ _ Hf Hk Hneg). simpl. eauto.
      * rewrite (retry_loop_again _ _ Hf Hk Hpos). simpl. eauto.
  - rewrite (retry_loop_pyerror _ _ _ Hf). exists []. simpl. now rewrite app_nil_r.
Qed.

(** What holds of every effect of the operation, of the warnings and of
    the sleeps, holds of every effect of the loop. *)
Lemma retry_loop_Forall (Q : Event -> Prop) :
  (forall s, Forall Q (events (f s))) ->
  (forall k e, Q (LogWarning name k N e)) ->
  (forall d, Q (Sleep d)) ->
  forall todo s, Forall Q (events (retry_loop name f N B todo s)).
Proof.
  intros Hf Hw Hs todo. induction todo as [|k rest IH]; intros s.
  - constructor.
  - destruct (outcome (f s)) as [v|[code msg|cls msg]] eqn:Ho.
    + rewrite (retry_loop_ret _ _ _ Ho). apply Hf.
    + destruct (Z.eq_dec k N) as [->|Hk].
      * rewrite (retry_loop_last _ _ Ho). apply Hf.
      * destruct (Z_lt_le_dec (B * k) 0) as [Hneg|Hpos].
        -- rewrite (retry_loop_interrupted _ _ Ho Hk Hneg). simpl.
           apply Forall_app. split; [apply Hf|]. constructor; [apply Hw|constructor].
        -- rewrite (retry_loop_again _ _ Ho Hk Hpos). simpl.
           apply Forall_app. split; [apply Hf|].
           constructor; [apply Hw|]. constructor; [apply Hs|]. apply IH.
    + rewrite (retry_loop_pyerror _ _ _ Ho). apply Hf.
Qed.

(** A value comes out of the loop only from an attempt that returned it,
    and that attempt is the last thing the loop did. *)
Lemma retry_loop_returns todo s v :
  outcome (retry_loop name f N B todo s) = Ret (Some v) ->
  exists before s',
    events (retry_loop name f N B todo s) = before ++ events (f s')
    /\ outcome (f s') = Ret v
    /\ final (retry_loop name f N B todo s) = final (f s').
Proof.
  revert s. induction todo as [|k rest IH]; intros s Hout.
  - discriminate.
  - destruct (outcome (f s)) as [v'|[code msg|cls msg]] eqn:Ho.
    + rewrite (retry_loop_ret _ _ _ Ho) in *. simpl in Hout.
      injection Hout as ->. exists [], s. auto.
    + destruct (Z.eq_dec k N) as [->|Hk].
      * rewrite (retry_loop_last _ _ Ho) in Hout. discriminate.
      * destruct (Z_lt_le_dec (B * k) 0) as [Hneg|Hpos].
        -- rewrite (retry_loop_interrupted _ _ Ho Hk Hneg) in Hout. discriminate.
        -- rewrite (retry_loop_again _ _ Ho Hk Hpos) in *. simpl in *.
           destruct (IH _ Hout) as (before & s' & Hev & Hs' & Hfin).
           exists (events (f s) ++ LogWarning name k N (ClientError code msg)
                               :: Sleep (B * k) :: before), s'.
           rewrite Hev, <- app_assoc. simpl. auto.
    + rewrite (retry_loop_pyerror _ _ _ Ho) in Hout. discriminate.
Qed.

(** Counting up to [N], the loop ends in a return or a raise: it does not
    fall off its end. *)
Lemma retry_loop_not_none (n : nat) : forall k s,
  Z.of_nat n = N - k ->
  outcome (retry_loop name f N B (range k (N + 1)) s) <> Ret None.
Proof.
  induction n as [|n IH]; intros k s Hn; rewrite range_cons by lia.
  - replace k with N by lia.
    destruct (outcome (f s)) as [v|[code msg|cls msg]] eqn:Ho.
    + rewrite (retry_loop_ret _ _ _ Ho). discriminate.
    + rewrite (retry_loop_last _ _ Ho). discriminate.
    + rewrite (retry_loop_pyerror _ _ _ Ho). discriminate.
  - destruct (outcome (f s)) as [v|[code msg|cls msg]] eqn:Ho.
    + rewrite (retry_loop_ret _ _ _ Ho). discriminate.
    + destruct (Z_lt_le_dec (B * k) 0) as [Hneg|Hpos].
      * rewrite (retry_loop_interrupted _ _ Ho) by lia. discriminate.
      * rewrite (retry_loop_again _ _ Ho) by lia. simpl. apply IH. lia.
    + rewrite (retry_loop_pyerror _ _ _ Ho). discriminate.
Qed.

Lemma retryable_unfold s :
  1 <= N ->
  retryable name f N B s = retry_loop name f N B (1 :: range 2 (N + 1)) s.
Proof. intros HN. unfold retryable. now rewrite range_cons by lia. Qed.

Lemma retryable_not_none s :
  1 <= N -> outcome (retryable name f N B s) <> Ret None.
Proof.
  intros HN. unfold retryable.
  apply (retry_loop_not_none (Z.to_nat (N - 1))). lia.
Qed.

Lemma retryable_Forall (Q : Event -> Prop) s :
  (forall s', Forall Q (events (f s'))) ->
  (forall k e, Q (LogWarning name k N e)) ->
  (forall d, Q (Sleep d)) ->
  Forall Q (events (retryable name f N B s)).
Proof. intros. now apply retry_loop_Forall. Qed.

Lemma retryable_first_attempt s :
  1 <= N ->
  exists more, events (retryable name f N B s) = events (f s) ++ more.
Proof.
  intros HN. rewrite retryable_unfold by assumption.
  apply retry_loop_first_attempt.
Qed.

Lemma retryable_ret s v :
  1 <= N ->
  outcome (f s) = Ret v ->
  retryable name f N B s = mkRun (Ret (Some v)) (final (f s)) (events (f s)).
Proof.
  intros HN Hf. rewrite retryable_unfold by assumption.
  now apply retry_loop_ret.
Qed.

Lemma retryable_pyerror s cls msg :
  1 <= N ->
  outcome (f s) = Raise (PyError cls msg) ->
  retryable name f N B s
  = mkRun (Raise (PyError cls msg)) (final (f s)) (events (f s)).
Proof.
  intros HN Hf. rewrite retryable_unfold by assumption.
  now apply retry_loop_pyerror.
Qed.

End RetryLoop.

(** ** The retry wrapper around an operation that keeps failing *)

Section AlwaysFailing.

Context {St A : Type}.
Variables (name : string) (f : M St A) (N B : Z).

Hypothesis always_fails :
  forall s, exists code msg, outcome (f s) = Raise (ClientError code msg).
Hypothesis backoff_nonnegative : 0 <= B.

Lemma retry_loop_always_fails (n : nat) : forall k s,
  0 <= k ->
  Z.of_nat n = N - k ->
  let r := retry_loop name (observed f) N B (range k (N + 1)) s in
  invocations (events r) = N - k + 1
  /\ sleeps (events r) = map (fun j => B * j) (range k N)
  /\ marks (events r)
     = flat_map (fun j => [None; Some (B * j)]) (range k N) ++ [None]
  /\ exists code msg,
       outcome r = Raise (ClientError code msg)
       /\ last_called (events r) = Some (Some (ClientError code msg)).
Proof.
  induction n as [|n IH]; intros k s Hk Hn; rewrite range_cons by lia;
    destruct (always_fails s) as (code & msg & Hf);
    assert (Ho : outcome (observed f s) = Raise (ClientError code msg))
      by exact Hf.
  - replace k with N in * by lia.
    erewrite retry_loop_last by exact Ho.
    rewrite (@range_nil N N) by lia. simpl.
    split; [unfold invocations; simpl; lia|].
    do 2 (split; [reflexivity|]).
    exists code, msg. rewrite Hf. split; reflexivity.
  - erewrite retry_loop_again; [|exact Ho|lia|nia].
    destruct (IH (k + 1) (final (observed f s))) as (Hi & Hs & Hm & c & m & Hr & Hl);
      [lia|lia|].
    cbv zeta. cbn [outcome final events].
    rewrite (@range_cons k N) by lia.
    change (events (observed f s))
      with [Called (events (f s)) (raised (outcome (f s)))].
    split; [|split; [|split]].
    + rewrite invocations_app. cbn [app]. unfold invocations in *.
      cbn [filter is_called List.length app] in *. lia.
    + cbn [app sleeps map]. now rewrite Hs.
    + cbn [app marks flat_map]. now rewrite Hm.
    + exists c, m. split; [exact Hr|].
      cbn [app last_called]. now rewrite Hl.
Qed.

End AlwaysFailing.

(** C5: with [max_attempts = N >= 1] and a backoff of [B >= 0] seconds, an
    operation that raises a provider error at every invocation is invoked
    exactly [N] times; the wrapper sleeps [B * k] after the k-th failure, for k from 1
    to N-1, which adds up to [B * (N (N-1) / 2)]; what the wrapper raises in
    the end is the error of the last invocation, as it was raised. *)
Theorem retry_bound {St A : Type} (name : string) (f : M St A) (N B : Z) (s : St) :
  1 <= N ->
  0 <= B ->
  (forall s', exists code msg, outcome (f s') = Raise (ClientError code msg)) ->
  let r := retryable name (observed f) N B s in
  invocations (events r) = N
  /\ sleeps (events r) = map (fun k => B * k) (range 1 N)
  /\ marks (events r) = flat_map (fun k => [None; Some (B * k)]) (range 1 N) ++ [None]
  /\ total (sleeps (events r)) = B * (N * (N - 1) / 2)
  /\ exists code msg,
       outcome r = Raise (ClientError code msg)
       /\ last_called (events r) = Some (Some (ClientError code msg)).
Proof.
  intros HN HB Hfail r.
  destruct (@retry_loop_always_fails St A name f N B Hfail HB (Z.to_nat (N - 1)) 1 s)
    as (Hi & Hs & Hm & He); [lia|lia|].
  fold (retryable name (observed f) N B s) in Hi, Hs, Hm, He. fold r in Hi, Hs, Hm, He.
  split; [lia|]. split; [assumption|]. split; [assumption|].
  split; [|assumption].
  rewrite Hs, total_scaled, total_range by assumption. reflexivity.
Qed.

Lemma retry_bound_witness :
  let r := retryable "describe" (observed throttled) 3 2 tt in
  invocations (events r) = 3
  /\ sleeps (events r) = map (fun k => 2 * k) (range 1 3)
  /\ marks (events r) = flat_map (fun k => [None; Some (2 * k)]) (range 1 3) ++ [None]
  /\ total (sleeps (events r)) = 2 * (3 * (3 - 1) / 2)
  /\ exists code msg,
       outcome r = Raise (ClientError code msg)
       /\ last_called (events r) = Some (Some (ClientError code msg)).
Proof.
  apply (@retry_bound unit unit "describe" throttled 3 2 tt).
  - lia.
  - lia.
  - intros s'. exists "Throttling", "Rate exceeded". reflexivity.
Defined.

(** C10: with [max_attempts <= 0] the wrapper returns [None], leaves the
    state as it was and does nothing, so the operation is never invoked;
    with [max_attempts >= 1] the first thing it does is invoke the
    operation, and when that invocation returns a value the wrapper
    returns that value and has done nothing but that invocation. *)
Theorem retry_attempt_floor {St A : Type} (name : string) (f : M St A)
    (N B : Z) (s : St) :
  (N <= 0 ->
     retryable name f N B s = mkRun (Ret None) s []
     /\ invocations (events (retryable name (observed f) N B s)) = 0)
  /\ (1 <= N ->
      (exists more,
          events (retryable name (observed f) N B s)
          = Called (events (f s)) (raised (outcome (f s))) :: more)
      /\ 1 <= invocations (events (retryable name (observed f) N B s))
      /\ forall v, outcome (f s) = Ret v ->
           retryable name f N B s = mkRun (Ret (Some v)) (final (f s)) (events (f s))
           /\ invocations (events (retryable name (observed f) N B s)) = 1).
Proof.
  split.
  - intros HN. unfold retryable. rewrite range_nil by lia. split; reflexivity.
  - intros HN.
    destruct (@retryable_first_attempt St A name (observed f) N B s HN) as [more Hmore].
    change (events (observed f s))
      with [Called (events (f s)) (raised (outcome (f s)))] in Hmore.
    repeat split.
    + exists more. exact Hmore.
    + rewrite Hmore, invocations_app.
      unfold invocations. cbn [filter is_called List.length]. lia.
    + now apply retryable_ret.
    + rewrite (@retryable_ret _ _ name (observed f) N B s v HN) by assumption.
      reflexivity.
Qed.

Lemma retry_attempt_floor_witness :
  (retryable "ensure_vpc" (answers "vpc-1") 0 2 tt = mkRun (Ret None) tt []
   /\ invocations (events (retryable "ensure_vpc" (observed (answers "vpc-1")) 0 2 tt)) = 0)
  /\ (retryable "ensure_vpc" (answers "vpc-1") 5 2 tt
      = mkRun (Ret (Some "vpc-1")) tt []
      /\ invocations (events (retryable "ensure_vpc" (observed (answers "vpc-1")) 5 2 tt)) = 1).
Proof.
  split.
  - apply (proj1 (retry_attempt_floor "ensure_vpc" (answers "vpc-1") 0 2 tt)). lia.
  - apply (proj2 (retry_attempt_floor "ensure_vpc" (answers "vpc-1") 5 2 tt));
      [lia | reflexivity].
Defined.

(** ** What the wrapper retries *)

(** C2, as stated, fails: a malformed-request error is retried like any
    other provider error.  With three attempts and a backoff of two
    seconds the operation is invoked three times and the wrapper sleeps
    two and four seconds. *)
Lemma retry_malformed_counterexample :
  let r := retryable "create_route" (observed malformed) 3 2 tt in
  invocations (events r) = 3
  /\ sleeps (events r) = [2; 4]
  /\ ~ first_attempt_only r.
Proof.
  split; [reflexivity|]. split; [reflexivity|].
  intros [Hone _]. discriminate Hone.
Qed.

(** The loop after [k] attempts that failed with a provider error: it goes
    on from the next attempt, in the state those invocations left. *)
Lemma retry_loop_after_errors {St A : Type} (name : string) (f : M St A) (N B : Z)
    (k : nat) (s : St) :
  provider_errors f k s ->
  forall j,
    0 <= j ->
    j + Z.of_nat k <= N ->
    (k = 0%nat \/ 0 <= B) ->
    retry_loop name (observed f) N B (range j (N + 1)) s
    = let r' := retry_loop name (observed f) N B
                  (range (j + Z.of_nat k) (N + 1)) (after f k s) in
      mkRun (outcome r') (final r')
            (failed_attempts name f N B k j s ++ events r').
Proof.
  induction 1 as [s|k s code msg Hf Hrest IH]; intros j Hj Hle HB.
  - cbn [failed_attempts after app Z.of_nat]. rewrite Z.add_0_r. cbv zeta.
    symmetry. apply run_eta.
  - assert (HB' : 0 <= B) by (destruct HB as [Hk|HB]; [discriminate Hk|exact HB]).
    rewrite range_cons by lia.
    erewrite retry_loop_again; [|cbn [observed outcome]; exact Hf|lia|nia].
    cbv zeta. cbn [observed outcome final events].
    rewrite IH; [|lia|lia|now right].
    cbv zeta. cbn [outcome final events failed_attempts after].
    rewrite Hf. cbn [raised].
    replace (j + 1 + Z.of_nat k) with (j + Z.of_nat (S k)) by lia.
    reflexivity.
Qed.

(** C2, amended: the wrapper looks at the exception class only, at every
    attempt.  After [k] attempts that failed with a provider error (each
    followed by its warning and a sleep of [backoff_seconds * attempt],
    the backoff being not negative), whatever the codes were:
    an exception that is not a [ClientError] propagates at once, with no
    warning, no sleep and no further attempt; a [ClientError], whatever
    its code, raised while attempts remain is followed by the warning, a
    sleep of [backoff_seconds * (k + 1)] and another invocation; a
    [ClientError] at the last attempt propagates without a sleep.  With
    [k = 0] this is the first attempt. *)
Theorem retry_classifies_by_exception_class {St A : Type} (name : string)
    (f : M St A) (N B : Z) (s : St) (k : nat) :
  Z.of_nat k < N ->
  provider_errors f k s ->
  (k = 0%nat \/ 0 <= B) ->
  let s_k := after f k s in
  let before := failed_attempts name f N B k 1 s in
  let r := retryable name (observed f) N B s in
  (forall cls msg,
      outcome (f s_k) = Raise (PyError cls msg) ->
      r = mkRun (Raise (PyError cls msg)) (final (f s_k))
                (before ++ [Called (events (f s_k)) (Some (PyError cls msg))]))
  /\ (forall code msg,
      outcome (f s_k) = Raise (ClientError code msg) ->
      (Z.of_nat k + 1 < N -> 0 <= B ->
       exists more,
         events r
         = before
           ++ Called (events (f s_k)) (Some (ClientError code msg))
           :: LogWarning name (Z.of_nat k + 1) N (ClientError code msg)
           :: Sleep (B * (Z.of_nat k + 1))
           :: Called (events (f (final (f s_k))))
                     (raised (outcome (f (final (f s_k)))))
           :: more)
      /\ (Z.of_nat k + 1 = N ->
          r = mkRun (Raise (ClientError code msg)) (final (f s_k))
                    (before ++ [Called (events (f s_k))
                                       (Some (ClientError code msg))]))).
Proof.
  intros Hk Herr HB s_k before r.
  assert (Hr : r = let r' := retry_loop name (observed f) N B
                               (range (1 + Z.of_nat k) (N + 1)) s_k in
                   mkRun (outcome r') (final r') (before ++ events r')).
  { unfold r, retryable. apply retry_loop_after_errors; [exact Herr|lia|lia|exact HB]. }
  cbv zeta in Hr. rewrite range_cons in Hr by lia.
  split.
  - intros cls msg Hf. rewrite Hr.
    erewrite retry_loop_pyerror by (cbn [observed outcome]; exact Hf).
    cbn [observed outcome final events]. rewrite Hf. reflexivity.
  - intros code msg Hf. split.
    + intros Hlt HB'. rewrite Hr.
      erewrite retry_loop_again; [|cbn [observed outcome]; exact Hf|lia|nia].
      cbv zeta. cbn [events].
      rewrite (@range_cons (1 + Z.of_nat k + 1) (N + 1)) by lia.
      destruct (retry_loop_first_attempt name (observed f) N B (1 + Z.of_nat k + 1)
                  (range (1 + Z.of_nat k + 1 + 1) (N + 1)) (final (observed f s_k)))
        as [more ->].
      exists more. cbn [observed outcome final events app]. rewrite Hf.
      replace (1 + Z.of_nat k) with (Z.of_nat k + 1) by lia. reflexivity.
    + intros Hlast. rewrite Hr.
      replace (1 + Z.of_nat k) with N by lia.
      erewrite retry_loop_last by (cbn [observed outcome]; exact Hf).
      cbn [observed outcome final events]. rewrite Hf. reflexivity.
Qed.

Lemma retry_classifies_by_exception_class_witness :
  retryable "fetch_credentials" (observed misconfigured) 5 2 tt
  = mkRun (Raise (PyError "ValueError" "no SecretString")) tt
          ([] ++ [Called [] (Some (PyError "ValueError" "no SecretString"))])
  /\ (exists more,
       events (retryable "create_route" (observed malformed) 5 2 tt)
       = failed_attempts "create_route" malformed 5 2 2%nat 1 tt
         ++ Called [] (Some (ClientError "MalformedQueryString" "bad query"))
         :: LogWarning "create_route" 3 5 (ClientError "MalformedQueryString" "bad query")
         :: Sleep (2 * 3)
         :: Called [] (Some (ClientError "MalformedQueryString" "bad query"))
         :: more)
  /\ retryable "create_route" (observed malformed) 3 2 tt
     = mkRun (Raise (ClientError "MalformedQueryString" "bad query")) tt
             (failed_attempts "create_route" malformed 3 2 2%nat 1 tt
              ++ [Called [] (Some (ClientError "MalformedQueryString" "bad query"))]).
Proof.
  assert (Htwice : provider_errors malformed 2 tt).
  { apply one_more_error with (code := "MalformedQueryString") (msg := "bad query");
      [reflexivity|].
    apply one_more_error with (code := "MalformedQueryString") (msg := "bad query");
      [reflexivity|].
    apply no_error_yet. }
  assert (HB : (2%nat = 0%nat) \/ 0 <= 2) by (right; lia).
  split; [|split].
  - apply (proj1 (@retry_classifies_by_exception_class
                    unit unit "fetch_credentials" misconfigured 5 2 tt 0%nat
                    ltac:(lia) (no_error_yet misconfigured tt) (or_introl eq_refl))).
    reflexivity.
  - apply (proj1 (proj2 (@retry_classifies_by_exception_class
                    unit unit "create_route" malformed 5 2 tt 2%nat
                    ltac:(lia) Htwice HB)
                    "MalformedQueryString" "bad query" eq_refl)); lia.
  - apply (proj2 (proj2 (@retry_classifies_by_exception_class
                    unit unit "create_route" malformed 3 2 tt 2%nat
                    ltac:(lia) Htwice HB)
                    "MalformedQueryString" "bad query" eq_refl)).
    reflexivity.
Defined.

(** ** Statements about the calls a run issued *)

Lemma never_app p a b : never p a -> never p b -> never p (a ++ b).
Proof. intros Ha Hb. apply Forall_app. now split. Qed.

Lemma issues_prefix rq a more : issues rq a -> issues rq (a ++ more).
Proof. intros [res Hin]. exists res. apply in_or_app. now left. Qed.

(** The wrapper adds warnings and sleeps only: what no attempt does, the
    wrapped operation does not do. *)
Lemma retryable_never {St A : Type} (name : string) (f : M St A) (N B : Z)
    (p : Event -> bool) (s : St) :
  (forall s', never p (events (f s'))) ->
  (forall k e, p (LogWarning name k N e) = false) ->
  (forall d, p (Sleep d) = false) ->
  never p (events (retryable name f N B s)).
Proof. intros Hf Hw Hs. now apply retryable_Forall. Qed.

Lemma retryable_issues {St A : Type} (name : string) (f : M St A) (N B : Z)
    (rq : Request) (s : St) :
  1 <= N -> issues rq (events (f s)) -> issues rq (events (retryable name f N B s)).
Proof.
  intros HN Hf.
  destruct (@retryable_first_attempt St A name f N B s HN) as [more ->].
  now apply issues_prefix.
Qed.

(** An operation that raises at every attempt makes the wrapper raise, and
    what holds of every error of the operation holds of the wrapper's. *)
Lemma retry_loop_raises {St A : Type} (name : string) (f : M St A) (N B : Z)
    (P : exn -> Prop) :
  0 <= B ->
  (forall s, exists e, outcome (f s) = Raise e /\ P e) ->
  forall (n : nat) k s,
    0 <= k ->
    Z.of_nat n = N - k ->
    exists e, outcome (retry_loop name f N B (range k (N + 1)) s) = Raise e /\ P e.
Proof.
  intros HB Hf. induction n as [|n IH]; intros k s Hk Hn; rewrite range_cons by lia;
    destruct (Hf s) as ([code msg|cls msg] & Ho & HP).
  - replace k with N by lia. erewrite retry_loop_last by exact Ho.
    eexists. split; [reflexivity|exact HP].
  - erewrite retry_loop_pyerror by exact Ho.
    eexists. split; [reflexivity|exact HP].
  - erewrite retry_loop_again; [|exact Ho|lia|nia]. cbv zeta. cbn [outcome].
    apply IH; lia.
  - erewrite retry_loop_pyerror by exact Ho.
    eexists. split; [reflexivity|exact HP].
Qed.

Lemma retryable_raises {St A : Type} (name : string) (f : M St A) (N B : Z)
    (P : exn -> Prop) (s : St) :
  1 <= N ->
  0 <= B ->
  (forall s', exists e, outcome (f s') = Raise e /\ P e) ->
  exists e, outcome (retryable name f N B s) = Raise e /\ P e.
Proof.
  intros HN HB Hf. unfold retryable.
  apply (@retry_loop_raises St A name f N B P HB Hf (Z.to_nat (N - 1))); lia.
Qed.

(** ** Provider calls *)

Section Calls.

Context {PS : Type} `{Provider PS}.

Lemma call_ok rq s r s' :
  handle rq s = (Ok r, s') -> call rq s = mkRun (Ret r) s' [Api rq (Ok r)].
Proof. intros Hh. unfold call. now rewrite Hh. Qed.

Lemma call_err rq s e s' :
  handle rq s = (Err e, s') -> call rq s = mkRun (Raise e) s' [Api rq (Err e)].
Proof. intros Hh. unfold call. now rewrite Hh. Qed.

Lemma call_events rq s : events (call rq s) = [Api rq (fst (handle rq s))].
Proof.
  unfold call. destruct (handle rq s) as [[r|e] s']; reflexivity.
Qed.

End Calls.

(** ** Auto Scaling: which call follows the probe *)

Section AutoScaling.

Context {PS : Type} `{Provider PS}.
Variables (name launch_template_id : string) (subnets : list string)
          (desired minimum maximum : Z) (tags : TagSet).

Let params : AsgParams :=
  mkAsgParams name launch_template_id (String.concat "," subnets)
              desired minimum maximum tags.
Let body : M PS unit :=
  ensure_auto_scaling_group_body name launch_template_id subnets
                                 desired minimum maximum tags.

Lemma asg_body_in_use s msg s1 :
  handle (DescribeAutoScalingGroups name) s
  = (Err (ClientError "ResourceInUse" msg), s1) ->
  events (body s)
  = [Api (DescribeAutoScalingGroups name) (Err (ClientError "ResourceInUse" msg));
     Api (CreateAutoScalingGroup params)
         (fst (handle (CreateAutoScalingGroup params) s1))].
Proof.
  intros Hd. unfold body, ensure_auto_scaling_group_body, bind, try_except.
  rewrite (call_err _ _ Hd). cbn. fold params.
  rewrite call_events.
  unfold call. destruct (handle (CreateAutoScalingGroup params) s1) as [[r|e] s2];
    reflexivity.
Qed.

Lemma asg_body_found s r s1 :
  handle (DescribeAutoScalingGroups name) s = (Ok r, s1) ->
  events (body s)
  = [Api (DescribeAutoScalingGroups name) (Ok r);
     Api (UpdateAutoScalingGroup params)
         (fst (handle (UpdateAutoScalingGroup params) s1))].
Proof.
  intros Hd. unfold body, ensure_auto_scaling_group_body, bind, try_except.
  rewrite (call_ok _ _ Hd). cbn. fold params.
  rewrite call_events.
  unfold call. destruct (handle (UpdateAutoScalingGroup params) s1) as [[r'|e] s2];
    reflexivity.
Qed.

End AutoScaling.

(** C1, as stated, fails both ways.  When describe raises the in-use fault
    the group is created and not updated; when describe returns, the group
    is updated and not created. *)
Lemma asg_branch_counterexample :
  let faulted :=
    events (@ensure_auto_scaling_group unit (Stateless asg_in_use)
              "web" "lt-1" ["subnet-a"; "subnet-b"] 2 1 3 [("Project", "cda")] 5 2 tt) in
  let quiet :=
    events (@ensure_auto_scaling_group unit (Stateless accepts_all)
              "web" "lt-1" ["subnet-a"; "subnet-b"] 2 1 3 [("Project", "cda")] 5 2 tt) in
  let params := mkAsgParams "web" "lt-1" "subnet-a,subnet-b" 2 1 3 [("Project", "cda")] in
  faulted = [Api (DescribeAutoScalingGroups "web") (Err (ClientError "ResourceInUse" "in use"));
             Api (CreateAutoScalingGroup params) (Ok RNone)]
  /\ quiet = [Api (DescribeAutoScalingGroups "web") (Ok RNone);
              Api (UpdateAutoScalingGroup params) (Ok RNone)]
  /\ ~ (issues (UpdateAutoScalingGroup params) faulted /\ never (is_create_asg "web") faulted)
  /\ ~ issues (CreateAutoScalingGroup params) quiet.
Proof.
  cbv zeta. split; [reflexivity|]. split; [reflexivity|]. split.
  - intros [[res Hin] _]. vm_compute in Hin.
    destruct Hin as [Heq|[Heq|[]]]; discriminate Heq.
  - intros [res Hin]. vm_compute in Hin.
    destruct Hin as [Heq|[Heq|[]]]; discriminate Heq.
Qed.

(** C1, amended: for a group name for which the provider's describe call
    raises the in-use fault, [ensure_auto_scaling_group] issues the create
    call and never the update call; for a name for which the describe call
    returns, it issues the update call and never the create call. *)
Theorem asg_branch {PS : Type} `{Provider PS}
    (name launch_template_id : string) (subnets : list string)
    (desired minimum maximum : Z) (tags : TagSet) (N B : Z) (s : PS) :
  1 <= N ->
  let t := events (ensure_auto_scaling_group name launch_template_id subnets
                     desired minimum maximum tags N B s) in
  let params := mkAsgParams name launch_template_id (String.concat "," subnets)
                            desired minimum maximum tags in
  ((forall ps, exists msg ps',
       handle (DescribeAutoScalingGroups name) ps
       = (Err (ClientError "ResourceInUse" msg), ps')) ->
   issues (CreateAutoScalingGroup params) t /\ never (is_update_asg name) t)
  /\ ((forall ps, exists r ps',
          handle (DescribeAutoScalingGroups name) ps = (Ok r, ps')) ->
      issues (UpdateAutoScalingGroup params) t /\ never (is_create_asg name) t).
Proof.
  intros HN t params. split; intros Hd; split.
  - apply retryable_issues; [assumption|].
    destruct (Hd s) as (msg & s1 & Hs).
    rewrite (asg_body_in_use _ _ _ _ _ _ _ _ Hs).
    eexists. right. left. reflexivity.
  - apply retryable_never; try reflexivity.
    intros s'. destruct (Hd s') as (msg & s1 & Hs).
    rewrite (asg_body_in_use _ _ _ _ _ _ _ _ Hs).
    repeat constructor.
  - apply retryable_issues; [assumption|].
    destruct (Hd s) as (r & s1 & Hs).
    rewrite (asg_body_found _ _ _ _ _ _ _ _ Hs).
    eexists. right. left. reflexivity.
  - apply retryable_never; try reflexivity.
    intros s'. destruct (Hd s') as (r & s1 & Hs).
    rewrite (asg_body_found _ _ _ _ _ _ _ _ Hs).
    repeat constructor.
Qed.

Lemma asg_branch_witness :
  let params := mkAsgParams "web" "lt-1" "subnet-a,subnet-b" 2 1 3 [("Project", "cda")] in
  let faulted :=
    events (@ensure_auto_scaling_group unit (Stateless asg_in_use)
              "web" "lt-1" ["subnet-a"; "subnet-b"] 2 1 3 [("Project", "cda")] 5 2 tt) in
  let quiet :=
    events (@ensure_auto_scaling_group unit (Stateless accepts_all)
              "web" "lt-1" ["subnet-a"; "subnet-b"] 2 1 3 [("Project", "cda")] 5 2 tt) in
  (issues (CreateAutoScalingGroup params) faulted /\ never (is_update_asg "web") faulted)
  /\ (issues (UpdateAutoScalingGroup params) quiet /\ never (is_create_asg "web") quiet).
Proof.
  split.
  - apply (proj1 (@asg_branch unit (Stateless asg_in_use)
                    "web" "lt-1" ["subnet-a"; "subnet-b"] 2 1 3 [("Project", "cda")]
                    5 2 tt ltac:(lia))).
    intros ps. exists "in use", ps. reflexivity.
  - apply (proj2 (@asg_branch unit (Stateless accepts_all)
                    "web" "lt-1" ["subnet-a"; "subnet-b"] 2 1 3 [("Project", "cda")]
                    5 2 tt ltac:(lia))).
    intros ps. exists RNone, ps. reflexivity.
Defined.

(** ** Subnets: when public addressing is switched on *)

Section Subnet.

Context {PS : Type} `{Provider PS}.
Variables (name vpc_id cidr az : string) (public : bool) (tags : TagSet).

Lemma subnet_body_existing s subnet_id others s1 :
  handle (DescribeSubnets vpc_id cidr) s = (Ok (RList (subnet_id :: others)), s1) ->
  ensure_subnet_body name vpc_id cidr az public tags s
  = mkRun (Ret subnet_id) s1
          [Api (DescribeSubnets vpc_id cidr) (Ok (RList (subnet_id :: others)))].
Proof.
  intros Hd. unfold ensure_subnet_body, bind.
  rewrite (call_ok _ _ Hd). reflexivity.
Qed.

Lemma subnet_body_created s r s1 subnet_id s2 :
  handle (DescribeSubnets vpc_id cidr) s = (Ok r, s1) ->
  get_list r = [] ->
  handle (CreateSubnet vpc_id cidr az (_tags name tags)) s1 = (Ok (RId subnet_id), s2) ->
  events (ensure_subnet_body name vpc_id cidr az true tags s)
  = [Api (DescribeSubnets vpc_id cidr) (Ok r);
     Api (CreateSubnet vpc_id cidr az (_tags name tags)) (Ok (RId subnet_id));
     Api (ModifySubnetAttributeMapPublicIp subnet_id)
         (fst (handle (ModifySubnetAttributeMapPublicIp subnet_id) s2))].
Proof.
  intros Hd Hempty Hc. unfold ensure_subnet_body, bind.
  rewrite (call_ok _ _ Hd). cbn. rewrite Hempty.
  rewrite (call_ok _ _ Hc). cbn.
  unfold call.
  destruct (handle (ModifySubnetAttributeMapPublicIp subnet_id) s2) as [[r'|e] s3];
    reflexivity.
Qed.

End Subnet.

(** C4, as stated, fails for a subnet that is already there.  In the
    in-memory cloud, a subnet first ensured as private and then ensured as
    public with the same (vpc_id, cidr) is found by the second call, which
    returns its identifier after the describe call and issues no
    modify-subnet-attribute call. *)
Lemma subnet_public_counterexample :
  let first := @ensure_subnet _ Cloud.provider "private-a" "vpc-1" "10.0.0.0/24"
                 "eu-west-1a" false [("Tier", "private")] 5 2
                 (Cloud.empty ["eu-west-1a"]) in
  let second := @ensure_subnet _ Cloud.provider "public-a" "vpc-1" "10.0.0.0/24"
                  "eu-west-1a" true [("Tier", "public")] 5 2 (final first) in
  outcome first = Ret (Some "subnet-1")
  /\ outcome second = Ret (Some "subnet-1")
  /\ events second
     = [Api (DescribeSubnets "vpc-1" "10.0.0.0/24") (Ok (RList ["subnet-1"]))]
  /\ ~ issues (ModifySubnetAttributeMapPublicIp "subnet-1") (events first ++ events second).
Proof.
  cbv zeta. split; [reflexivity|]. split; [reflexivity|]. split; [reflexivity|].
  intros [res Hin]. vm_compute in Hin.
  repeat (destruct Hin as [Heq|Hin]; [discriminate Heq|]). exact Hin.
Qed.

(** C4, amended: [ensure_subnet] with [public] true enables the
    auto-assignment of public addresses on the subnet it creates on this
    call; when a subnet with the same (vpc_id, cidr) exists, it returns the
    identifier of that subnet after the describe call alone. *)
Theorem subnet_public_on_creation {PS : Type} `{Provider PS}
    (name vpc_id cidr az : string) (tags : TagSet) (N B : Z) (s : PS) :
  1 <= N ->
  (forall subnet_id others s1,
      handle (DescribeSubnets vpc_id cidr) s = (Ok (RList (subnet_id :: others)), s1) ->
      ensure_subnet name vpc_id cidr az true tags N B s
      = mkRun (Ret (Some subnet_id)) s1
              [Api (DescribeSubnets vpc_id cidr) (Ok (RList (subnet_id :: others)))])
  /\ (forall r s1 subnet_id s2,
      handle (DescribeSubnets vpc_id cidr) s = (Ok r, s1) ->
      get_list r = [] ->
      handle (CreateSubnet vpc_id cidr az (_tags name tags)) s1 = (Ok (RId subnet_id), s2) ->
      exists more,
        events (ensure_subnet name vpc_id cidr az true tags N B s)
        = [Api (DescribeSubnets vpc_id cidr) (Ok r);
           Api (CreateSubnet vpc_id cidr az (_tags name tags)) (Ok (RId subnet_id));
           Api (ModifySubnetAttributeMapPublicIp subnet_id)
               (fst (handle (ModifySubnetAttributeMapPublicIp subnet_id) s2))]
          ++ more).
Proof.
  intros HN. split.
  - intros subnet_id others s1 Hd.
    pose proof (@subnet_body_existing PS H name vpc_id cidr az true tags
                  s subnet_id others s1 Hd) as Hb.
    unfold ensure_subnet.
    rewrite (@retryable_ret _ _ "ensure_subnet" _ N B s subnet_id HN);
      rewrite Hb; reflexivity.
  - intros r s1 subnet_id s2 Hd Hempty Hc.
    unfold ensure_subnet.
    destruct (@retryable_first_attempt _ _ "ensure_subnet"
                (ensure_subnet_body name vpc_id cidr az true tags) N B s HN)
      as [more ->].
    exists more.
    now rewrite (@subnet_body_created PS H name vpc_id cidr az tags
                   s r s1 subnet_id s2 Hd Hempty Hc).
Qed.

Lemma subnet_public_on_creation_witness :
  let created_one :=
    Cloud.mk 2 ["eu-west-1a"] [("subnet", "vpc-1|10.0.0.0/24", "subnet-1")] in
  @ensure_subnet _ Cloud.provider "public-a" "vpc-1" "10.0.0.0/24"
     "eu-west-1a" true [("Tier", "public")] 5 2 created_one
  = mkRun (Ret (Some "subnet-1")) created_one
          [Api (DescribeSubnets "vpc-1" "10.0.0.0/24") (Ok (RList ["subnet-1"]))]
  /\ exists more,
    events (@ensure_subnet _ Cloud.provider "public-a" "vpc-1" "10.0.0.0/24"
              "eu-west-1a" true [("Tier", "public")] 5 2 (Cloud.empty ["eu-west-1a"]))
    = [Api (DescribeSubnets "vpc-1" "10.0.0.0/24") (Ok (RList []));
       Api (CreateSubnet "vpc-1" "10.0.0.0/24" "eu-west-1a"
              (_tags "public-a" [("Tier", "public")])) (Ok (RId "subnet-1"));
       Api (ModifySubnetAttributeMapPublicIp "subnet-1") (Ok RNone)]
      ++ more.
Proof.
  intros created_one. split.
  - apply (proj1 (@subnet_public_on_creation _ Cloud.provider "public-a" "vpc-1"
                    "10.0.0.0/24" "eu-west-1a" [("Tier", "public")] 5 2
                    created_one ltac:(lia))).
    reflexivity.
  - apply (proj2 (@subnet_public_on_creation _ Cloud.provider "public-a" "vpc-1"
                    "10.0.0.0/24" "eu-west-1a" [("Tier", "public")] 5 2
                    (Cloud.empty ["eu-west-1a"]) ltac:(lia))
                 (RList []) (Cloud.empty ["eu-west-1a"]) "subnet-1" created_one);
      reflexivity.
Defined.

(** ** Routes: the conflict that counts as success *)

Section Route.

Context {PS : Type} `{Provider PS}.
Variables (route_table_id destination_cidr : string)
          (gateway_id nat_gateway_id : option string).

Let request : Request :=
  CreateRoute route_table_id destination_cidr
              (truthy_str gateway_id) (truthy_str nat_gateway_id).
Let body : M PS unit :=
  ensure_route_body route_table_id destination_cidr gateway_id nat_gateway_id.

Lemma route_body_conflict s msg s1 :
  handle request s = (Err (ClientError "RouteAlreadyExists" msg), s1) ->
  body s = mkRun (Ret tt) s1
                 [Api request (Err (ClientError "RouteAlreadyExists" msg))].
Proof.
  intros Hc. unfold body, ensure_route_body, try_except, bind.
  fold request. rewrite (call_err _ _ Hc). reflexivity.
Qed.

Lemma route_body_other s code msg s1 :
  handle request s = (Err (ClientError code msg), s1) ->
  code <> "RouteAlreadyExists" ->
  body s = mkRun (Raise (ClientError code msg)) s1
                 [Api request (Err (ClientError code msg))].
Proof.
  intros Hc Hcode. unfold body, ensure_route_body, try_except, bind.
  fold request. rewrite (call_err _ _ Hc). cbn.
  destruct (String.eqb_spec code "RouteAlreadyExists") as [|_]; [contradiction|].
  reflexivity.
Qed.

End Route.

(** C6: when the provider answers the create-route call with the code
    [RouteAlreadyExists], [ensure_route] returns, after that one call.  An
    error with another code is not swallowed: the operation re-raises it
    as it is, and [ensure_route] raises it to its caller when the
    provider keeps answering with it.  A second [ensure_route] for the same
    destination, which the provider answers with [RouteAlreadyExists],
    returns. *)
Theorem route_conflict_is_success {PS : Type} `{Provider PS}
    (route_table_id destination_cidr : string)
    (gateway_id nat_gateway_id : option string) (N B : Z) (s : PS) :
  1 <= N ->
  let request := CreateRoute route_table_id destination_cidr
                             (truthy_str gateway_id) (truthy_str nat_gateway_id) in
  let ensure := ensure_route route_table_id destination_cidr
                             gateway_id nat_gateway_id N B in
  (forall msg s1,
      handle request s = (Err (ClientError "RouteAlreadyExists" msg), s1) ->
      ensure s = mkRun (Ret (Some tt)) s1
                       [Api request (Err (ClientError "RouteAlreadyExists" msg))])
  /\ (forall code msg s1,
      handle request s = (Err (ClientError code msg), s1) ->
      code <> "RouteAlreadyExists" ->
      ensure_route_body route_table_id destination_cidr gateway_id nat_gateway_id s
      = mkRun (Raise (ClientError code msg)) s1
              [Api request (Err (ClientError code msg))])
  /\ (forall code msg,
      code <> "RouteAlreadyExists" ->
      0 <= B ->
      (forall ps, exists ps', handle request ps = (Err (ClientError code msg), ps')) ->
      outcome (ensure s) = Raise (ClientError code msg))
  /\ (forall msg s2,
      handle request (final (ensure s))
      = (Err (ClientError "RouteAlreadyExists" msg), s2) ->
      outcome (ensure (final (ensure s))) = Ret (Some tt)).
Proof.
  intros HN request ensure.
  assert (Hconflict : forall s0 msg s1,
             handle request s0 = (Err (ClientError "RouteAlreadyExists" msg), s1) ->
             ensure s0 = mkRun (Ret (Some tt)) s1
                          [Api request (Err (ClientError "RouteAlreadyExists" msg))]).
  { intros s0 msg s1 Hc.
    pose proof (@route_body_conflict PS H route_table_id destination_cidr
                  gateway_id nat_gateway_id s0 msg s1 Hc) as Hb.
    unfold ensure, ensure_route.
    rewrite (@retryable_ret _ _ "ensure_route" _ N B s0 tt HN);
      rewrite Hb; reflexivity. }
  split; [apply Hconflict|]. split; [|split].
  - intros code msg s1 Hc Hcode.
    exact (@route_body_other PS H route_table_id destination_cidr
             gateway_id nat_gateway_id s code msg s1 Hc Hcode).
  - intros code msg Hcode HB Hall.
    destruct (@retryable_raises PS unit "ensure_route"
                (ensure_route_body route_table_id destination_cidr
                                   gateway_id nat_gateway_id)
                N B (fun e => e = ClientError code msg) s HN HB)
      as (e & He & ->); [|exact He].
    intros s'. destruct (Hall s') as [ps' Hc].
    exists (ClientError code msg). split; [|reflexivity].
    now rewrite (@route_body_other PS H route_table_id destination_cidr
                   gateway_id nat_gateway_id s' code msg ps' Hc Hcode).
  - intros msg s2 Hc. now rewrite (Hconflict _ _ _ Hc).
Qed.

Lemma route_conflict_is_success_witness :
  let routed := Cloud.mk 1 [] [("route", "rtb-1|0.0.0.0/0", "rtb-1|0.0.0.0/0")] in
  let request := CreateRoute "rtb-1" "0.0.0.0/0" (Some "igw-1") None in
  (let first := @ensure_route _ Cloud.provider "rtb-1" "0.0.0.0/0" (Some "igw-1") None 5 2
                  (Cloud.empty []) in
   outcome first = Ret (Some tt)
   /\ outcome (@ensure_route _ Cloud.provider "rtb-1" "0.0.0.0/0" (Some "igw-1") None 5 2
                 (final first)) = Ret (Some tt))
  /\ @ensure_route _ Cloud.provider "rtb-1" "0.0.0.0/0" (Some "igw-1") None 5 2 routed
     = mkRun (Ret (Some tt)) routed
             [Api request (Err (ClientError "RouteAlreadyExists" "0.0.0.0/0"))]
  /\ @ensure_route_body unit (Stateless (route_refused "InvalidParameterValue"))
       "rtb-1" "0.0.0.0/0" (Some "igw-1") None tt
     = mkRun (Raise (ClientError "InvalidParameterValue" "refused")) tt
             [Api request (Err (ClientError "InvalidParameterValue" "refused"))]
  /\ outcome (@ensure_route unit (Stateless (route_refused "InvalidParameterValue"))
                "rtb-1" "0.0.0.0/0" (Some "igw-1") None 5 2 tt)
     = Raise (ClientError "InvalidParameterValue" "refused").
Proof.
  intros routed request.
  split; [split; [reflexivity|]|split; [|split]].
  - apply (proj2 (proj2 (proj2
             (@route_conflict_is_success _ Cloud.provider "rtb-1" "0.0.0.0/0"
                (Some "igw-1") None 5 2 (Cloud.empty []) ltac:(lia))))
             "0.0.0.0/0" routed).
    reflexivity.
  - apply (proj1 (@route_conflict_is_success _ Cloud.provider "rtb-1" "0.0.0.0/0"
                    (Some "igw-1") None 5 2 routed ltac:(lia))).
    reflexivity.
  - apply (proj1 (proj2
             (@route_conflict_is_success unit
                (Stateless (route_refused "InvalidParameterValue"))
                "rtb-1" "0.0.0.0/0" (Some "igw-1") None 5 2 tt ltac:(lia)))).
    + reflexivity.
    + discriminate.
  - apply (proj1 (proj2 (proj2
             (@route_conflict_is_success unit
                (Stateless (route_refused "InvalidParameterValue"))
                "rtb-1" "0.0.0.0/0" (Some "igw-1") None 5 2 tt ltac:(lia))))
             "InvalidParameterValue" "refused").
    + discriminate.
    + lia.
    + intros ps. exists ps. reflexivity.
Defined.

(** ** NAT gateways: no lookup, and a wait before the return *)

(** Case analysis on the answer to the next provider call. *)
Ltac next_answer :=
  match goal with
  | |- context [handle ?rq ?s] =>
      let Hh := fresh "Hh" in
      destruct (handle rq s) as [[[?|?|]|?] ?] eqn:Hh; cbn
  end.

Section NatGateway.

Context {PS : Type} `{Provider PS}.
Variables (subnet_id name : string) (tags : TagSet).

Let body : M PS string := ensure_nat_gateway_body subnet_id name tags.

Lemma nat_body_no_lookup s : never is_lookup (events (body s)).
Proof.
  unfold body, ensure_nat_gateway_body, bind, call, item_id, ret, raise; cbn.
  repeat next_answer; repeat constructor.
Qed.

Lemma nat_body_first s :
  exists more,
    events (body s)
    = Api (AllocateAddress (_tags name tags))
          (fst (handle (AllocateAddress (_tags name tags)) s)) :: more.
Proof.
  unfold body, ensure_nat_gateway_body, bind, call, item_id, ret, raise; cbn.
  repeat next_answer; eexists; reflexivity.
Qed.

Lemma nat_body_second s allocation_id s1 :
  handle (AllocateAddress (_tags name tags)) s = (Ok (RId allocation_id), s1) ->
  exists more,
    events (body s)
    = Api (AllocateAddress (_tags name tags)) (Ok (RId allocation_id))
      :: Api (CreateNatGateway subnet_id allocation_id (_tags name tags))
             (fst (handle (CreateNatGateway subnet_id allocation_id
                                            (_tags name tags)) s1))
      :: more.
Proof.
  intros Ha.
  unfold body, ensure_nat_gateway_body, bind, call, item_id, ret, raise; cbn.
  rewrite Ha; cbn.
  repeat next_answer; eexists; reflexivity.
Qed.

Lemma nat_body_returns s id :
  outcome (body s) = Ret id ->
  exists allocation_id res,
    events (body s)
    = [Api (AllocateAddress (_tags name tags)) (Ok (RId allocation_id));
       Api (CreateNatGateway subnet_id allocation_id (_tags name tags)) (Ok (RId id));
       Api (WaitNatGatewayAvailable id) (Ok res)].
Proof.
  unfold body, ensure_nat_gateway_body, bind, call, item_id, ret, raise; cbn.
  repeat next_answer; intros Hret; try discriminate Hret.
  all: injection Hret as <-.
  all: eexists _, _; reflexivity.
Qed.

Lemma nat_body_wait_raises s allocation_id s1 id s2 e s3 :
  handle (AllocateAddress (_tags name tags)) s = (Ok (RId allocation_id), s1) ->
  handle (CreateNatGateway subnet_id allocation_id (_tags name tags)) s1
  = (Ok (RId id), s2) ->
  handle (WaitNatGatewayAvailable id) s2 = (Err e, s3) ->
  body s
  = mkRun (Raise e) s3
          [Api (AllocateAddress (_tags name tags)) (Ok (RId allocation_id));
           Api (CreateNatGateway subnet_id allocation_id (_tags name tags))
               (Ok (RId id));
           Api (WaitNatGatewayAvailable id) (Err e)].
Proof.
  intros Ha Hc Hw.
  unfold body, ensure_nat_gateway_body, bind, call, item_id, ret, raise; cbn.
  rewrite Ha; cbn. rewrite Hc; cbn. rewrite Hw; cbn. reflexivity.
Qed.

Lemma nat_body_success s allocation_id s1 id s2 res s3 :
  handle (AllocateAddress (_tags name tags)) s = (Ok (RId allocation_id), s1) ->
  handle (CreateNatGateway subnet_id allocation_id (_tags name tags)) s1
  = (Ok (RId id), s2) ->
  handle (WaitNatGatewayAvailable id) s2 = (Ok res, s3) ->
  body s
  = mkRun (Ret id) s3
          [Api (AllocateAddress (_tags name tags)) (Ok (RId allocation_id));
           Api (CreateNatGateway subnet_id allocation_id (_tags name tags))
               (Ok (RId id));
           Api (WaitNatGatewayAvailable id) (Ok res)].
Proof.
  intros Ha Hc Hw.
  unfold body, ensure_nat_gateway_body, bind, call, item_id, ret, raise; cbn.
  rewrite Ha; cbn. rewrite Hc; cbn. rewrite Hw; cbn. reflexivity.
Qed.

End NatGateway.

(** C8: [ensure_nat_gateway] sends no describe request; the first request
    of every call is the allocation of an address and, once the provider
    has answered it, the second creates a NAT gateway in the subnet with
    that allocation.  A call that returns an identifier has ended with
    these three requests: an allocation that returned, the creation of a
    gateway with that allocation, and the wait for the gateway the create
    request answered with, which came back; the identifier returned is that
    gateway's.  When the wait raises instead, the operation raises that
    error and returns nothing.  Two calls for one subnet, on a provider
    that accepts the requests, allocate two addresses and create two
    gateways. *)
Theorem nat_gateway_unconditional {PS : Type} `{Provider PS}
    (subnet_id name : string) (tags : TagSet) (N B : Z) (s : PS) :
  1 <= N ->
  let ensure := ensure_nat_gateway subnet_id name tags N B in
  let allocate := AllocateAddress (_tags name tags) in
  let create := fun a => CreateNatGateway subnet_id a (_tags name tags) in
  never is_lookup (events (ensure s))
  /\ (exists more, events (ensure s) = Api allocate (fst (handle allocate s)) :: more)
  /\ (forall a s1,
         handle allocate s = (Ok (RId a), s1) ->
         exists more,
           events (ensure s)
           = Api allocate (Ok (RId a))
             :: Api (create a) (fst (handle (create a) s1)) :: more)
  /\ (forall id,
         outcome (ensure s) = Ret (Some id) ->
         exists before a res,
           events (ensure s)
           = before ++ [Api allocate (Ok (RId a));
                        Api (create a) (Ok (RId id));
                        Api (WaitNatGatewayAvailable id) (Ok res)])
  /\ (forall a s1 id s2 e s3,
         handle allocate s = (Ok (RId a), s1) ->
         handle (create a) s1 = (Ok (RId id), s2) ->
         handle (WaitNatGatewayAvailable id) s2 = (Err e, s3) ->
         ensure_nat_gateway_body subnet_id name tags s
         = mkRun (Raise e) s3
                 [Api allocate (Ok (RId a));
                  Api (create a) (Ok (RId id));
                  Api (WaitNatGatewayAvailable id) (Err e)])
  /\ outcome (ensure s) <> Ret None
  /\ ((forall ps, exists a ps', handle allocate ps = (Ok (RId a), ps')) ->
      (forall a ps, exists id ps', handle (create a) ps = (Ok (RId id), ps')) ->
      (forall id ps, exists res ps',
            handle (WaitNatGatewayAvailable id) ps = (Ok res, ps')) ->
      let twice := (ensure ;; ensure) s in
      count is_allocate_address (events twice) = 2%nat
      /\ count (is_create_nat_gateway subnet_id) (events twice) = 2%nat
      /\ never is_lookup (events twice)).
Proof.
  intros HN ensure allocate create.
  assert (Hnever : forall s0, never is_lookup (events (ensure s0))).
  { intros s0. apply retryable_never; try reflexivity.
    intros s'. apply nat_body_no_lookup. }
  split; [apply Hnever|]. split; [|split; [|split; [|split; [|split]]]].
  - destruct (@retryable_first_attempt _ _ "ensure_nat_gateway"
                (ensure_nat_gateway_body subnet_id name tags) N B s HN) as [more Hm].
    destruct (@nat_body_first PS H subnet_id name tags s) as [more' Hb].
    unfold ensure, ensure_nat_gateway. rewrite Hm, Hb. simpl. eauto.
  - intros a s1 Ha.
    destruct (@retryable_first_attempt _ _ "ensure_nat_gateway"
                (ensure_nat_gateway_body subnet_id name tags) N B s HN) as [more Hm].
    destruct (@nat_body_second PS H subnet_id name tags s a s1 Ha) as [more' Hb].
    unfold ensure, ensure_nat_gateway. rewrite Hm, Hb. simpl. eauto.
  - intros id Hret. unfold ensure, ensure_nat_gateway, retryable in *.
    destruct (retry_loop_returns _ _ _ _ _ _ Hret) as (before & s' & Hev & Hs' & _).
    destruct (@nat_body_returns PS H subnet_id name tags s' id Hs')
      as (a & res & Hb).
    exists before, a, res. rewrite Hev, Hb. reflexivity.
  - intros a s1 id s2 e s3 Ha Hc Hw.
    exact (@nat_body_wait_raises PS H subnet_id name tags s a s1 id s2 e s3 Ha Hc Hw).
  - apply retryable_not_none. exact HN.
  - intros Hall Hcre Hwait twice.
    assert (Hrun : forall s0, exists a id res s3,
               ensure s0
               = mkRun (Ret (Some id)) s3
                       [Api allocate (Ok (RId a)); Api (create a) (Ok (RId id));
                        Api (WaitNatGatewayAvailable id) (Ok res)]).
    { intros s0.
      destruct (Hall s0) as (a & s1 & Ha).
      destruct (Hcre a s1) as (id & s2 & Hc).
      destruct (Hwait id s2) as (res & s3 & Hw).
      exists a, id, res, s3.
      pose proof (@nat_body_success PS H subnet_id name tags
                    s0 a s1 id s2 res s3 Ha Hc Hw) as Hb.
      unfold ensure, ensure_nat_gateway.
      rewrite (@retryable_ret _ _ "ensure_nat_gateway" _ N B s0 id HN);
        rewrite Hb; reflexivity. }
    subst twice. unfold bind.
    destruct (Hrun s) as (a & id & res & s3 & ->). cbn [outcome final events].
    destruct (Hrun s3) as (a' & id' & res' & s3' & ->). cbn [outcome final events].
    unfold count, create. cbn. rewrite String.eqb_refl. cbn.
    split; [reflexivity|]. split; [reflexivity|]. repeat constructor.
Qed.

Lemma nat_gateway_unconditional_witness :
  let ensure := @ensure_nat_gateway _ Cloud.provider "subnet-3" "cda-nat"
                  [("Project", "cda")] 5 2 in
  let start := Cloud.empty ["eu-west-1a"] in
  let twice := (ensure ;; ensure) start in
  (count is_allocate_address (events twice) = 2%nat
   /\ count (is_create_nat_gateway "subnet-3") (events twice) = 2%nat
   /\ never is_lookup (events twice))
  /\ (exists more,
         events (ensure start)
         = Api (AllocateAddress (_tags "cda-nat" [("Project", "cda")]))
               (Ok (RId "eipalloc-1"))
           :: Api (CreateNatGateway "subnet-3" "eipalloc-1"
                     (_tags "cda-nat" [("Project", "cda")]))
                  (Ok (RId "nat-2"))
           :: more)
  /\ (exists before a res,
         events (ensure start)
         = before ++ [Api (AllocateAddress (_tags "cda-nat" [("Project", "cda")]))
                          (Ok (RId a));
                      Api (CreateNatGateway "subnet-3" a
                             (_tags "cda-nat" [("Project", "cda")]))
                          (Ok (RId "nat-2"));
                      Api (WaitNatGatewayAvailable "nat-2") (Ok res)]).
Proof.
  intros ensure start twice.
  pose proof (@nat_gateway_unconditional _ Cloud.provider "subnet-3" "cda-nat"
                [("Project", "cda")] 5 2 start ltac:(lia)) as Hthm.
  split; [|split].
  - apply (proj2 (proj2 (proj2 (proj2 (proj2 (proj2 Hthm)))))).
    + intros ps. eexists _, _. reflexivity.
    + intros a ps. eexists _, _. reflexivity.
    + intros id ps. eexists _, _. reflexivity.
  - apply (proj1 (proj2 (proj2 Hthm)) "eipalloc-1"
             (Cloud.mk 2 ["eu-west-1a"] [("eip", "", "eipalloc-1")])).
    reflexivity.
  - apply (proj1 (proj2 (proj2 (proj2 Hthm))) "nat-2"). reflexivity.
Defined.

(** ** Buckets: the probe and the location constraint *)

Section Bucket.

Context {PS : Type} `{Provider PS}.
Variables (bucket region : string).

Let body : M PS unit := ensure_bucket_body bucket region.
Let constraint : option string :=
  if negb (String.eqb region "us-east-1") then Some region else None.

Lemma bucket_body_absent s code msg s1 :
  handle (HeadBucket bucket) s = (Err (ClientError code msg), s1) ->
  code = "404" \/ code = "NoSuchBucket" ->
  events (body s)
  = [Api (HeadBucket bucket) (Err (ClientError code msg));
     LogInfo (String.append "Creating bucket " bucket);
     Api (CreateBucket bucket constraint)
         (fst (handle (CreateBucket bucket constraint) s1))].
Proof.
  intros Hh Hcode. unfold body, ensure_bucket_body, try_except, bind.
  rewrite (call_err _ _ Hh). cbn [outcome final events].
  assert (Hmatch : String.eqb code "404" || String.eqb code "NoSuchBucket" = true).
  { destruct Hcode as [-> | ->]; reflexivity. }
  rewrite Hmatch. fold constraint. cbn.
  unfold call. destruct (handle (CreateBucket bucket constraint) s1) as [[r|e] s2];
    reflexivity.
Qed.

Lemma bucket_body_other s code msg s1 :
  handle (HeadBucket bucket) s = (Err (ClientError code msg), s1) ->
  code <> "404" -> code <> "NoSuchBucket" ->
  body s = mkRun (Raise (ClientError code msg)) s1
                 [Api (HeadBucket bucket) (Err (ClientError code msg))].
Proof.
  intros Hh H404 Hno. unfold body, ensure_bucket_body, try_except, bind.
  rewrite (call_err _ _ Hh). cbn [outcome final events].
  destruct (String.eqb_spec code "404") as [|_]; [contradiction|].
  destruct (String.eqb_spec code "NoSuchBucket") as [|_]; [contradiction|].
  reflexivity.
Qed.

End Bucket.

(** C9: when the probe fails with the code [404] or [NoSuchBucket],
    [ensure_bucket] goes on to the create call, without a location
    constraint when the region is [us-east-1] and with the region as the
    constraint otherwise.  A probe error with another code is re-raised as
    it is and no create call follows; when the provider keeps answering
    the probe with it, [ensure_bucket] raises it and has issued no create
    call. *)
Theorem bucket_region_constraint {PS : Type} `{Provider PS}
    (bucket region : string) (N B : Z) (s : PS) :
  1 <= N ->
  let constraint := if String.eqb region "us-east-1" then None else Some region in
  (region = "us-east-1" <-> constraint = None)
  /\ (region <> "us-east-1" -> constraint = Some region)
  /\ (forall code msg s1,
         handle (HeadBucket bucket) s = (Err (ClientError code msg), s1) ->
         code = "404" \/ code = "NoSuchBucket" ->
         exists more,
           events (ensure_bucket bucket region N B s)
           = [Api (HeadBucket bucket) (Err (ClientError code msg));
              LogInfo (String.append "Creating bucket " bucket);
              Api (CreateBucket bucket constraint)
                  (fst (handle (CreateBucket bucket constraint) s1))] ++ more)
  /\ (forall code msg s1,
         handle (HeadBucket bucket) s = (Err (ClientError code msg), s1) ->
         code <> "404" -> code <> "NoSuchBucket" ->
         ensure_bucket_body bucket region s
         = mkRun (Raise (ClientError code msg)) s1
                 [Api (HeadBucket bucket) (Err (ClientError code msg))])
  /\ (forall code msg,
         code <> "404" -> code <> "NoSuchBucket" ->
         0 <= B ->
         (forall ps, exists ps',
               handle (HeadBucket bucket) ps = (Err (ClientError code msg), ps')) ->
         outcome (ensure_bucket bucket region N B s) = Raise (ClientError code msg)
         /\ never (is_create_bucket bucket) (events (ensure_bucket bucket region N B s))).
Proof.
  intros HN constraint.
  assert (Hc : constraint
               = if negb (String.eqb region "us-east-1") then Some region else None).
  { unfold constraint. destruct (String.eqb region "us-east-1"); reflexivity. }
  split; [|split; [|split; [|split]]].
  - unfold constraint. destruct (String.eqb_spec region "us-east-1") as [Heq|Hne].
    + split; auto.
    + split; [contradiction|discriminate].
  - intros Hne. unfold constraint.
    destruct (String.eqb_spec region "us-east-1") as [Heq|_]; [contradiction|reflexivity].
  - intros code msg s1 Hh Hcode.
    destruct (@retryable_first_attempt _ _ "ensure_bucket"
                (ensure_bucket_body bucket region) N B s HN) as [more Hm].
    exists more. unfold ensure_bucket. rewrite Hm, Hc.
    now rewrite (@bucket_body_absent PS H bucket region s code msg s1 Hh Hcode).
  - intros code msg s1 Hh H404 Hno.
    exact (@bucket_body_other PS H bucket region s code msg s1 Hh H404 Hno).
  - intros code msg H404 Hno HB Hall.
    assert (Hbody : forall s', exists ps',
               ensure_bucket_body bucket region s'
               = mkRun (Raise (ClientError code msg)) ps'
                       [Api (HeadBucket bucket) (Err (ClientError code msg))]).
    { intros s'. destruct (Hall s') as [ps' Hh]. exists ps'.
      exact (@bucket_body_other PS H bucket region s' code msg ps' Hh H404 Hno). }
    split.
    + destruct (@retryable_raises PS unit "ensure_bucket"
                  (ensure_bucket_body bucket region)
                  N B (fun e => e = ClientError code msg) s HN HB)
        as (e & He & ->); [|exact He].
      intros s'. destruct (Hbody s') as [ps' ->].
      exists (ClientError code msg). split; reflexivity.
    + apply retryable_never; try reflexivity.
      intros s'. destruct (Hbody s') as [ps' ->]. repeat constructor.
Qed.

Lemma bucket_region_constraint_witness :
  (exists more,
      events (@ensure_bucket _ Cloud.provider "cda-raw" "us-east-1" 5 2 (Cloud.empty []))
      = [Api (HeadBucket "cda-raw") (Err (ClientError "404" "Not Found"));
         LogInfo "Creating bucket cda-raw";
         Api (CreateBucket "cda-raw" None) (Ok RNone)] ++ more)
  /\ (exists more,
      events (@ensure_bucket _ Cloud.provider "cda-raw" "eu-west-1" 5 2 (Cloud.empty []))
      = [Api (HeadBucket "cda-raw") (Err (ClientError "404" "Not Found"));
         LogInfo "Creating bucket cda-raw";
         Api (CreateBucket "cda-raw" (Some "eu-west-1")) (Ok RNone)] ++ more)
  /\ @ensure_bucket_body unit (Stateless (head_fails "403")) "cda-raw" "eu-west-1" tt
     = mkRun (Raise (ClientError "403" "head_bucket")) tt
             [Api (HeadBucket "cda-raw") (Err (ClientError "403" "head_bucket"))]
  /\ (outcome (@ensure_bucket unit (Stateless (head_fails "403")) "cda-raw" "eu-west-1" 5 2 tt)
      = Raise (ClientError "403" "head_bucket")
      /\ never (is_create_bucket "cda-raw")
               (events (@ensure_bucket unit (Stateless (head_fails "403"))
                          "cda-raw" "eu-west-1" 5 2 tt)))
  /\ (if String.eqb "eu-west-1" "us-east-1" then None else Some "eu-west-1")
     = Some "eu-west-1".
Proof.
  split; [|split; [|split; [|split]]].
  - apply (proj1 (proj2 (proj2
             (@bucket_region_constraint _ Cloud.provider "cda-raw" "us-east-1" 5 2
                (Cloud.empty []) ltac:(lia))))
             "404" "Not Found" (Cloud.empty [])); [reflexivity | left; reflexivity].
  - apply (proj1 (proj2 (proj2
             (@bucket_region_constraint _ Cloud.provider "cda-raw" "eu-west-1" 5 2
                (Cloud.empty []) ltac:(lia))))
             "404" "Not Found" (Cloud.empty [])); [reflexivity | left; reflexivity].
  - apply (proj1 (proj2 (proj2 (proj2
             (@bucket_region_constraint unit (Stateless (head_fails "403"))
                "cda-raw" "eu-west-1" 5 2 tt ltac:(lia)))))).
    + reflexivity.
    + discriminate.
    + discriminate.
  - apply (proj2 (proj2 (proj2 (proj2
             (@bucket_region_constraint unit (Stateless (head_fails "403"))
                "cda-raw" "eu-west-1" 5 2 tt ltac:(lia)))))
             "403" "head_bucket").
    + discriminate.
    + discriminate.
    + lia.
    + intros ps. exists ps. reflexivity.
  - apply (proj1 (proj2
             (@bucket_region_constraint unit (Stateless (head_fails "403"))
                "cda-raw" "eu-west-1" 5 2 tt ltac:(lia)))).
    discriminate.
Defined.

(** ** Security group rules: the probe, and the helper that is not there *)

Section SecurityGroup.

Context {PS : Type} `{Provider PS}.
Variable group_id : string.

Lemma authorize_if_missing_listed rules egress s r s1 :
  handle (DescribeSecurityGroupRules group_id egress) s = (Ok r, s1) ->
  get_list r <> [] ->
  _authorize_if_missing group_id rules egress s
  = mkRun (Ret tt) s1 [Api (DescribeSecurityGroupRules group_id egress) (Ok r)].
Proof.
  intros Hd Hl. unfold _authorize_if_missing.
  rewrite bind_unfold, (call_ok _ _ Hd). cbn [outcome final events].
  destruct (get_list r); [contradiction|]. cbn. reflexivity.
Qed.

Lemma authorize_if_missing_none_listed rules egress s r s1 :
  handle (DescribeSecurityGroupRules group_id egress) s = (Ok r, s1) ->
  get_list r = [] ->
  _authorize_if_missing group_id rules egress s
  = mkRun (Raise name_error) s1
          [Api (DescribeSecurityGroupRules group_id egress) (Ok r)].
Proof.
  intros Hd Hl. unfold _authorize_if_missing.
  rewrite bind_unfold, (call_ok _ _ Hd). cbn [outcome final events].
  rewrite Hl. reflexivity.
Qed.

Lemma authorize_if_missing_refused rules egress s e s1 :
  handle (DescribeSecurityGroupRules group_id egress) s = (Err e, s1) ->
  _authorize_if_missing group_id rules egress s
  = mkRun (Raise e) s1 [Api (DescribeSecurityGroupRules group_id egress) (Err e)].
Proof.
  intros Hd. unfold _authorize_if_missing.
  rewrite bind_unfold, (call_err _ _ Hd). reflexivity.
Qed.

Lemma authorize_if_missing_never rules egress g s :
  never (is_any_authorize g) (events (_authorize_if_missing group_id rules egress s)).
Proof.
  destruct (handle (DescribeSecurityGroupRules group_id egress) s) as [[r|e] s1] eqn:Hd.
  - destruct (get_list r) as [|x others] eqn:Hl.
    + rewrite (@authorize_if_missing_none_listed rules egress s r s1 Hd Hl). repeat constructor.
    + rewrite (@authorize_if_missing_listed rules egress s r s1 Hd); [repeat constructor|].
      rewrite Hl. discriminate.
  - rewrite (@authorize_if_missing_refused rules egress s e s1 Hd). repeat constructor.
Qed.

Lemma configure_rules_never ingress_rules egress_rules g s :
  never (is_any_authorize g)
        (events (configure_rules group_id ingress_rules egress_rules s)).
Proof.
  assert (Hphase : forall rules egress s0,
             never (is_any_authorize g)
                   (events (match rules with
                            | [] => ret tt
                            | _ :: _ => _authorize_if_missing group_id rules egress
                            end s0))).
  { intros [|x rules] egress s0; [constructor|apply authorize_if_missing_never]. }
  unfold configure_rules. rewrite bind_unfold.
  pose proof (Hphase ingress_rules false s) as Hin.
  destruct (match ingress_rules with
            | [] => ret tt
            | _ :: _ => _authorize_if_missing group_id ingress_rules false
            end s) as [[[]|e] s1 t_in]; cbn [outcome final events] in *.
  - apply never_app; [exact Hin|]. apply (Hphase egress_rules true s1).
  - exact Hin.
Qed.

Lemma configure_rules_ingress_only ingress_rules s :
  configure_rules group_id ingress_rules [] s
  = match ingress_rules with
    | [] => ret tt
    | _ :: _ => _authorize_if_missing group_id ingress_rules false
    end s.
Proof.
  unfold configure_rules. rewrite bind_unfold.
  destruct (match ingress_rules with
            | [] => ret tt
            | _ :: _ => _authorize_if_missing group_id ingress_rules false
            end s) as [[[]|e] s1 t_in]; cbn [outcome final events ret];
    [rewrite app_nil_r|]; reflexivity.
Qed.

Lemma configure_rules_then_egress ingress_rules x egress_rules s :
  outcome (configure_rules group_id ingress_rules [] s) = Ret tt ->
  configure_rules group_id ingress_rules (x :: egress_rules) s
  = let first := configure_rules group_id ingress_rules [] s in
    let second := _authorize_if_missing group_id (x :: egress_rules) true (final first) in
    mkRun (outcome second) (final second) (events first ++ events second).
Proof.
  rewrite configure_rules_ingress_only. intros Hret.
  unfold configure_rules. rewrite bind_unfold, Hret. reflexivity.
Qed.

End SecurityGroup.

(** C7, on the code: [configure_rules] never issues an authorize call.
    For a direction with requested rules it sends the describe request; a
    listing with at least one rule makes it go on (so the first half of the
    claim holds), and a listing with none makes it call [_normalize_rules],
    which the module does not define: [NameError] is raised right after
    the describe request and nothing is authorized.  The ingress direction
    comes first; the egress direction is reached only when the ingress
    direction returned. *)
Theorem rules_authorize_unreachable {PS : Type} `{Provider PS}
    (group_id : string) (ingress_rules egress_rules : list PyVal) (s : PS) :
  let run := configure_rules group_id ingress_rules egress_rules in
  (forall g, never (is_any_authorize g) (events (run s)))
  /\ (forall r s1,
      ingress_rules <> [] ->
      handle (DescribeSecurityGroupRules group_id false) s = (Ok r, s1) ->
      (get_list r <> [] ->
       configure_rules group_id ingress_rules [] s
       = mkRun (Ret tt) s1 [Api (DescribeSecurityGroupRules group_id false) (Ok r)])
      /\ (get_list r = [] ->
          run s = mkRun (Raise name_error) s1
                        [Api (DescribeSecurityGroupRules group_id false) (Ok r)]))
  /\ (forall r s2,
      egress_rules <> [] ->
      let ingress_only := configure_rules group_id ingress_rules [] s in
      outcome ingress_only = Ret tt ->
      handle (DescribeSecurityGroupRules group_id true) (final ingress_only)
      = (Ok r, s2) ->
      (get_list r <> [] ->
       run s = mkRun (Ret tt) s2
                     (events ingress_only
                      ++ [Api (DescribeSecurityGroupRules group_id true) (Ok r)]))
      /\ (get_list r = [] ->
          run s = mkRun (Raise name_error) s2
                        (events ingress_only
                         ++ [Api (DescribeSecurityGroupRules group_id true) (Ok r)]))).
Proof.
  intros run. split; [|split].
  - intros g. apply configure_rules_never.
  - intros r s1 Hne Hd. destruct ingress_rules as [|i rest]; [contradiction|]. split.
    + intros Hl. rewrite configure_rules_ingress_only.
      exact (@authorize_if_missing_listed PS H group_id (i :: rest) false s r s1 Hd Hl).
    + intros Hl. unfold run, configure_rules. rewrite bind_unfold.
      rewrite (@authorize_if_missing_none_listed PS H group_id (i :: rest) false s r s1 Hd Hl).
      reflexivity.
  - intros r s2 Hne ingress_only Hret Hd.
    destruct egress_rules as [|x rest]; [contradiction|].
    unfold run.
    rewrite (@configure_rules_then_egress PS H group_id ingress_rules x rest s Hret).
    cbv zeta.
    fold ingress_only. split; intros Hl.
    + rewrite (@authorize_if_missing_listed PS H group_id (x :: rest) true _ r s2 Hd Hl).
      reflexivity.
    + rewrite (@authorize_if_missing_none_listed PS H group_id (x :: rest) true _ r s2 Hd Hl).
      reflexivity.
Qed.

Lemma rules_authorize_unreachable_witness :
  @configure_rules _ Cloud.provider "sg-1" [tcp_rule 443] [tcp_rule 5432] (Cloud.empty [])
  = mkRun (Raise name_error) (Cloud.empty [])
          [Api (DescribeSecurityGroupRules "sg-1" false) (Ok (RList []))]
  /\ @configure_rules unit (Stateless rules_listed) "sg-1" [tcp_rule 443; tcp_rule 22]
       [tcp_rule 5432] tt
     = mkRun (Ret tt) tt
             ([Api (DescribeSecurityGroupRules "sg-1" false) (Ok (RList ["sgr-1"]))]
              ++ [Api (DescribeSecurityGroupRules "sg-1" true) (Ok (RList ["sgr-1"]))]).
Proof.
  split.
  - apply (proj2 (proj1 (proj2 (@rules_authorize_unreachable _ Cloud.provider "sg-1"
                                  [tcp_rule 443] [tcp_rule 5432] (Cloud.empty [])))
                        (RList []) (Cloud.empty []) ltac:(discriminate) eq_refl)).
    reflexivity.
  - apply (proj1 (proj2 (proj2 (@rules_authorize_unreachable unit (Stateless rules_listed)
                                  "sg-1" [tcp_rule 443; tcp_rule 22] [tcp_rule 5432] tt))
                        (RList ["sgr-1"]) tt ltac:(discriminate) eq_refl eq_refl)).
    discriminate.
Defined.

(** ** A property of every effect of a computation *)

Section AllEvents.

Context {St : Type}.
Variable Q : Event -> Prop.

Lemma all_events_ret {A} (a : A) : all_events Q (@ret St A a).
Proof. intros s. constructor. Qed.

Lemma all_events_raise {A} (e : exn) : all_events Q (@raise St A e).
Proof. intros s. constructor. Qed.

Lemma all_events_emit (e : Event) : Q e -> all_events Q (@emit St e).
Proof. intros He s. repeat constructor. exact He. Qed.

Lemma all_events_bind {A B} (m : M St A) (k : A -> M St B) :
  all_events Q m -> (forall a, all_events Q (k a)) -> all_events Q (bind m k).
Proof.
  intros Hm Hk s. unfold bind.
  specialize (Hm s). destruct (m s) as [[a|e] s1 t1]; cbn in *.
  - apply Forall_app. split; [assumption|]. apply Hk.
  - assumption.
Qed.

Lemma all_events_try_except {A} (body : M St A) (handler : exn -> option (M St A)) :
  all_events Q body ->
  (forall e h, handler e = Some h -> all_events Q h) ->
  all_events Q (try_except body handler).
Proof.
  intros Hb Hh s. unfold try_except.
  specialize (Hb s). destruct (body s) as [[a|e] s1 t1] eqn:Hrun; cbn in *.
  - assumption.
  - destruct (handler e) as [h|] eqn:He; cbn.
    + apply Forall_app. split; [assumption|]. now apply (Hh e h).
    + assumption.
Qed.

Lemma all_events_retryable {A} (name : string) (f : M St A) (N B : Z) :
  all_events Q f ->
  (forall k e, Q (LogWarning name k N e)) ->
  (forall d, Q (Sleep d)) ->
  all_events Q (retryable name f N B).
Proof. intros Hf Hw Hs s. now apply retryable_Forall. Qed.

Lemma all_events_returned {A} (m : M St (option A)) :
  all_events Q m -> all_events Q (returned m).
Proof.
  intros Hm. unfold returned. apply all_events_bind; [assumption|].
  intros [a|]; [apply all_events_ret|apply all_events_raise].
Qed.

Lemma all_events_for_each {A B} (f : A -> M St B) (xs : list A) :
  (forall x, all_events Q (f x)) -> all_events Q (for_each f xs).
Proof.
  intros Hf. induction xs as [|x xs IH]; cbn [for_each].
  - apply all_events_ret.
  - apply all_events_bind; [apply Hf|]. intros y.
    apply all_events_bind; [apply IH|]. intros ys. apply all_events_ret.
Qed.

Lemma all_events_item_id (r : Response) : all_events Q (@item_id St r).
Proof. destruct r; [apply all_events_raise|apply all_events_ret|apply all_events_raise]. Qed.

Lemma all_events_index_list (r : Response) : all_events Q (@index_list St r).
Proof. destruct r; [apply all_events_ret|apply all_events_raise|apply all_events_raise]. Qed.

End AllEvents.

Lemma all_events_call {PS : Type} `{Provider PS} (Q : Event -> Prop) (rq : Request) :
  (forall res, Q (Api rq res)) -> all_events Q (call rq).
Proof.
  intros HQ s. rewrite call_events. repeat constructor. apply HQ.
Qed.

(** ** The driver: what it provisions and what it passes on *)

Section DriverEffects.

Context {PS : Type} `{Provider PS}.
Variable Q : Event -> Prop.

(** [Q] holds of everything that is not a provider call. *)
Hypothesis Q_local : forall e, (forall rq res, e <> Api rq res) -> Q e.

Lemma all_events_wrapped {A} (name : string) (f : M PS A) (N B : Z) :
  all_events Q f -> all_events Q (retryable name f N B).
Proof.
  intros Hf. apply all_events_retryable; [assumption| |];
    intros; apply Q_local; discriminate.
Qed.

Lemma ensure_internet_gateway_effects vpc_id name tags N B :
  (forall res, Q (Api (DescribeInternetGateways vpc_id) res)) ->
  (forall t res, Q (Api (CreateInternetGateway t) res)) ->
  (forall igw res, Q (Api (AttachInternetGateway igw vpc_id) res)) ->
  all_events Q (ensure_internet_gateway vpc_id name tags N B).
Proof.
  intros Hd Hc Ha. apply all_events_wrapped.
  unfold ensure_internet_gateway_body.
  apply all_events_bind; [now apply all_events_call|]. intros r.
  destruct (get_list r); [|apply all_events_ret].
  apply all_events_bind; [now apply all_events_call|]. intros igw.
  apply all_events_bind; [apply all_events_item_id|]. intros igw_id.
  apply all_events_bind; [now apply all_events_call|]. intros _.
  apply all_events_ret.
Qed.

Lemma ensure_subnet_effects name vpc_id cidr az public tags N B :
  (forall res, Q (Api (DescribeSubnets vpc_id cidr) res)) ->
  (forall t res, Q (Api (CreateSubnet vpc_id cidr az t) res)) ->
  (forall sn res, Q (Api (ModifySubnetAttributeMapPublicIp sn) res)) ->
  all_events Q (ensure_subnet name vpc_id cidr az public tags N B).
Proof.
  intros Hd Hc Hm. apply all_events_wrapped.
  unfold ensure_subnet_body.
  apply all_events_bind; [now apply all_events_call|]. intros r.
  destruct (get_list r); [|apply all_events_ret].
  apply all_events_bind; [now apply all_events_call|]. intros subnet.
  apply all_events_bind; [apply all_events_item_id|]. intros subnet_id.
  apply all_events_bind; [|intros _; apply all_events_ret].
  destruct public; [|apply all_events_ret].
  apply all_events_bind; [now apply all_events_call|]. intros _.
  apply all_events_ret.
Qed.

Lemma ensure_bucket_effects bucket region N B :
  (forall res, Q (Api (HeadBucket bucket) res)) ->
  (forall loc res, Q (Api (CreateBucket bucket loc) res)) ->
  all_events Q (ensure_bucket bucket region N B).
Proof.
  intros Hh Hc. apply all_events_wrapped.
  unfold ensure_bucket_body. apply all_events_try_except.
  - apply all_events_bind; [now apply all_events_call|]. intros _.
    apply all_events_emit. apply Q_local. discriminate.
  - intros [code msg|cls msg] h Hhandler; [|discriminate Hhandler].
    destruct (String.eqb code "404" || String.eqb code "NoSuchBucket");
      [|discriminate Hhandler].
    injection Hhandler as <-.
    apply all_events_bind; [apply all_events_emit; apply Q_local; discriminate|].
    intros _.
    apply all_events_bind; [now apply all_events_call|]. intros _.
    apply all_events_ret.
Qed.

Lemma ensure_vpc_effects name cidr tags N B :
  (forall res, Q (Api (DescribeVpcs name) res)) ->
  (forall t res, Q (Api (CreateVpc cidr t) res)) ->
  (forall v a res, Q (Api (ModifyVpcAttribute v a) res)) ->
  all_events Q (ensure_vpc name cidr tags N B).
Proof.
  intros Hd Hc Hm. apply all_events_wrapped.
  unfold ensure_vpc_body.
  apply all_events_bind; [now apply all_events_call|]. intros r.
  destruct (get_list r).
  - apply all_events_bind; [now apply all_events_call|]. intros response.
    apply all_events_bind; [apply all_events_item_id|]. intros vpc_id.
    apply all_events_bind; [now apply all_events_call|]. intros _.
    apply all_events_bind; [now apply all_events_call|]. intros _.
    apply all_events_ret.
  - apply all_events_bind; [apply all_events_emit; apply Q_local; discriminate|].
    intros _. apply all_events_ret.
Qed.


End DriverEffects.





(** * Properties of the rest of the module *)

(** ** The retry wrapper: success after failures, and what comes out *)

Lemma retry_loop_eventual_success {St A : Type} (name : string) (f : M St A)
    (N B : Z) (k : nat) (s : St) (v : A) :
  0 <= B ->
  fails_then_returns f k s v ->
  forall j,
    0 <= j ->
    j + Z.of_nat k <= N ->
    let r := retry_loop name (observed f) N B (range j (N + 1)) s in
    outcome r = Ret (Some v)
    /\ final r = final (f (after f k s))
    /\ invocations (events r) = Z.of_nat k + 1
    /\ sleeps (events r) = map (fun i => B * i) (range j (j + Z.of_nat k)).
Proof.
  intros HB Hrun. induction Hrun as [s v Hret|k s code msg v Hfail Hrun IH];
    intros j Hj Hle; rewrite range_cons by lia.
  - erewrite retry_loop_ret by exact Hret. cbn.
    rewrite (@range_nil j (j + 0)) by lia. repeat split; reflexivity.
  - erewrite retry_loop_again; [|exact Hfail|lia|nia].
    destruct (IH (j + 1)) as (Ho & Hf & Hi & Hs); [lia|lia|].
    change (final (observed f s)) with (final (f s)).
    cbv zeta. cbn [outcome final events after observed].
    split; [exact Ho|]. split; [exact Hf|]. split.
    + unfold invocations in *. cbn [app filter is_called List.length] in *. lia.
    + cbn [app sleeps]. rewrite Hs.
      rewrite (@range_cons j (j + Z.of_nat (S k))) by lia. cbn [map].
      do 3 f_equal. lia.
Qed.

(** X1: an operation that raises a provider error at its first [k]
    invocations and returns [v] at the next comes out of the wrapper with
    [v], provided [k < max_attempts] and the backoff is not negative: the
    wrapper has invoked it [k + 1] times, has slept [B * 1], ..., [B * k]
    in between, and leaves the state the last invocation left. *)
Theorem retry_eventual_success {St A : Type} (name : string) (f : M St A)
    (N B : Z) (k : nat) (s : St) (v : A) :
  0 <= B ->
  Z.of_nat k < N ->
  fails_then_returns f k s v ->
  let r := retryable name (observed f) N B s in
  outcome r = Ret (Some v)
  /\ final r = final (f (after f k s))
  /\ invocations (events r) = Z.of_nat k + 1
  /\ sleeps (events r) = map (fun i => B * i) (range 1 (1 + Z.of_nat k)).
Proof.
  intros HB Hk Hrun.
  apply (@retry_loop_eventual_success St A name f N B k s v HB Hrun 1); lia.
Qed.

Lemma retry_eventual_success_witness :
  let r := retryable "describe_vpcs" (observed (flaky "vpc-1")) 5 2 2%nat in
  outcome r = Ret (Some "vpc-1")
  /\ final r = 0%nat
  /\ invocations (events r) = 3
  /\ sleeps (events r) = [2; 4].
Proof.
  apply (@retry_eventual_success nat string "describe_vpcs" (flaky "vpc-1") 5 2 2 2%nat
           "vpc-1"); [lia | lia |].
  apply fails_first with (code := "Throttling") (msg := "Rate exceeded");
    [reflexivity|].
  apply fails_first with (code := "Throttling") (msg := "Rate exceeded");
    [reflexivity|].
  apply returns_now. reflexivity.
Defined.

(** X2: with [max_attempts >= 1] the wrapper never returns [None] of its
    own: it raises, or it returns what the last invocation of the
    operation returned, after that invocation and in the state it left. *)
Theorem retry_result_is_the_operations {St A : Type} (name : string) (f : M St A)
    (N B : Z) (s : St) :
  1 <= N ->
  let r := retryable name f N B s in
  outcome r <> Ret None
  /\ forall v,
       outcome r = Ret (Some v) ->
       exists before s',
         events r = before ++ events (f s')
         /\ outcome (f s') = Ret v
         /\ final r = final (f s').
Proof.
  intros HN r. split.
  - now apply retryable_not_none.
  - intros v Hv. now apply (retry_loop_returns name f N B _ s).
Qed.

Lemma retry_result_is_the_operations_witness :
  let r := retryable "describe_vpcs" (flaky "vpc-1") 5 2 2%nat in
  outcome r <> Ret None
  /\ exists before s',
       events r = before ++ events (flaky "vpc-1" s')
       /\ outcome (flaky "vpc-1" s') = Ret "vpc-1"
       /\ final r = final (flaky "vpc-1" s').
Proof.
  pose proof (@retry_result_is_the_operations nat string "describe_vpcs"
                (flaky "vpc-1") 5 2 2%nat ltac:(lia)) as [Hnone Hsome].
  split; [exact Hnone|]. apply Hsome. reflexivity.
Defined.

(** X3: with a negative backoff and attempts left, a provider error at the
    first invocation does not reach the caller: [time.sleep] raises
    [ValueError] in the handler, after the warning, and the operation is
    not invoked again. *)
Theorem retry_negative_backoff {St A : Type} (name : string) (f : M St A)
    (N B : Z) (s : St) (code msg : string) :
  1 < N ->
  B < 0 ->
  outcome (f s) = Raise (ClientError code msg) ->
  retryable name (observed f) N B s
  = mkRun (Raise (PyError "ValueError" "sleep length must be non-negative"))
          (final (f s))
          [Called (events (f s)) (Some (ClientError code msg));
           LogWarning name 1 N (ClientError code msg)].
Proof.
  intros HN HB Hf. unfold retryable. rewrite range_cons by lia.
  erewrite retry_loop_interrupted; [|exact Hf|lia|lia].
  cbn [observed outcome final events app]. rewrite Hf. reflexivity.
Qed.

Lemma retry_negative_backoff_witness :
  retryable "create_route" (observed malformed) 3 (-1) tt
  = mkRun (Raise (PyError "ValueError" "sleep length must be non-negative")) tt
          [Called [] (Some (ClientError "MalformedQueryString" "bad query"));
           LogWarning "create_route" 1 3 (ClientError "MalformedQueryString" "bad query")].
Proof.
  apply (@retry_negative_backoff unit unit "create_route" malformed 3 (-1) tt
           "MalformedQueryString" "bad query"); [lia | lia | reflexivity].
Defined.

(** ** Tags: one entry per key, the name first *)

Lemma assoc_app {V : Type} (k : string) (a b : list (string * V)) :
  assoc k (a ++ b) = match assoc k a with Some v => Some v | None => assoc k b end.
Proof.
  induction a as [|[k' v'] a IH]; cbn; [reflexivity|].
  destruct (String.eqb k k'); [reflexivity|exact IH].
Qed.

Lemma assoc_dict_set (k k' v : string) (d : TagSet) :
  assoc k (dict_set k' v d) = if String.eqb k k' then Some v else assoc k d.
Proof.
  induction d as [|[k0 v0] d IH]; cbn.
  - destruct (String.eqb k k'); reflexivity.
  - destruct (String.eqb_spec k' k0) as [->|Hne]; cbn.
    + destruct (String.eqb k k0); reflexivity.
    + rewrite IH. destruct (String.eqb_spec k k0) as [->|Hne'].
      * destruct (String.eqb_spec k0 k') as [Heq|_]; [congruence|reflexivity].
      * reflexivity.
Qed.

Lemma assoc_dict_merge (k : string) (extra d : TagSet) :
  assoc k (dict_merge d extra)
  = match assoc k (rev extra) with Some v => Some v | None => assoc k d end.
Proof.
  unfold dict_merge. revert d. induction extra as [|[k' v'] extra IH]; intros d; cbn.
  - reflexivity.
  - rewrite IH, assoc_app, assoc_dict_set. cbn.
    destruct (assoc k (rev extra)); [reflexivity|].
    destruct (String.eqb k k'); reflexivity.
Qed.

Lemma dict_set_keys (k v : string) (d : TagSet) (x : string) :
  In x (map fst (dict_set k v d)) <-> x = k \/ In x (map fst d).
Proof.
  induction d as [|[k0 v0] d IH]; cbn.
  - intuition.
  - destruct (String.eqb_spec k k0) as [->|Hne]; cbn.
    + intuition.
    + rewrite IH. intuition.
Qed.

Lemma dict_set_NoDup (k v : string) (d : TagSet) :
  NoDup (map fst d) -> NoDup (map fst (dict_set k v d)).
Proof.
  induction d as [|[k0 v0] d IH]; cbn; intros Hd.
  - repeat constructor. intros [].
  - inversion Hd as [|? ? Hnotin Hrest]; subst.
    destruct (String.eqb_spec k k0) as [->|Hne]; cbn.
    + constructor; assumption.
    + constructor; [|now apply IH].
      rewrite dict_set_keys. intros [Heq|Hin]; [congruence|contradiction].
Qed.

Lemma dict_set_head (k v k0 v0 : string) (d : TagSet) :
  exists v1 rest, dict_set k v ((k0, v0) :: d) = (k0, v1) :: rest.
Proof.
  cbn. destruct (String.eqb_spec k k0) as [->|_]; eauto.
Qed.

Lemma dict_merge_shape (extra : TagSet) : forall (k0 v0 : string) (d : TagSet),
  NoDup (map fst ((k0, v0) :: d)) ->
  NoDup (map fst (dict_merge ((k0, v0) :: d) extra))
  /\ exists v1 rest, dict_merge ((k0, v0) :: d) extra = (k0, v1) :: rest.
Proof.
  unfold dict_merge. induction extra as [|[k v] extra IH]; intros k0 v0 d Hd; cbn [fold_left].
  - split; [assumption|eauto].
  - destruct (dict_set_head k v k0 v0 d) as (v1 & rest & Heq).
    cbn [fst snd]. rewrite Heq. apply IH. rewrite <- Heq. now apply dict_set_NoDup.
Qed.

(** X4: whatever the extra tags are, [_tags] gives one entry per key and
    its first entry is the [Name] tag. *)
Theorem tags_one_entry_per_key (name : string) (extra : TagSet) :
  NoDup (map fst (_tags name extra))
  /\ exists value rest, _tags name extra = ("Name", value) :: rest.
Proof.
  unfold _tags. apply dict_merge_shape. repeat constructor. intros [].
Qed.

(** X5: looking a key up in [_tags name extra] gives the value the extra
    tags give it last; a key they do not hold is found only if it is
    [Name], with the name as value.  So a [Name] among the extra tags
    replaces the resource name. *)
Theorem tags_lookup (name : string) (extra : TagSet) (k : string) :
  assoc k (_tags name extra)
  = match assoc k (rev extra) with
    | Some v => Some v
    | None => if String.eqb k "Name" then Some name else None
    end.
Proof.
  unfold _tags. rewrite assoc_dict_merge. reflexivity.
Qed.

(** ** A second attempt *)

Lemma retryable_second_attempt {St A : Type} (name : string) (f : M St A)
    (N B : Z) (s : St) (code msg : string) (v : A) :
  1 < N ->
  0 <= B ->
  outcome (f s) = Raise (ClientError code msg) ->
  outcome (f (final (f s))) = Ret v ->
  retryable name f N B s
  = mkRun (Ret (Some v)) (final (f (final (f s))))
          (events (f s) ++ LogWarning name 1 N (ClientError code msg)
                        :: Sleep (B * 1) :: events (f (final (f s)))).
Proof.
  intros HN HB Hfirst Hsecond. unfold retryable.
  rewrite range_cons by lia.
  erewrite retry_loop_again; [|exact Hfirst|lia|lia].
  replace (1 + 1) with 2 by lia. rewrite (@range_cons 2 (N + 1)) by lia.
  erewrite retry_loop_ret by exact Hsecond. reflexivity.
Qed.

(** Runs a body whose provider answers are given by equations. *)
Ltac run_body :=
  unfold bind, call, item_id, ret, raise, emit; cbn;
  repeat match goal with
    | Hh : handle ?rq ?s = _ |- context [handle ?rq ?s] => rewrite Hh; cbn
    | Hl : get_list ?r = _ |- context [get_list ?r] => rewrite Hl; cbn
    end.

(** ** VPCs *)

Section Vpc.

Context {PS : Type} `{Provider PS}.
Variables (name cidr : string) (tags : TagSet).

Lemma vpc_body_found s vpc_id others s1 :
  handle (DescribeVpcs name) s = (Ok (RList (vpc_id :: others)), s1) ->
  ensure_vpc_body name cidr tags s
  = mkRun (Ret vpc_id) s1
          [Api (DescribeVpcs name) (Ok (RList (vpc_id :: others)));
           LogInfo (String.append "Reusing VPC " vpc_id)].
Proof. intros Hd. unfold ensure_vpc_body. run_body. reflexivity. Qed.

Lemma vpc_body_created s r s1 vpc_id s2 r1 s3 res s4 :
  handle (DescribeVpcs name) s = (Ok r, s1) ->
  get_list r = [] ->
  handle (CreateVpc cidr (_tags name tags)) s1 = (Ok (RId vpc_id), s2) ->
  handle (ModifyVpcAttribute vpc_id EnableDnsSupport) s2 = (Ok r1, s3) ->
  handle (ModifyVpcAttribute vpc_id EnableDnsHostnames) s3 = (res, s4) ->
  ensure_vpc_body name cidr tags s
  = mkRun (match res with Ok _ => Ret vpc_id | Err e => Raise e end) s4
          [Api (DescribeVpcs name) (Ok r);
           Api (CreateVpc cidr (_tags name tags)) (Ok (RId vpc_id));
           Api (ModifyVpcAttribute vpc_id EnableDnsSupport) (Ok r1);
           Api (ModifyVpcAttribute vpc_id EnableDnsHostnames) res].
Proof.
  intros Hd Hl Hc Hs Hh. unfold ensure_vpc_body. run_body.
  destruct res; reflexivity.
Qed.

End Vpc.

(** X6: [ensure_vpc] is first-writer-wins.  When the describe call lists
    a VPC with the Name tag, [ensure_vpc] returns the first identifier
    listed after that one call, whatever CIDR block and tags it was given:
    it creates nothing and modifies nothing. *)
Theorem vpc_reused_as_found {PS : Type} `{Provider PS}
    (name cidr : string) (tags : TagSet) (N B : Z) (s : PS)
    (vpc_id : string) (others : list string) (s1 : PS) :
  1 <= N ->
  handle (DescribeVpcs name) s = (Ok (RList (vpc_id :: others)), s1) ->
  ensure_vpc name cidr tags N B s
  = mkRun (Ret (Some vpc_id)) s1
          [Api (DescribeVpcs name) (Ok (RList (vpc_id :: others)));
           LogInfo (String.append "Reusing VPC " vpc_id)].
Proof.
  intros HN Hd. unfold ensure_vpc.
  pose proof (@vpc_body_found PS H name cidr tags s vpc_id others s1 Hd) as Hb.
  rewrite (@retryable_ret _ _ "ensure_vpc" _ N B s vpc_id HN); rewrite Hb; reflexivity.
Qed.

Lemma vpc_reused_as_found_witness :
  let existing := Cloud.mk 2 [] [("vpc", "cda-dev", "vpc-1")] in
  @ensure_vpc _ Cloud.provider "cda-dev" "192.168.0.0/16" [("Owner", "ops")] 5 2 existing
  = mkRun (Ret (Some "vpc-1")) existing
          [Api (DescribeVpcs "cda-dev") (Ok (RList ["vpc-1"]));
           LogInfo "Reusing VPC vpc-1"].
Proof.
  intros existing.
  apply (@vpc_reused_as_found _ Cloud.provider "cda-dev" "192.168.0.0/16"
           [("Owner", "ops")] 5 2 existing "vpc-1" [] existing); [lia | reflexivity].
Defined.

(** X7: when no VPC carries the Name tag, [ensure_vpc] creates one with
    the CIDR block and the tags of [_tags], then enables DNS support and
    then DNS hostnames on the identifier the create call returned, and
    returns that identifier. *)
Theorem vpc_created_with_dns {PS : Type} `{Provider PS}
    (name cidr : string) (tags : TagSet) (N B : Z) (s : PS)
    (r : Response) (s1 : PS) (vpc_id : string) (s2 : PS)
    (r1 : Response) (s3 : PS) (r2 : Response) (s4 : PS) :
  1 <= N ->
  handle (DescribeVpcs name) s = (Ok r, s1) ->
  get_list r = [] ->
  handle (CreateVpc cidr (_tags name tags)) s1 = (Ok (RId vpc_id), s2) ->
  handle (ModifyVpcAttribute vpc_id EnableDnsSupport) s2 = (Ok r1, s3) ->
  handle (ModifyVpcAttribute vpc_id EnableDnsHostnames) s3 = (Ok r2, s4) ->
  ensure_vpc name cidr tags N B s
  = mkRun (Ret (Some vpc_id)) s4
          [Api (DescribeVpcs name) (Ok r);
           Api (CreateVpc cidr (_tags name tags)) (Ok (RId vpc_id));
           Api (ModifyVpcAttribute vpc_id EnableDnsSupport) (Ok r1);
           Api (ModifyVpcAttribute vpc_id EnableDnsHostnames) (Ok r2)].
Proof.
  intros HN Hd Hl Hc Hs Hh. unfold ensure_vpc.
  pose proof (@vpc_body_created PS H name cidr tags s r s1 vpc_id s2 r1 s3 (Ok r2) s4
                Hd Hl Hc Hs Hh) as Hb.
  rewrite (@retryable_ret _ _ "ensure_vpc" _ N B s vpc_id HN); rewrite Hb; reflexivity.
Qed.

Lemma vpc_created_with_dns_witness :
  @ensure_vpc _ Cloud.provider "cda-dev" "10.0.0.0/16" [("Project", "cda")] 5 2
     (Cloud.empty [])
  = mkRun (Ret (Some "vpc-1")) (Cloud.mk 2 [] [("vpc", "cda-dev", "vpc-1")])
          [Api (DescribeVpcs "cda-dev") (Ok (RList []));
           Api (CreateVpc "10.0.0.0/16" (_tags "cda-dev" [("Project", "cda")]))
               (Ok (RId "vpc-1"));
           Api (ModifyVpcAttribute "vpc-1" EnableDnsSupport) (Ok RNone);
           Api (ModifyVpcAttribute "vpc-1" EnableDnsHostnames) (Ok RNone)].
Proof.
  apply (@vpc_created_with_dns _ Cloud.provider "cda-dev" "10.0.0.0/16"
           [("Project", "cda")] 5 2 (Cloud.empty [])
           (RList []) (Cloud.empty []) "vpc-1"
           (Cloud.mk 2 [] [("vpc", "cda-dev", "vpc-1")])
           RNone (Cloud.mk 2 [] [("vpc", "cda-dev", "vpc-1")])
           RNone (Cloud.mk 2 [] [("vpc", "cda-dev", "vpc-1")]));
    (lia || reflexivity).
Defined.

(** X8: the DNS step is not redone.  When the call that enables DNS
    hostnames fails with a provider error and the VPC is listed at the
    next attempt, [ensure_vpc] returns the identifier of the VPC as found:
    the only request for DNS hostnames is the one that failed. *)
Theorem vpc_dns_step_lost_on_retry {PS : Type} `{Provider PS}
    (name cidr : string) (tags : TagSet) (N B : Z) (s : PS)
    (r : Response) (s1 : PS) (vpc_id : string) (s2 : PS) (r1 : Response) (s3 : PS)
    (code msg : string) (s4 : PS) (others : list string) (s5 : PS) :
  1 < N ->
  0 <= B ->
  handle (DescribeVpcs name) s = (Ok r, s1) ->
  get_list r = [] ->
  handle (CreateVpc cidr (_tags name tags)) s1 = (Ok (RId vpc_id), s2) ->
  handle (ModifyVpcAttribute vpc_id EnableDnsSupport) s2 = (Ok r1, s3) ->
  handle (ModifyVpcAttribute vpc_id EnableDnsHostnames) s3
  = (Err (ClientError code msg), s4) ->
  handle (DescribeVpcs name) s4 = (Ok (RList (vpc_id :: others)), s5) ->
  ensure_vpc name cidr tags N B s
  = mkRun (Ret (Some vpc_id)) s5
          [Api (DescribeVpcs name) (Ok r);
           Api (CreateVpc cidr (_tags name tags)) (Ok (RId vpc_id));
           Api (ModifyVpcAttribute vpc_id EnableDnsSupport) (Ok r1);
           Api (ModifyVpcAttribute vpc_id EnableDnsHostnames)
               (Err (ClientError code msg));
           LogWarning "ensure_vpc" 1 N (ClientError code msg);
           Sleep (B * 1);
           Api (DescribeVpcs name) (Ok (RList (vpc_id :: others)));
           LogInfo (String.append "Reusing VPC " vpc_id)].
Proof.
  intros HN HB Hd Hl Hc Hs Hh Hd'. unfold ensure_vpc.
  pose proof (@vpc_body_created PS H name cidr tags s r s1 vpc_id s2 r1 s3
                (Err (ClientError code msg)) s4 Hd Hl Hc Hs Hh) as Hfirst.
  assert (Hsecond : ensure_vpc_body name cidr tags
                      (final (ensure_vpc_body name cidr tags s))
                    = mkRun (Ret vpc_id) s5
                            [Api (DescribeVpcs name) (Ok (RList (vpc_id :: others)));
                             LogInfo (String.append "Reusing VPC " vpc_id)]).
  { rewrite Hfirst. now apply vpc_body_found. }
  rewrite (@retryable_second_attempt _ _ "ensure_vpc" _ N B s code msg vpc_id HN HB).
  - rewrite Hsecond, Hfirst. reflexivity.
  - rewrite Hfirst. reflexivity.
  - rewrite Hsecond. reflexivity.
Qed.

Lemma vpc_dns_step_lost_on_retry_witness :
  @ensure_vpc _ Scripted "cda-dev" "10.0.0.0/16" [] 5 2
     [Ok (RList []); Ok (RId "vpc-1"); Ok RNone;
      Err (ClientError "RequestLimitExceeded" "slow down"); Ok (RList ["vpc-1"])]
  = mkRun (Ret (Some "vpc-1")) []
          [Api (DescribeVpcs "cda-dev") (Ok (RList []));
           Api (CreateVpc "10.0.0.0/16" (_tags "cda-dev" [])) (Ok (RId "vpc-1"));
           Api (ModifyVpcAttribute "vpc-1" EnableDnsSupport) (Ok RNone);
           Api (ModifyVpcAttribute "vpc-1" EnableDnsHostnames)
               (Err (ClientError "RequestLimitExceeded" "slow down"));
           LogWarning "ensure_vpc" 1 5 (ClientError "RequestLimitExceeded" "slow down");
           Sleep (2 * 1);
           Api (DescribeVpcs "cda-dev") (Ok (RList ["vpc-1"]));
           LogInfo "Reusing VPC vpc-1"].
Proof.
  eapply (@vpc_dns_step_lost_on_retry _ Scripted "cda-dev" "10.0.0.0/16" [] 5 2);
    (lia || reflexivity).
Defined.

(** ** Internet gateways *)

Section InternetGateway.

Context {PS : Type} `{Provider PS}.
Variables (vpc_id name : string) (tags : TagSet).

Lemma igw_body_found s igw_id others s1 :
  handle (DescribeInternetGateways vpc_id) s = (Ok (RList (igw_id :: others)), s1) ->
  ensure_internet_gateway_body vpc_id name tags s
  = mkRun (Ret igw_id) s1
          [Api (DescribeInternetGateways vpc_id) (Ok (RList (igw_id :: others)))].
Proof. intros Hd. unfold ensure_internet_gateway_body. run_body. reflexivity. Qed.

Lemma igw_body_created s r s1 igw_id s2 res s3 :
  handle (DescribeInternetGateways vpc_id) s = (Ok r, s1) ->
  get_list r = [] ->
  handle (CreateInternetGateway (_tags name tags)) s1 = (Ok (RId igw_id), s2) ->
  handle (AttachInternetGateway igw_id vpc_id) s2 = (res, s3) ->
  ensure_internet_gateway_body vpc_id name tags s
  = mkRun (match res with Ok _ => Ret igw_id | Err e => Raise e end) s3
          [Api (DescribeInternetGateways vpc_id) (Ok r);
           Api (CreateInternetGateway (_tags name tags)) (Ok (RId igw_id));
           Api (AttachInternetGateway igw_id vpc_id) res].
Proof.
  intros Hd Hl Hc Ha. unfold ensure_internet_gateway_body. run_body.
  destruct res; reflexivity.
Qed.

End InternetGateway.

(** X9: [ensure_internet_gateway] returns the first gateway the provider
    lists as attached to the VPC, after that one call; when none is
    listed it creates a gateway and attaches the gateway it created to the
    VPC it was given, and returns the identifier of that gateway. *)
Theorem igw_found_or_attached {PS : Type} `{Provider PS}
    (vpc_id name : string) (tags : TagSet) (N B : Z) (s : PS) :
  1 <= N ->
  (forall igw_id others s1,
      handle (DescribeInternetGateways vpc_id) s = (Ok (RList (igw_id :: others)), s1) ->
      ensure_internet_gateway vpc_id name tags N B s
      = mkRun (Ret (Some igw_id)) s1
              [Api (DescribeInternetGateways vpc_id) (Ok (RList (igw_id :: others)))])
  /\ (forall r s1 igw_id s2 r' s3,
      handle (DescribeInternetGateways vpc_id) s = (Ok r, s1) ->
      get_list r = [] ->
      handle (CreateInternetGateway (_tags name tags)) s1 = (Ok (RId igw_id), s2) ->
      handle (AttachInternetGateway igw_id vpc_id) s2 = (Ok r', s3) ->
      ensure_internet_gateway vpc_id name tags N B s
      = mkRun (Ret (Some igw_id)) s3
              [Api (DescribeInternetGateways vpc_id) (Ok r);
               Api (CreateInternetGateway (_tags name tags)) (Ok (RId igw_id));
               Api (AttachInternetGateway igw_id vpc_id) (Ok r')]).
Proof.
  intros HN. split.
  - intros igw_id others s1 Hd. unfold ensure_internet_gateway.
    pose proof (@igw_body_found PS H vpc_id name tags s igw_id others s1 Hd) as Hb.
    rewrite (@retryable_ret _ _ "ensure_internet_gateway" _ N B s igw_id HN);
      rewrite Hb; reflexivity.
  - intros r s1 igw_id s2 r' s3 Hd Hl Hc Ha. unfold ensure_internet_gateway.
    pose proof (@igw_body_created PS H vpc_id name tags s r s1 igw_id s2 (Ok r') s3
                  Hd Hl Hc Ha) as Hb.
    rewrite (@retryable_ret _ _ "ensure_internet_gateway" _ N B s igw_id HN);
      rewrite Hb; reflexivity.
Qed.

Lemma igw_found_or_attached_witness :
  let attached := Cloud.mk 2 [] [("igw", "vpc-1", "igw-1")] in
  @ensure_internet_gateway _ Cloud.provider "vpc-1" "cda-igw" [] 5 2 attached
  = mkRun (Ret (Some "igw-1")) attached
          [Api (DescribeInternetGateways "vpc-1") (Ok (RList ["igw-1"]))]
  /\ @ensure_internet_gateway _ Cloud.provider "vpc-1" "cda-igw" [] 5 2 (Cloud.empty [])
     = mkRun (Ret (Some "igw-1")) attached
             [Api (DescribeInternetGateways "vpc-1") (Ok (RList []));
              Api (CreateInternetGateway (_tags "cda-igw" [])) (Ok (RId "igw-1"));
              Api (AttachInternetGateway "igw-1" "vpc-1") (Ok RNone)].
Proof.
  intros attached. split.
  - apply (proj1 (@igw_found_or_attached _ Cloud.provider "vpc-1" "cda-igw" [] 5 2
                    attached ltac:(lia))).
    reflexivity.
  - apply (proj2 (@igw_found_or_attached _ Cloud.provider "vpc-1" "cda-igw" [] 5 2
                    (Cloud.empty []) ltac:(lia))
                 (RList []) (Cloud.empty []) "igw-1"
                 (Cloud.mk 2 [] [("igw", "", "igw-1")]) RNone attached);
      reflexivity.
Defined.

(** X10: a failed attachment leaves a gateway behind.  When the attach
    call fails with a provider error and, at the next attempt, the
    provider still lists no gateway attached to the VPC, [ensure_internet_gateway]
    creates a second gateway and returns that one: two gateways were
    created and the first is attached to nothing. *)
Theorem igw_orphan_after_failed_attach {PS : Type} `{Provider PS}
    (vpc_id name : string) (tags : TagSet) (N B : Z) (s : PS)
    (r : Response) (s1 : PS) (first : string) (s2 : PS) (code msg : string) (s3 : PS)
    (r' : Response) (s4 : PS) (second : string) (s5 : PS) (r'' : Response) (s6 : PS) :
  1 < N ->
  0 <= B ->
  handle (DescribeInternetGateways vpc_id) s = (Ok r, s1) ->
  get_list r = [] ->
  handle (CreateInternetGateway (_tags name tags)) s1 = (Ok (RId first), s2) ->
  handle (AttachInternetGateway first vpc_id) s2 = (Err (ClientError code msg), s3) ->
  handle (DescribeInternetGateways vpc_id) s3 = (Ok r', s4) ->
  get_list r' = [] ->
  handle (CreateInternetGateway (_tags name tags)) s4 = (Ok (RId second), s5) ->
  handle (AttachInternetGateway second vpc_id) s5 = (Ok r'', s6) ->
  let run := ensure_internet_gateway vpc_id name tags N B s in
  run
  = mkRun (Ret (Some second)) s6
          [Api (DescribeInternetGateways vpc_id) (Ok r);
           Api (CreateInternetGateway (_tags name tags)) (Ok (RId first));
           Api (AttachInternetGateway first vpc_id) (Err (ClientError code msg));
           LogWarning "ensure_internet_gateway" 1 N (ClientError code msg);
           Sleep (B * 1);
           Api (DescribeInternetGateways vpc_id) (Ok r');
           Api (CreateInternetGateway (_tags name tags)) (Ok (RId second));
           Api (AttachInternetGateway second vpc_id) (Ok r'')]
  /\ count (created KInternetGateway) (events run) = 2%nat.
Proof.
  intros HN HB Hd Hl Hc Ha Hd' Hl' Hc' Ha' run.
  pose proof (@igw_body_created PS H vpc_id name tags s r s1 first s2
                (Err (ClientError code msg)) s3 Hd Hl Hc Ha) as Hfirst.
  assert (Hsecond : ensure_internet_gateway_body vpc_id name tags
                      (final (ensure_internet_gateway_body vpc_id name tags s))
                    = mkRun (Ret second) s6
                        [Api (DescribeInternetGateways vpc_id) (Ok r');
                         Api (CreateInternetGateway (_tags name tags)) (Ok (RId second));
                         Api (AttachInternetGateway second vpc_id) (Ok r'')]).
  { rewrite Hfirst.
    exact (@igw_body_created PS H vpc_id name tags s3 r' s4 second s5 (Ok r'') s6
             Hd' Hl' Hc' Ha'). }
  assert (Hrun : run = mkRun (Ret (Some second)) s6
          [Api (DescribeInternetGateways vpc_id) (Ok r);
           Api (CreateInternetGateway (_tags name tags)) (Ok (RId first));
           Api (AttachInternetGateway first vpc_id) (Err (ClientError code msg));
           LogWarning "ensure_internet_gateway" 1 N (ClientError code msg);
           Sleep (B * 1);
           Api (DescribeInternetGateways vpc_id) (Ok r');
           Api (CreateInternetGateway (_tags name tags)) (Ok (RId second));
           Api (AttachInternetGateway second vpc_id) (Ok r'')]).
  { subst run. unfold ensure_internet_gateway.
    rewrite (@retryable_second_attempt _ _ "ensure_internet_gateway" _ N B s
               code msg second HN HB).
    - rewrite Hsecond, Hfirst. reflexivity.
    - rewrite Hfirst. reflexivity.
    - rewrite Hsecond. reflexivity. }
  split; [exact Hrun|]. rewrite Hrun. reflexivity.
Qed.

Lemma igw_orphan_after_failed_attach_witness :
  let run := @ensure_internet_gateway _ Scripted "vpc-1" "cda-igw" [] 5 2
               [Ok (RList []); Ok (RId "igw-1");
                Err (ClientError "RequestLimitExceeded" "slow down");
                Ok (RList []); Ok (RId "igw-2"); Ok RNone] in
  outcome run = Ret (Some "igw-2")
  /\ count (created KInternetGateway) (events run) = 2%nat.
Proof.
  intros run.
  destruct (@igw_orphan_after_failed_attach _ Scripted "vpc-1" "cda-igw" [] 5 2
              [Ok (RList []); Ok (RId "igw-1");
               Err (ClientError "RequestLimitExceeded" "slow down");
               Ok (RList []); Ok (RId "igw-2"); Ok RNone]
              (RList []) _ "igw-1" _ "RequestLimitExceeded" "slow down" _
              (RList []) _ "igw-2" _ RNone []
              ltac:(lia) ltac:(lia) eq_refl eq_refl eq_refl eq_refl
              eq_refl eq_refl eq_refl eq_refl) as [Hrun Hcount].
  split; [|exact Hcount]. fold run in Hrun. rewrite Hrun. reflexivity.
Defined.

(** ** Security groups *)

Section SecurityGroupRuns.

Context {PS : Type} `{Provider PS}.
Variables (vpc_id name description : string) (tags : TagSet).

Lemma sg_body_found s group_id others s1 :
  handle (DescribeSecurityGroups vpc_id name) s = (Ok (RList (group_id :: others)), s1) ->
  ensure_security_group_body vpc_id name description tags s
  = mkRun (Ret group_id) s1
          [Api (DescribeSecurityGroups vpc_id name) (Ok (RList (group_id :: others)))].
Proof. intros Hd. unfold ensure_security_group_body. run_body. reflexivity. Qed.

Lemma sg_body_created s r s1 r' s2 :
  handle (DescribeSecurityGroups vpc_id name) s = (Ok r, s1) ->
  get_list r = [] ->
  handle (CreateSecurityGroup name description vpc_id (_tags name tags)) s1 = (Ok r', s2) ->
  ensure_security_group_body vpc_id name description tags s
  = mkRun (match r' with
           | RId group_id => Ret group_id
           | _ => Raise (PyError "KeyError" "identifier")
           end) s2
          [Api (DescribeSecurityGroups vpc_id name) (Ok r);
           Api (CreateSecurityGroup name description vpc_id (_tags name tags)) (Ok r')].
Proof.
  intros Hd Hl Hc. unfold ensure_security_group_body. run_body.
  destruct r'; reflexivity.
Qed.

End SecurityGroupRuns.

(** X11: [ensure_security_group] is keyed on the VPC and the group name.
    A group the provider lists for them is returned after the describe
    call alone, whatever description and tags are given; otherwise the
    group is created with the name, the description, the VPC and the tags
    of [_tags], and its identifier is returned.  A create response without
    a group identifier raises [KeyError] at once: the wrapper does not
    retry it. *)
Theorem security_group_found_or_created {PS : Type} `{Provider PS}
    (vpc_id name description : string) (tags : TagSet) (N B : Z) (s : PS) :
  1 <= N ->
  let create := CreateSecurityGroup name description vpc_id (_tags name tags) in
  (forall group_id others s1,
      handle (DescribeSecurityGroups vpc_id name) s = (Ok (RList (group_id :: others)), s1) ->
      ensure_security_group vpc_id name description tags N B s
      = mkRun (Ret (Some group_id)) s1
              [Api (DescribeSecurityGroups vpc_id name) (Ok (RList (group_id :: others)))])
  /\ (forall r s1 group_id s2,
      handle (DescribeSecurityGroups vpc_id name) s = (Ok r, s1) ->
      get_list r = [] ->
      handle create s1 = (Ok (RId group_id), s2) ->
      ensure_security_group vpc_id name description tags N B s
      = mkRun (Ret (Some group_id)) s2
              [Api (DescribeSecurityGroups vpc_id name) (Ok r);
               Api create (Ok (RId group_id))])
  /\ (forall r s1 r' s2,
      handle (DescribeSecurityGroups vpc_id name) s = (Ok r, s1) ->
      get_list r = [] ->
      handle create s1 = (Ok r', s2) ->
      (forall group_id, r' <> RId group_id) ->
      ensure_security_group vpc_id name description tags N B s
      = mkRun (Raise (PyError "KeyError" "identifier")) s2
              [Api (DescribeSecurityGroups vpc_id name) (Ok r); Api create (Ok r')]).
Proof.
  intros HN create. split; [|split].
  - intros group_id others s1 Hd. unfold ensure_security_group.
    pose proof (@sg_body_found PS H vpc_id name description tags s group_id others s1 Hd)
      as Hb.
    rewrite (@retryable_ret _ _ "ensure_security_group" _ N B s group_id HN);
      rewrite Hb; reflexivity.
  - intros r s1 group_id s2 Hd Hl Hc. unfold ensure_security_group.
    pose proof (@sg_body_created PS H vpc_id name description tags s r s1
                  (RId group_id) s2 Hd Hl Hc) as Hb.
    rewrite (@retryable_ret _ _ "ensure_security_group" _ N B s group_id HN);
      rewrite Hb; reflexivity.
  - intros r s1 r' s2 Hd Hl Hc Hnoid. unfold ensure_security_group.
    pose proof (@sg_body_created PS H vpc_id name description tags s r s1 r' s2
                  Hd Hl Hc) as Hb.
    assert (Hraise : ensure_security_group_body vpc_id name description tags s
                     = mkRun (Raise (PyError "KeyError" "identifier")) s2
                             [Api (DescribeSecurityGroups vpc_id name) (Ok r);
                              Api create (Ok r')]).
    { rewrite Hb. destruct r' as [ids|group_id|]; try reflexivity.
      exfalso. now apply (Hnoid group_id). }
    rewrite (@retryable_pyerror _ _ "ensure_security_group" _ N B s
               "KeyError" "identifier" HN);
      rewrite Hraise; reflexivity.
Qed.

Lemma security_group_found_or_created_witness :
  let existing := Cloud.mk 2 [] [("sg", "vpc-1|web", "sg-1")] in
  @ensure_security_group _ Cloud.provider "vpc-1" "web" "other words" [] 5 2 existing
  = mkRun (Ret (Some "sg-1")) existing
          [Api (DescribeSecurityGroups "vpc-1" "web") (Ok (RList ["sg-1"]))]
  /\ @ensure_security_group _ Cloud.provider "vpc-1" "web" "web tier" [] 5 2
       (Cloud.empty [])
     = mkRun (Ret (Some "sg-1")) existing
             [Api (DescribeSecurityGroups "vpc-1" "web") (Ok (RList []));
              Api (CreateSecurityGroup "web" "web tier" "vpc-1" (_tags "web" []))
                  (Ok (RId "sg-1"))]
  /\ @ensure_security_group _ Scripted "vpc-1" "web" "web tier" [] 5 2
       [Ok (RList []); Ok RNone]
     = mkRun (Raise (PyError "KeyError" "identifier")) []
             [Api (DescribeSecurityGroups "vpc-1" "web") (Ok (RList []));
              Api (CreateSecurityGroup "web" "web tier" "vpc-1" (_tags "web" []))
                  (Ok RNone)].
Proof.
  intros existing. split; [|split].
  - apply (proj1 (@security_group_found_or_created _ Cloud.provider "vpc-1" "web"
                    "other words" [] 5 2 existing ltac:(lia))).
    reflexivity.
  - apply (proj1 (proj2 (@security_group_found_or_created _ Cloud.provider "vpc-1" "web"
                    "web tier" [] 5 2 (Cloud.empty []) ltac:(lia)))
                 (RList []) (Cloud.empty []) "sg-1" existing); reflexivity.
  - apply (proj2 (proj2 (@security_group_found_or_created _ Scripted "vpc-1" "web"
                    "web tier" [] 5 2 [Ok (RList []); Ok RNone] ltac:(lia)))
                 (RList []) [Ok RNone] RNone []); try reflexivity.
    intros group_id. discriminate.
Defined.

(** ** NAT gateways under retry *)

Lemma nat_body_create_failed {PS : Type} `{Provider PS}
    (subnet_id name : string) (tags : TagSet) (s : PS)
    (allocation_id : string) (s1 : PS) (e : exn) (s2 : PS) :
  handle (AllocateAddress (_tags name tags)) s = (Ok (RId allocation_id), s1) ->
  handle (CreateNatGateway subnet_id allocation_id (_tags name tags)) s1 = (Err e, s2) ->
  ensure_nat_gateway_body subnet_id name tags s
  = mkRun (Raise e) s2
          [Api (AllocateAddress (_tags name tags)) (Ok (RId allocation_id));
           Api (CreateNatGateway subnet_id allocation_id (_tags name tags)) (Err e)].
Proof. intros Ha Hc. unfold ensure_nat_gateway_body. run_body. reflexivity. Qed.

(** X12: a retried [ensure_nat_gateway] allocates again.  When the create
    call fails with a provider error after an address was allocated, the
    next attempt allocates a second address and creates the gateway with
    that one: the call returns a gateway, two addresses were allocated and
    the first is used by no gateway. *)
Theorem nat_gateway_retry_leaks_address {PS : Type} `{Provider PS}
    (subnet_id name : string) (tags : TagSet) (N B : Z) (s : PS)
    (first : string) (s1 : PS) (code msg : string) (s2 : PS)
    (second : string) (s3 : PS) (id : string) (s4 : PS) (r : Response) (s5 : PS) :
  1 < N ->
  0 <= B ->
  let allocate := AllocateAddress (_tags name tags) in
  let create := fun a => CreateNatGateway subnet_id a (_tags name tags) in
  handle allocate s = (Ok (RId first), s1) ->
  handle (create first) s1 = (Err (ClientError code msg), s2) ->
  handle allocate s2 = (Ok (RId second), s3) ->
  handle (create second) s3 = (Ok (RId id), s4) ->
  handle (WaitNatGatewayAvailable id) s4 = (Ok r, s5) ->
  let run := ensure_nat_gateway subnet_id name tags N B s in
  run
  = mkRun (Ret (Some id)) s5
          [Api allocate (Ok (RId first));
           Api (create first) (Err (ClientError code msg));
           LogWarning "ensure_nat_gateway" 1 N (ClientError code msg);
           Sleep (B * 1);
           Api allocate (Ok (RId second));
           Api (create second) (Ok (RId id));
           Api (WaitNatGatewayAvailable id) (Ok r)]
  /\ count is_allocate_address (events run) = 2%nat.
Proof.
  intros HN HB allocate create Ha Hc Ha' Hc' Hw run.
  pose proof (@nat_body_create_failed PS H subnet_id name tags s first s1
                (ClientError code msg) s2 Ha Hc) as Hfirst.
  assert (Hsecond : ensure_nat_gateway_body subnet_id name tags
                      (final (ensure_nat_gateway_body subnet_id name tags s))
                    = mkRun (Ret id) s5
                        [Api allocate (Ok (RId second));
                         Api (create second) (Ok (RId id));
                         Api (WaitNatGatewayAvailable id) (Ok r)]).
  { rewrite Hfirst.
    exact (@nat_body_success PS H subnet_id name tags s2 second s3 id s4 r s5
             Ha' Hc' Hw). }
  assert (Hrun : run = mkRun (Ret (Some id)) s5
          [Api allocate (Ok (RId first));
           Api (create first) (Err (ClientError code msg));
           LogWarning "ensure_nat_gateway" 1 N (ClientError code msg);
           Sleep (B * 1);
           Api allocate (Ok (RId second));
           Api (create second) (Ok (RId id));
           Api (WaitNatGatewayAvailable id) (Ok r)]).
  { subst run. unfold ensure_nat_gateway.
    rewrite (@retryable_second_attempt _ _ "ensure_nat_gateway" _ N B s
               code msg id HN HB).
    - rewrite Hsecond, Hfirst. reflexivity.
    - rewrite Hfirst. reflexivity.
    - rewrite Hsecond. reflexivity. }
  split; [exact Hrun|]. rewrite Hrun. reflexivity.
Qed.

Lemma nat_gateway_retry_leaks_address_witness :
  let run := @ensure_nat_gateway _ Scripted "subnet-3" "cda-nat" [] 5 2
               [Ok (RId "eipalloc-1");
                Err (ClientError "NatGatewayLimitExceeded" "limit");
                Ok (RId "eipalloc-2"); Ok (RId "nat-1"); Ok RNone] in
  outcome run = Ret (Some "nat-1")
  /\ count is_allocate_address (events run) = 2%nat.
Proof.
  intros run.
  destruct (@nat_gateway_retry_leaks_address _ Scripted "subnet-3" "cda-nat" [] 5 2
              [Ok (RId "eipalloc-1");
               Err (ClientError "NatGatewayLimitExceeded" "limit");
               Ok (RId "eipalloc-2"); Ok (RId "nat-1"); Ok RNone]
              "eipalloc-1" _ "NatGatewayLimitExceeded" "limit" _
              "eipalloc-2" _ "nat-1" _ RNone []
              ltac:(lia) ltac:(lia) eq_refl eq_refl eq_refl eq_refl eq_refl)
    as [Hrun Hcount].
  split; [|exact Hcount]. fold run in Hrun. rewrite Hrun. reflexivity.
Defined.

(** ** Requests and the journal *)

Section Requests.

Context {PS : Type} `{Services PS}.

Lemma request_ok rq (w : Session PS) r ps' :
  serve rq (remote w) = (Ok r, ps') ->
  request rq w = mkRun (Ret r) (mkSession ps' (journal w ++ [(rq, Ok r)])) [].
Proof. intros Hs. unfold request. rewrite Hs. reflexivity. Qed.

Lemma request_err rq (w : Session PS) e ps' :
  serve rq (remote w) = (Err e, ps') ->
  request rq w = mkRun (Raise e) (mkSession ps' (journal w ++ [(rq, Err e)])) [].
Proof. intros Hs. unfold request. rewrite Hs. reflexivity. Qed.

End Requests.

(** Runs a body whose answers are given by equations on [serve]. *)
Ltac run_requests :=
  unfold bind, try_except, request, item_id, index_list, ret, raise, emit; cbn;
  repeat match goal with
    | Hs : serve ?rq ?ps = _ |- context [serve ?rq ?ps] => rewrite Hs; cbn
    | Hl : get_list ?r = _ |- context [get_list ?r] => rewrite Hl; cbn
    end;
  rewrite <- ?app_assoc; cbn.

(** ** Route tables *)

Section RouteTable.

Context {PS : Type} `{Services PS}.
Variables (vpc_id name : string) (tags : TagSet).

Lemma route_table_body_found (w : Session PS) id others ps1 :
  serve (Service.DescribeRouteTables vpc_id name) (remote w)
  = (Ok (RList (id :: others)), ps1) ->
  ensure_route_table_body vpc_id name tags w
  = mkRun (Ret id)
          (mkSession ps1
             (journal w ++ [(Service.DescribeRouteTables vpc_id name,
                             Ok (RList (id :: others)))]))
          [].
Proof. intros Hd. unfold ensure_route_table_body. run_requests. reflexivity. Qed.

Lemma route_table_body_created (w : Session PS) r ps1 id ps2 :
  serve (Service.DescribeRouteTables vpc_id name) (remote w) = (Ok r, ps1) ->
  get_list r = [] ->
  serve (Service.CreateRouteTable vpc_id (_tags name tags)) ps1 = (Ok (RId id), ps2) ->
  ensure_route_table_body vpc_id name tags w
  = mkRun (Ret id)
          (mkSession ps2
             (journal w ++ [(Service.DescribeRouteTables vpc_id name, Ok r);
                            (Service.CreateRouteTable vpc_id (_tags name tags),
                             Ok (RId id))]))
          [].
Proof. intros Hd Hl Hc. unfold ensure_route_table_body. run_requests. reflexivity. Qed.

End RouteTable.

(** X13: [ensure_route_table] is keyed on the VPC and the Name tag: a
    table the provider lists for them is returned after the describe
    request alone; when none is listed, one is created in the VPC with the
    tags of [_tags] and its identifier is returned. *)
Theorem route_table_found_or_created {PS : Type} `{Services PS}
    (vpc_id name : string) (tags : TagSet) (N B : Z) (w : Session PS) :
  1 <= N ->
  let describe := Service.DescribeRouteTables vpc_id name in
  let create := Service.CreateRouteTable vpc_id (_tags name tags) in
  (forall id others ps1,
      serve describe (remote w) = (Ok (RList (id :: others)), ps1) ->
      ensure_route_table vpc_id name tags N B w
      = mkRun (Ret (Some id))
              (mkSession ps1 (journal w ++ [(describe, Ok (RList (id :: others)))])) [])
  /\ (forall r ps1 id ps2,
      serve describe (remote w) = (Ok r, ps1) ->
      get_list r = [] ->
      serve create ps1 = (Ok (RId id), ps2) ->
      ensure_route_table vpc_id name tags N B w
      = mkRun (Ret (Some id))
              (mkSession ps2 (journal w ++ [(describe, Ok r); (create, Ok (RId id))])) []).
Proof.
  intros HN describe create. split.
  - intros id others ps1 Hd. unfold ensure_route_table.
    pose proof (@route_table_body_found PS H vpc_id name tags w id others ps1 Hd) as Hb.
    rewrite (@retryable_ret _ _ "ensure_route_table" _ N B w id HN);
      rewrite Hb; reflexivity.
  - intros r ps1 id ps2 Hd Hl Hc. unfold ensure_route_table.
    pose proof (@route_table_body_created PS H vpc_id name tags w r ps1 id ps2 Hd Hl Hc)
      as Hb.
    rewrite (@retryable_ret _ _ "ensure_route_table" _ N B w id HN);
      rewrite Hb; reflexivity.
Qed.

Lemma route_table_found_or_created_witness :
  @ensure_route_table _ ScriptedServices "vpc-1" "public" [] 5 2
     (fresh_session [Ok (RList ["rtb-7"; "rtb-8"])])
  = mkRun (Ret (Some "rtb-7"))
          (mkSession []
             [(Service.DescribeRouteTables "vpc-1" "public", Ok (RList ["rtb-7"; "rtb-8"]))])
          []
  /\ @ensure_route_table _ ScriptedServices "vpc-1" "public" [] 5 2
       (fresh_session [Ok (RList []); Ok (RId "rtb-1")])
     = mkRun (Ret (Some "rtb-1"))
             (mkSession []
                [(Service.DescribeRouteTables "vpc-1" "public", Ok (RList []));
                 (Service.CreateRouteTable "vpc-1" (_tags "public" []), Ok (RId "rtb-1"))])
             [].
Proof.
  split.
  - apply (proj1 (@route_table_found_or_created _ ScriptedServices "vpc-1" "public" []
                    5 2 (fresh_session [Ok (RList ["rtb-7"; "rtb-8"])]) ltac:(lia))).
    reflexivity.
  - apply (proj2 (@route_table_found_or_created _ ScriptedServices "vpc-1" "public" []
                    5 2 (fresh_session [Ok (RList []); Ok (RId "rtb-1")]) ltac:(lia))
                 (RList []) [Ok (RId "rtb-1")] "rtb-1" []); reflexivity.
Defined.

(** ** Associations *)

Lemma retry_loop_exhausted_state {St A : Type} (name : string) (f : M St A) (N B : Z) :
  0 <= B ->
  (forall s, exists code msg, outcome (f s) = Raise (ClientError code msg)) ->
  forall (n : nat) k s,
    0 <= k ->
    Z.of_nat n = N - k ->
    final (retry_loop name f N B (range k (N + 1)) s) = after f (S n) s.
Proof.
  intros HB Hfail. induction n as [|n IH]; intros k s Hk Hn; rewrite range_cons by lia;
    destruct (Hfail s) as (code & msg & Ho).
  - replace k with N by lia. erewrite retry_loop_last by exact Ho. reflexivity.
  - erewrite retry_loop_again; [|exact Ho|lia|nia]. cbv zeta. cbn [final after].
    rewrite IH by lia. reflexivity.
Qed.

Section Associate.

Context {PS : Type} `{Services PS}.
Variables (route_table_id subnet_id : string).

Let rq : Service.Request := Service.AssociateRouteTable route_table_id subnet_id.

Lemma associate_body_refused (w : Session PS) e ps' :
  serve rq (remote w) = (Err e, ps') ->
  associate_body route_table_id subnet_id w
  = mkRun (Raise e) (mkSession ps' (journal w ++ [(rq, Err e)])) [].
Proof. intros Hs. unfold associate_body. fold rq. run_requests. reflexivity. Qed.

Lemma associate_body_accepted (w : Session PS) r ps' :
  serve rq (remote w) = (Ok r, ps') ->
  associate_body route_table_id subnet_id w
  = mkRun (Ret tt) (mkSession ps' (journal w ++ [(rq, Ok r)])) [].
Proof. intros Hs. unfold associate_body. fold rq. run_requests. reflexivity. Qed.

Lemma associate_sent_after e (n : nat) :
  (forall ps, exists ps', serve rq ps = (Err e, ps')) ->
  forall w : Session PS,
    sent (after (associate_body route_table_id subnet_id) n w) = sent w ++ repeat rq n.
Proof.
  intros Hall. induction n as [|n IH]; intros w; cbn [after repeat].
  - now rewrite app_nil_r.
  - destruct (Hall (remote w)) as [ps' Hs].
    rewrite (associate_body_refused w Hs). cbn [final].
    rewrite IH. unfold sent. cbn [journal]. rewrite map_app, <- app_assoc. reflexivity.
Qed.

End Associate.

(** X14: [associate] sends the associate request and nothing else.  When
    the provider accepts it, [associate] returns after that one request.
    It knows no "already associated" answer: when the provider refuses the
    request with a provider error each time, [associate] sends it
    [max_attempts] times and raises that error. *)
Theorem associate_sends_and_retries {PS : Type} `{Services PS}
    (route_table_id subnet_id : string) (N B : Z) (w : Session PS) :
  1 <= N ->
  let rq := Service.AssociateRouteTable route_table_id subnet_id in
  (forall r ps',
      serve rq (remote w) = (Ok r, ps') ->
      associate route_table_id subnet_id N B w
      = mkRun (Ret (Some tt)) (mkSession ps' (journal w ++ [(rq, Ok r)])) [])
  /\ (forall code msg,
      0 <= B ->
      (forall ps, exists ps', serve rq ps = (Err (ClientError code msg), ps')) ->
      let run := associate route_table_id subnet_id N B w in
      outcome run = Raise (ClientError code msg)
      /\ sent (final run) = sent w ++ repeat rq (Z.to_nat N)).
Proof.
  intros HN rq. split.
  - intros r ps' Hs. unfold associate.
    pose proof (@associate_body_accepted PS H route_table_id subnet_id w r ps' Hs) as Hb.
    rewrite (@retryable_ret _ _ "associate" _ N B w tt HN); rewrite Hb; reflexivity.
  - intros code msg HB Hall run.
    assert (Hfail : forall s : Session PS,
               outcome (associate_body route_table_id subnet_id s)
               = Raise (ClientError code msg)).
    { intros s. destruct (Hall (remote s)) as [ps' Hs].
      now rewrite (@associate_body_refused PS H route_table_id subnet_id s _ ps' Hs). }
    split.
    + destruct (@retryable_raises _ _ "associate"
                  (associate_body route_table_id subnet_id) N B
                  (fun e => e = ClientError code msg) w HN HB) as (e & He & ->);
        [|exact He].
      intros s. exists (ClientError code msg). split; [apply Hfail|reflexivity].
    + subst run. unfold associate, retryable.
      rewrite (@retry_loop_exhausted_state _ _ "associate"
                 (associate_body route_table_id subnet_id) N B HB
                 ltac:(intros s; exists code, msg; apply Hfail)
                 (Z.to_nat (N - 1)) 1 w) by lia.
      rewrite (@associate_sent_after PS H route_table_id subnet_id
                 (ClientError code msg) (S (Z.to_nat (N - 1))) Hall w).
      do 2 f_equal. lia.
Qed.

Lemma associate_sends_and_retries_witness :
  @associate _ ScriptedServices "rtb-1" "subnet-3" 5 2 (fresh_session [Ok RNone])
  = mkRun (Ret (Some tt))
          (mkSession [] [(Service.AssociateRouteTable "rtb-1" "subnet-3", Ok RNone)]) []
  /\ (let run := @associate _ (refusing "Resource.AlreadyAssociated" "again")
                   "rtb-1" "subnet-3" 3 2 (fresh_session tt) in
      outcome run = Raise (ClientError "Resource.AlreadyAssociated" "again")
      /\ sent (final run)
         = sent (fresh_session tt)
           ++ repeat (Service.AssociateRouteTable "rtb-1" "subnet-3") (Z.to_nat 3)).
Proof.
  split.
  - apply (proj1 (@associate_sends_and_retries _ ScriptedServices "rtb-1" "subnet-3"
                    5 2 (fresh_session [Ok RNone]) ltac:(lia))).
    reflexivity.
  - apply (proj2 (@associate_sends_and_retries _
                    (refusing "Resource.AlreadyAssociated" "again")
                    "rtb-1" "subnet-3" 3 2 (fresh_session tt) ltac:(lia))).
    + lia.
    + intros ps. exists ps. reflexivity.
Defined.

(** ** Instance profiles *)

Section InstanceProfile.

Context {PS : Type} `{Services PS}.
Variables (name role_name : string).

Let get := Service.GetInstanceProfile name.
Let create := Service.CreateInstanceProfile name.
Let add_role := Service.AddRoleToInstanceProfile name role_name.

Lemma profile_body_found (w : Session PS) r ps1 :
  serve get (remote w) = (Ok r, ps1) ->
  ensure_instance_profile_body name role_name w
  = mkRun (Ret name) (mkSession ps1 (journal w ++ [(get, Ok r)])) [].
Proof.
  intros Hg. unfold ensure_instance_profile_body. fold get. run_requests. reflexivity.
Qed.

Lemma profile_body_created (w : Session PS) msg ps1 r ps2 res ps3 :
  serve get (remote w) = (Err (ClientError "NoSuchEntity" msg), ps1) ->
  serve create ps1 = (Ok r, ps2) ->
  serve add_role ps2 = (res, ps3) ->
  ensure_instance_profile_body name role_name w
  = mkRun (match res with Ok _ => Ret name | Err e => Raise e end)
          (mkSession ps3
             (journal w ++ [(get, Err (ClientError "NoSuchEntity" msg));
                            (create, Ok r); (add_role, res)]))
          [].
Proof.
  intros Hg Hc Ha. unfold ensure_instance_profile_body. fold get create add_role.
  run_requests. destruct res; reflexivity.
Qed.

Lemma profile_body_other (w : Session PS) code msg ps1 :
  serve get (remote w) = (Err (ClientError code msg), ps1) ->
  code <> "NoSuchEntity" ->
  ensure_instance_profile_body name role_name w
  = mkRun (Raise (ClientError code msg))
          (mkSession ps1 (journal w ++ [(get, Err (ClientError code msg))])) [].
Proof.
  intros Hg Hcode. unfold ensure_instance_profile_body. fold get.
  unfold bind, try_except, request. rewrite Hg. cbn.
  destruct (String.eqb_spec code "NoSuchEntity") as [|_]; [contradiction|]. reflexivity.
Qed.

End InstanceProfile.

(** X15: [ensure_instance_profile] returns the name it was given.  When
    the profile is there, it sends the get request alone; when the get
    request raises [NoSuchEntity], it creates the profile and then adds
    the role to it; a get error with another code is raised again as it
    is, before anything is created. *)
Theorem instance_profile_found_or_created {PS : Type} `{Services PS}
    (name role_name : string) (N B : Z) (w : Session PS) :
  1 <= N ->
  let get := Service.GetInstanceProfile name in
  let create := Service.CreateInstanceProfile name in
  let add_role := Service.AddRoleToInstanceProfile name role_name in
  (forall r ps1,
      serve get (remote w) = (Ok r, ps1) ->
      ensure_instance_profile name role_name N B w
      = mkRun (Ret (Some name)) (mkSession ps1 (journal w ++ [(get, Ok r)])) [])
  /\ (forall msg ps1 r ps2 r' ps3,
      serve get (remote w) = (Err (ClientError "NoSuchEntity" msg), ps1) ->
      serve create ps1 = (Ok r, ps2) ->
      serve add_role ps2 = (Ok r', ps3) ->
      ensure_instance_profile name role_name N B w
      = mkRun (Ret (Some name))
              (mkSession ps3
                 (journal w ++ [(get, Err (ClientError "NoSuchEntity" msg));
                                (create, Ok r); (add_role, Ok r')]))
              [])
  /\ (forall code msg ps1,
      serve get (remote w) = (Err (ClientError code msg), ps1) ->
      code <> "NoSuchEntity" ->
      ensure_instance_profile_body name role_name w
      = mkRun (Raise (ClientError code msg))
              (mkSession ps1 (journal w ++ [(get, Err (ClientError code msg))])) []).
Proof.
  intros HN get create add_role. split; [|split].
  - intros r ps1 Hg. unfold ensure_instance_profile.
    pose proof (@profile_body_found PS H name role_name w r ps1 Hg) as Hb.
    rewrite (@retryable_ret _ _ "ensure_instance_profile" _ N B w name HN);
      rewrite Hb; reflexivity.
  - intros msg ps1 r ps2 r' ps3 Hg Hc Ha. unfold ensure_instance_profile.
    pose proof (@profile_body_created PS H name role_name w msg ps1 r ps2 (Ok r') ps3
                  Hg Hc Ha) as Hb.
    rewrite (@retryable_ret _ _ "ensure_instance_profile" _ N B w name HN);
      rewrite Hb; reflexivity.
  - intros code msg ps1 Hg Hcode.
    exact (@profile_body_other PS H name role_name w code msg ps1 Hg Hcode).
Qed.

Lemma instance_profile_found_or_created_witness :
  @ensure_instance_profile _ ScriptedServices "web" "web-role" 5 2
     (fresh_session [Ok RNone])
  = mkRun (Ret (Some "web"))
          (mkSession [] [(Service.GetInstanceProfile "web", Ok RNone)]) []
  /\ @ensure_instance_profile _ ScriptedServices "web" "web-role" 5 2
       (fresh_session [Err (ClientError "NoSuchEntity" "none"); Ok RNone; Ok RNone])
     = mkRun (Ret (Some "web"))
             (mkSession []
                [(Service.GetInstanceProfile "web", Err (ClientError "NoSuchEntity" "none"));
                 (Service.CreateInstanceProfile "web", Ok RNone);
                 (Service.AddRoleToInstanceProfile "web" "web-role", Ok RNone)]) []
  /\ @ensure_instance_profile_body _ ScriptedServices "web" "web-role"
       (fresh_session [Err (ClientError "AccessDenied" "no")])
     = mkRun (Raise (ClientError "AccessDenied" "no"))
             (mkSession []
                [(Service.GetInstanceProfile "web", Err (ClientError "AccessDenied" "no"))])
             [].
Proof.
  split; [|split].
  - apply (proj1 (@instance_profile_found_or_created _ ScriptedServices "web" "web-role"
                    5 2 (fresh_session [Ok RNone]) ltac:(lia))).
    reflexivity.
  - apply (proj1 (proj2 (@instance_profile_found_or_created _ ScriptedServices
                    "web" "web-role" 5 2
                    (fresh_session [Err (ClientError "NoSuchEntity" "none"); Ok RNone; Ok RNone])
                    ltac:(lia)))
                 "none" [Ok RNone; Ok RNone] RNone [Ok RNone] RNone []); reflexivity.
  - apply (proj2 (proj2 (@instance_profile_found_or_created _ ScriptedServices
                    "web" "web-role" 5 2
                    (fresh_session [Err (ClientError "AccessDenied" "no")]) ltac:(lia)))).
    + reflexivity.
    + discriminate.
Defined.

(** X16: the role is not added again.  When the request that adds the
    role fails with a provider error and the profile is there at the next
    attempt, [ensure_instance_profile] returns the name: the profile was
    created, and the only request to add the role is the one that failed. *)
Theorem instance_profile_role_lost_on_retry {PS : Type} `{Services PS}
    (name role_name : string) (N B : Z) (w : Session PS)
    (msg : string) (ps1 : PS) (r : Response) (ps2 : PS) (code msg' : string) (ps3 : PS)
    (r' : Response) (ps4 : PS) :
  1 < N ->
  0 <= B ->
  let get := Service.GetInstanceProfile name in
  let create := Service.CreateInstanceProfile name in
  let add_role := Service.AddRoleToInstanceProfile name role_name in
  serve get (remote w) = (Err (ClientError "NoSuchEntity" msg), ps1) ->
  serve create ps1 = (Ok r, ps2) ->
  serve add_role ps2 = (Err (ClientError code msg'), ps3) ->
  serve get ps3 = (Ok r', ps4) ->
  ensure_instance_profile name role_name N B w
  = mkRun (Ret (Some name))
          (mkSession ps4
             (journal w ++ [(get, Err (ClientError "NoSuchEntity" msg));
                            (create, Ok r);
                            (add_role, Err (ClientError code msg'));
                            (get, Ok r')]))
          [LogWarning "ensure_instance_profile" 1 N (ClientError code msg');
           Sleep (B * 1)].
Proof.
  intros HN HB get create add_role Hg Hc Ha Hg'. unfold ensure_instance_profile.
  pose proof (@profile_body_created PS H name role_name w msg ps1 r ps2
                (Err (ClientError code msg')) ps3 Hg Hc Ha) as Hfirst.
  fold get create add_role in Hfirst.
  assert (Hsecond : ensure_instance_profile_body name role_name
                      (final (ensure_instance_profile_body name role_name w))
                    = mkRun (Ret name)
                        (mkSession ps4
                           (journal w ++ [(get, Err (ClientError "NoSuchEntity" msg));
                                          (create, Ok r);
                                          (add_role, Err (ClientError code msg'));
                                          (get, Ok r')]))
                        []).
  { rewrite Hfirst. cbn [final].
    rewrite (@profile_body_found PS H name role_name (mkSession ps3 _) r' ps4 Hg').
    cbn [journal]. rewrite <- app_assoc. reflexivity. }
  rewrite (@retryable_second_attempt _ _ "ensure_instance_profile" _ N B w
             code msg' name HN HB).
  - rewrite Hsecond, Hfirst. reflexivity.
  - rewrite Hfirst. reflexivity.
  - rewrite Hsecond. reflexivity.
Qed.

Lemma instance_profile_role_lost_on_retry_witness :
  @ensure_instance_profile _ ScriptedServices "web" "web-role" 5 2
     (fresh_session [Err (ClientError "NoSuchEntity" "none"); Ok RNone;
                     Err (ClientError "Throttling" "slow down"); Ok RNone])
  = mkRun (Ret (Some "web"))
          (mkSession []
             [(Service.GetInstanceProfile "web", Err (ClientError "NoSuchEntity" "none"));
              (Service.CreateInstanceProfile "web", Ok RNone);
              (Service.AddRoleToInstanceProfile "web" "web-role",
               Err (ClientError "Throttling" "slow down"));
              (Service.GetInstanceProfile "web", Ok RNone)])
          [LogWarning "ensure_instance_profile" 1 5 (ClientError "Throttling" "slow down");
           Sleep (2 * 1)].
Proof.
  eapply (@instance_profile_role_lost_on_retry _ ScriptedServices "web" "web-role" 5 2
           (fresh_session [Err (ClientError "NoSuchEntity" "none"); Ok RNone;
                           Err (ClientError "Throttling" "slow down"); Ok RNone])
           "none" _ RNone _ "Throttling" "slow down" _ RNone []);
    (lia || reflexivity).
Defined.

(** ** Launch templates *)

Section LaunchTemplate.

Context {PS : Type} `{Services PS}.
Variables (name image_id instance_type iam_profile : string)
          (security_group_ids : list string) (user_data : option string)
          (tags : TagSet).

Let describe := Service.DescribeLaunchTemplates name.
Let create :=
  Service.CreateLaunchTemplate
    (launch_template_params name image_id instance_type iam_profile
                            security_group_ids user_data tags).
Let body : M (Session PS) string :=
  ensure_launch_template_body name image_id instance_type iam_profile
                              security_group_ids user_data tags.

Lemma template_body_listed (w : Session PS) id others ps1 :
  serve describe (remote w) = (Ok (RList (id :: others)), ps1) ->
  body w = mkRun (Ret id)
                 (mkSession ps1 (journal w ++ [(describe, Ok (RList (id :: others)))])) [].
Proof.
  intros Hd. unfold body, ensure_launch_template_body. fold describe.
  run_requests. reflexivity.
Qed.

Lemma template_body_none_listed (w : Session PS) ps1 id ps2 :
  serve describe (remote w) = (Ok (RList []), ps1) ->
  serve create ps1 = (Ok (RId id), ps2) ->
  body w = mkRun (Ret id)
                 (mkSession ps2 (journal w ++ [(describe, Ok (RList []));
                                               (create, Ok (RId id))])) [].
Proof.
  intros Hd Hc. unfold body, ensure_launch_template_body. fold describe create.
  run_requests. reflexivity.
Qed.

Lemma template_body_not_found (w : Session PS) msg ps1 id ps2 :
  serve describe (remote w)
  = (Err (ClientError "InvalidLaunchTemplateName.NotFoundException" msg), ps1) ->
  serve create ps1 = (Ok (RId id), ps2) ->
  body w
  = mkRun (Ret id)
          (mkSession ps2
             (journal w
              ++ [(describe,
                   Err (ClientError "InvalidLaunchTemplateName.NotFoundException" msg));
                  (create, Ok (RId id))])) [].
Proof.
  intros Hd Hc. unfold body, ensure_launch_template_body. fold describe create.
  run_requests. reflexivity.
Qed.

Lemma template_body_other (w : Session PS) code msg ps1 :
  serve describe (remote w) = (Err (ClientError code msg), ps1) ->
  code <> "InvalidLaunchTemplateName.NotFoundException" ->
  body w = mkRun (Raise (ClientError code msg))
                 (mkSession ps1 (journal w ++ [(describe, Err (ClientError code msg))])) [].
Proof.
  intros Hd Hcode. unfold body, ensure_launch_template_body. fold describe.
  unfold bind, try_except, request. rewrite Hd. cbn.
  destruct (String.eqb_spec code "InvalidLaunchTemplateName.NotFoundException")
    as [|_]; [contradiction|].
  reflexivity.
Qed.

End LaunchTemplate.

(** X17: [ensure_launch_template] is keyed on the template name.  A
    template the describe request lists is returned after that request
    alone.  An empty listing and a describe error with the code
    [InvalidLaunchTemplateName.NotFoundException] both lead to the same
    create request, whose identifier is returned; a describe error with
    any other code is raised again as it is, with no create request.  An
    empty user-data string is left out of the request like [None]. *)
Theorem launch_template_found_or_created {PS : Type} `{Services PS}
    (name image_id instance_type iam_profile : string)
    (security_group_ids : list string) (user_data : option string) (tags : TagSet)
    (N B : Z) (w : Session PS) :
  1 <= N ->
  let describe := Service.DescribeLaunchTemplates name in
  let params := launch_template_params name image_id instance_type iam_profile
                                       security_group_ids user_data tags in
  let create := Service.CreateLaunchTemplate params in
  let ensure := ensure_launch_template name image_id instance_type iam_profile
                                       security_group_ids user_data tags N B in
  (forall id others ps1,
      serve describe (remote w) = (Ok (RList (id :: others)), ps1) ->
      ensure w
      = mkRun (Ret (Some id))
              (mkSession ps1 (journal w ++ [(describe, Ok (RList (id :: others)))])) [])
  /\ (forall ps1 id ps2,
      serve describe (remote w) = (Ok (RList []), ps1) ->
      serve create ps1 = (Ok (RId id), ps2) ->
      ensure w
      = mkRun (Ret (Some id))
              (mkSession ps2 (journal w ++ [(describe, Ok (RList []));
                                            (create, Ok (RId id))])) [])
  /\ (forall msg ps1 id ps2,
      serve describe (remote w)
      = (Err (ClientError "InvalidLaunchTemplateName.NotFoundException" msg), ps1) ->
      serve create ps1 = (Ok (RId id), ps2) ->
      ensure w
      = mkRun (Ret (Some id))
              (mkSession ps2
                 (journal w
                  ++ [(describe,
                       Err (ClientError "InvalidLaunchTemplateName.NotFoundException" msg));
                      (create, Ok (RId id))])) [])
  /\ (forall code msg ps1,
      serve describe (remote w) = (Err (ClientError code msg), ps1) ->
      code <> "InvalidLaunchTemplateName.NotFoundException" ->
      ensure_launch_template_body name image_id instance_type iam_profile
                                  security_group_ids user_data tags w
      = mkRun (Raise (ClientError code msg))
              (mkSession ps1 (journal w ++ [(describe, Err (ClientError code msg))])) [])
  /\ (user_data = Some "" ->
      params = launch_template_params name image_id instance_type iam_profile
                                      security_group_ids None tags).
Proof.
  intros HN describe params create ensure. split; [|split; [|split; [|split]]].
  - intros id others ps1 Hd. unfold ensure, ensure_launch_template.
    pose proof (@template_body_listed PS H name image_id instance_type iam_profile
                  security_group_ids user_data tags w id others ps1 Hd) as Hb.
    rewrite (@retryable_ret _ _ "ensure_launch_template" _ N B w id HN);
      rewrite Hb; reflexivity.
  - intros ps1 id ps2 Hd Hc. unfold ensure, ensure_launch_template.
    pose proof (@template_body_none_listed PS H name image_id instance_type iam_profile
                  security_group_ids user_data tags w ps1 id ps2 Hd Hc) as Hb.
    rewrite (@retryable_ret _ _ "ensure_launch_template" _ N B w id HN);
      rewrite Hb; reflexivity.
  - intros msg ps1 id ps2 Hd Hc. unfold ensure, ensure_launch_template.
    pose proof (@template_body_not_found PS H name image_id instance_type iam_profile
                  security_group_ids user_data tags w msg ps1 id ps2 Hd Hc) as Hb.
    rewrite (@retryable_ret _ _ "ensure_launch_template" _ N B w id HN);
      rewrite Hb; reflexivity.
  - intros code msg ps1 Hd Hcode.
    exact (@template_body_other PS H name image_id instance_type iam_profile
             security_group_ids user_data tags w code msg ps1 Hd Hcode).
  - intros ->. reflexivity.
Qed.

Lemma launch_template_found_or_created_witness :
  let params := launch_template_params "web" "ami-1" "t3.micro" "web-profile"
                                       ["sg-1"] (Some "") [] in
  let ensure := @ensure_launch_template _ ScriptedServices "web" "ami-1" "t3.micro"
                  "web-profile" ["sg-1"] (Some "") [] 5 2 in
  let not_found := ClientError "InvalidLaunchTemplateName.NotFoundException" "none" in
  ensure (fresh_session [Ok (RList ["lt-7"])])
  = mkRun (Ret (Some "lt-7"))
          (mkSession [] [(Service.DescribeLaunchTemplates "web", Ok (RList ["lt-7"]))]) []
  /\ ensure (fresh_session [Ok (RList []); Ok (RId "lt-1")])
     = mkRun (Ret (Some "lt-1"))
             (mkSession [] [(Service.DescribeLaunchTemplates "web", Ok (RList []));
                            (Service.CreateLaunchTemplate params, Ok (RId "lt-1"))]) []
  /\ ensure (fresh_session [Err not_found; Ok (RId "lt-1")])
     = mkRun (Ret (Some "lt-1"))
             (mkSession [] [(Service.DescribeLaunchTemplates "web", Err not_found);
                            (Service.CreateLaunchTemplate params, Ok (RId "lt-1"))]) []
  /\ @ensure_launch_template_body _ ScriptedServices "web" "ami-1" "t3.micro"
       "web-profile" ["sg-1"] (Some "") []
       (fresh_session [Err (ClientError "UnauthorizedOperation" "no")])
     = mkRun (Raise (ClientError "UnauthorizedOperation" "no"))
             (mkSession [] [(Service.DescribeLaunchTemplates "web",
                             Err (ClientError "UnauthorizedOperation" "no"))]) []
  /\ params = launch_template_params "web" "ami-1" "t3.micro" "web-profile"
                                     ["sg-1"] None [].
Proof.
  intros params ensure not_found.
  split; [|split; [|split; [|split]]].
  - apply (proj1 (@launch_template_found_or_created _ ScriptedServices "web" "ami-1"
                    "t3.micro" "web-profile" ["sg-1"] (Some "") [] 5 2
                    (fresh_session [Ok (RList ["lt-7"])]) ltac:(lia))).
    reflexivity.
  - apply (proj1 (proj2 (@launch_template_found_or_created _ ScriptedServices "web"
                    "ami-1" "t3.micro" "web-profile" ["sg-1"] (Some "") [] 5 2
                    (fresh_session [Ok (RList []); Ok (RId "lt-1")]) ltac:(lia)))
                 [Ok (RId "lt-1")] "lt-1" []); reflexivity.
  - apply (proj1 (proj2 (proj2 (@launch_template_found_or_created _ ScriptedServices
                    "web" "ami-1" "t3.micro" "web-profile" ["sg-1"] (Some "") [] 5 2
                    (fresh_session [Err not_found; Ok (RId "lt-1")]) ltac:(lia))))
                 "none" [Ok (RId "lt-1")] "lt-1" []); reflexivity.
  - apply (proj1 (proj2 (proj2 (proj2 (@launch_template_found_or_created _
                    ScriptedServices "web" "ami-1" "t3.micro" "web-profile" ["sg-1"]
                    (Some "") [] 5 2
                    (fresh_session [Err (ClientError "UnauthorizedOperation" "no")])
                    ltac:(lia)))))).
    + reflexivity.
    + discriminate.
  - apply (proj2 (proj2 (proj2 (proj2 (@launch_template_found_or_created _
                    ScriptedServices "web" "ami-1" "t3.micro" "web-profile" ["sg-1"]
                    (Some "") [] 5 2 (fresh_session []) ltac:(lia)))))).
    reflexivity.
Defined.

(** ** Credentials *)

Section Credentials.

Context {PS : Type} `{Services PS}.
Variable safe_load : string -> Outcome PyObj.
Variables (secret_name username_key password_key : string).

Let get := Service.GetSecretValue secret_name.
Let body : M (Session PS) PyDict :=
  fetch_credentials_body safe_load secret_name username_key password_key.
Let no_payload : exn :=
  PyError "ValueError"
    (String.append "Secret " (String.append secret_name " does not contain SecretString")).

Lemma credentials_body_no_payload (w : Session PS) r ps1 :
  serve get (remote w) = (Ok r, ps1) ->
  secret_string r = None \/ secret_string r = Some "" ->
  body w = mkRun (Raise no_payload) (mkSession ps1 (journal w ++ [(get, Ok r)])) [].
Proof.
  intros Hg Hs. unfold body, fetch_credentials_body. fold get.
  unfold bind, request. rewrite Hg. cbn.
  destruct Hs as [-> | ->]; reflexivity.
Qed.

Lemma credentials_body_parsed (w : Session PS) text ps1 entries :
  serve get (remote w) = (Ok (RId text), ps1) ->
  text <> "" ->
  safe_load text = Ret (Some (PDict entries)) ->
  body w
  = mkRun (match assoc username_key entries, assoc password_key entries with
           | Some u, Some p => Ret [("username", Some u); ("password", Some p)]
           | None, _ => Raise (PyError "KeyError" username_key)
           | Some _, None => Raise (PyError "KeyError" password_key)
           end)
          (mkSession ps1 (journal w ++ [(get, Ok (RId text))])) [].
Proof.
  intros Hg Htext Hload. unfold body, fetch_credentials_body. fold get.
  unfold bind, request. rewrite Hg. cbn.
  destruct text as [|c rest]; [contradiction|]. rewrite Hload. cbn.
  destruct (assoc username_key entries) as [u|]; cbn; [|reflexivity].
  destruct (assoc password_key entries) as [p|]; reflexivity.
Qed.

End Credentials.

(** X18: a secret without a [SecretString], or with an empty one, makes
    [fetch_credentials] raise [ValueError] after a single request: it is
    not a provider error, so the wrapper does not try again, whatever
    [max_attempts] is. *)
Theorem credentials_missing_payload {PS : Type} `{Services PS}
    (safe_load : string -> Outcome PyObj)
    (secret_name username_key password_key : string) (N B : Z) (w : Session PS)
    (r : Response) (ps1 : PS) :
  1 <= N ->
  serve (Service.GetSecretValue secret_name) (remote w) = (Ok r, ps1) ->
  secret_string r = None \/ secret_string r = Some "" ->
  fetch_credentials safe_load secret_name username_key password_key N B w
  = mkRun (Raise (PyError "ValueError"
                    (String.append "Secret "
                       (String.append secret_name " does not contain SecretString"))))
          (mkSession ps1 (journal w ++ [(Service.GetSecretValue secret_name, Ok r)])) [].
Proof.
  intros HN Hg Hs. unfold fetch_credentials.
  pose proof (@credentials_body_no_payload PS H safe_load secret_name username_key
                password_key w r ps1 Hg Hs) as Hb.
  erewrite retryable_pyerror; [|exact HN|rewrite Hb; reflexivity].
  rewrite Hb. reflexivity.
Qed.

Lemma credentials_missing_payload_witness :
  @fetch_credentials _ ScriptedServices toy_safe_load "db/creds" "user" "pass" 5 2
     (fresh_session [Ok (RId "")])
  = mkRun (Raise (PyError "ValueError" "Secret db/creds does not contain SecretString"))
          (mkSession [] [(Service.GetSecretValue "db/creds", Ok (RId ""))]) [].
Proof.
  apply (@credentials_missing_payload _ ScriptedServices toy_safe_load "db/creds"
           "user" "pass" 5 2 (fresh_session [Ok (RId "")]) (RId "") []);
    [lia | reflexivity | right; reflexivity].
Defined.

(** X19: when the secret parses to a mapping, [fetch_credentials] returns
    the values under the two keys as [username] and [password], after one
    request.  A key the mapping lacks raises [KeyError] with that key, the
    user name key first, and is not retried either. *)
Theorem credentials_extracted {PS : Type} `{Services PS}
    (safe_load : string -> Outcome PyObj)
    (secret_name username_key password_key : string) (N B : Z) (w : Session PS)
    (text : string) (ps1 : PS) (entries : list (string * PyVal)) :
  1 <= N ->
  serve (Service.GetSecretValue secret_name) (remote w) = (Ok (RId text), ps1) ->
  text <> "" ->
  safe_load text = Ret (Some (PDict entries)) ->
  let after_one :=
    mkSession ps1 (journal w ++ [(Service.GetSecretValue secret_name, Ok (RId text))]) in
  let run := fetch_credentials safe_load secret_name username_key password_key N B w in
  (forall u p,
      assoc username_key entries = Some u ->
      assoc password_key entries = Some p ->
      run = mkRun (Ret (Some [("username", Some u); ("password", Some p)])) after_one [])
  /\ (assoc username_key entries = None ->
      run = mkRun (Raise (PyError "KeyError" username_key)) after_one [])
  /\ (forall u,
      assoc username_key entries = Some u ->
      assoc password_key entries = None ->
      run = mkRun (Raise (PyError "KeyError" password_key)) after_one []).
Proof.
  intros HN Hg Htext Hload after_one run.
  pose proof (@credentials_body_parsed PS H safe_load secret_name username_key
                password_key w text ps1 entries Hg Htext Hload) as Hb.
  subst run. unfold fetch_credentials.
  split; [|split].
  - intros u p Hu Hp. rewrite Hu, Hp in Hb.
    erewrite retryable_ret; [|exact HN|rewrite Hb; reflexivity].
    rewrite Hb. reflexivity.
  - intros Hu. rewrite Hu in Hb.
    erewrite retryable_pyerror; [|exact HN|rewrite Hb; reflexivity].
    rewrite Hb. reflexivity.
  - intros u Hu Hp. rewrite Hu, Hp in Hb.
    erewrite retryable_pyerror; [|exact HN|rewrite Hb; reflexivity].
    rewrite Hb. reflexivity.
Qed.

Lemma credentials_extracted_witness :
  let after_one :=
    mkSession [] [(Service.GetSecretValue "db/creds", Ok (RId "user: admin"))] in
  let start := fresh_session [Ok (RId "user: admin")] in
  @fetch_credentials _ ScriptedServices toy_safe_load "db/creds" "user" "pass" 5 2 start
  = mkRun (Ret (Some [("username", Some (PStr "admin"));
                      ("password", Some (PStr "s3cret"))])) after_one []
  /\ @fetch_credentials _ ScriptedServices toy_safe_load "db/creds" "login" "pass" 5 2 start
     = mkRun (Raise (PyError "KeyError" "login")) after_one []
  /\ @fetch_credentials _ ScriptedServices toy_safe_load "db/creds" "user" "secret" 5 2 start
     = mkRun (Raise (PyError "KeyError" "secret")) after_one [].
Proof.
  intros after_one start. split; [|split].
  - apply (proj1 (@credentials_extracted _ ScriptedServices toy_safe_load "db/creds"
                    "user" "pass" 5 2 start "user: admin" []
                    [("user", PStr "admin"); ("pass", PStr "s3cret")]
                    ltac:(lia) eq_refl ltac:(discriminate) eq_refl));
      reflexivity.
  - apply (proj1 (proj2 (@credentials_extracted _ ScriptedServices toy_safe_load
                    "db/creds" "login" "pass" 5 2 start "user: admin" []
                    [("user", PStr "admin"); ("pass", PStr "s3cret")]
                    ltac:(lia) eq_refl ltac:(discriminate) eq_refl)));
      reflexivity.
  - apply (proj2 (proj2 (@credentials_extracted _ ScriptedServices toy_safe_load
                    "db/creds" "user" "secret" 5 2 start "user: admin" []
                    [("user", PStr "admin"); ("pass", PStr "s3cret")]
                    ltac:(lia) eq_refl ltac:(discriminate) eq_refl))
                 (PStr "admin")); reflexivity.
Defined.

(** ** The database *)

Section BuildParams.

Context {St : Type}.
Variables (config credentials : PyDict).

Lemma field_value_present (f : Field) (s : St) :
  field_missing config credentials f = None ->
  field_value config credentials f s
  = mkRun (Ret (field_denote config credentials f)) s [].
Proof.
  destruct f as [v|key|key]; cbn; unfold getitem, dict_get; try reflexivity;
    destruct (assoc key _); (reflexivity || discriminate).
Qed.

Lemma field_value_missing (f : Field) (s : St) key :
  field_missing config credentials f = Some key ->
  field_value config credentials f s = mkRun (Raise (PyError "KeyError" key)) s [].
Proof.
  destruct f as [v|k|k]; cbn; unfold getitem; try discriminate;
    destruct (assoc k _); try discriminate; intros [= <-]; reflexivity.
Qed.

Lemma entry_present (name : string) (f : Field) (s : St) :
  field_missing config credentials f = None ->
  (v <- field_value config credentials f ;; ret (name, v)) s
  = mkRun (Ret (name, field_denote config credentials f)) s [].
Proof.
  intros Hf. rewrite bind_unfold. erewrite field_value_present by exact Hf. reflexivity.
Qed.

Lemma entry_missing (name : string) (f : Field) (s : St) key :
  field_missing config credentials f = Some key ->
  (v <- field_value config credentials f ;; ret (name, v)) s
  = mkRun (Raise (PyError "KeyError" key)) s [].
Proof.
  intros Hf. rewrite bind_unfold. erewrite field_value_missing by exact Hf. reflexivity.
Qed.

Lemma build_params_complete (fields : list (string * Field)) (s : St) :
  Forall (fun nf => field_missing config credentials (snd nf) = None) fields ->
  build_params config credentials fields s
  = mkRun (Ret (map (fun nf => (fst nf, field_denote config credentials (snd nf))) fields))
          s [].
Proof.
  unfold build_params. induction fields as [|[name f] fields IH]; intros Hall.
  - reflexivity.
  - inversion Hall as [|? ? Hf Hrest]; subst. cbn [for_each].
    rewrite bind_unfold. cbn [fst snd] in *.
    erewrite entry_present by exact Hf. cbn [outcome final events].
    rewrite bind_unfold, (IH Hrest). reflexivity.
Qed.

Lemma build_params_missing (fields : list (string * Field)) (s : St) :
  Exists (fun nf => field_missing config credentials (snd nf) <> None) fields ->
  exists key,
    build_params config credentials fields s
    = mkRun (Raise (PyError "KeyError" key)) s []
    /\ Exists (fun nf => field_missing config credentials (snd nf) = Some key) fields.
Proof.
  unfold build_params. induction fields as [|[name f] fields IH]; intros Hex.
  - inversion Hex.
  - cbn [for_each].
    destruct (field_missing config credentials f) as [key|] eqn:Hf.
    + exists key. split; [|now left].
      rewrite bind_unfold. cbn [fst snd].
      erewrite entry_missing by exact Hf. reflexivity.
    + assert (Hrest : Exists (fun nf => field_missing config credentials (snd nf) <> None)
                             fields).
      { inversion Hex as [? ? Hhere|? ? Hthere]; subst; [|assumption].
        cbn in Hhere. congruence. }
      destruct (IH Hrest) as (key & Hrun & Hkey).
      exists key. split; [|now right].
      rewrite bind_unfold. cbn [fst snd].
      erewrite entry_present by exact Hf. cbn [outcome final events].
      rewrite bind_unfold, Hrun. reflexivity.
Qed.

End BuildParams.

Section Postgres.

Context {PS : Type} `{Services PS}.
Variables (config : PyDict) (subnet_group security_group_id : string)
          (credentials : PyDict) (tags : TagSet).
Variable repr : PyVal -> string.
Variable identifier : PyObj.

Hypothesis has_identifier : assoc "identifier" config = Some identifier.

Let describe := Service.DescribeDBInstances identifier.
Let fields := db_fields identifier subnet_group security_group_id tags.
Let body : M (Session PS) PyObj :=
  ensure_postgres_body repr config subnet_group security_group_id credentials tags.

Lemma postgres_body_found (w : Session PS) r ps1 :
  serve describe (remote w) = (Ok r, ps1) ->
  body w = mkRun (Ret identifier) (mkSession ps1 (journal w ++ [(describe, Ok r)]))
                 [LogInfo (String.append "Reusing RDS instance " (py_str repr identifier))].
Proof.
  intros Hd. unfold body, ensure_postgres_body, getitem. rewrite has_identifier.
  unfold describe in *.
  rewrite bind_unfold. cbn [ret outcome final events].
  rewrite bind_unfold.
  assert (Hprobe :
            try_except
              (request describe ;;
               emit (LogInfo (String.append "Reusing RDS instance "
                                 (py_str repr identifier))) ;;
               ret true)
              (fun exc => if is_DBInstanceNotFoundFault exc then Some (ret false) else None)
              w
            = mkRun (Ret true) (mkSession ps1 (journal w ++ [(describe, Ok r)]))
                    [LogInfo (String.append "Reusing RDS instance "
                                (py_str repr identifier))]).
  { unfold try_except, bind, request, emit, ret, describe. rewrite Hd. reflexivity. }
  unfold describe in Hprobe. rewrite Hprobe. reflexivity.
Qed.

Lemma postgres_body_other (w : Session PS) code msg ps1 :
  serve describe (remote w) = (Err (ClientError code msg), ps1) ->
  code <> "DBInstanceNotFound" ->
  body w = mkRun (Raise (ClientError code msg))
                 (mkSession ps1 (journal w ++ [(describe, Err (ClientError code msg))])) [].
Proof.
  intros Hd Hcode. unfold body, ensure_postgres_body, getitem. rewrite has_identifier.
  unfold describe in *.
  rewrite bind_unfold. cbn [ret outcome final events].
  rewrite bind_unfold.
  assert (Hprobe :
            try_except
              (request describe ;;
               emit (LogInfo (String.append "Reusing RDS instance "
                                 (py_str repr identifier))) ;;
               ret true)
              (fun exc => if is_DBInstanceNotFoundFault exc then Some (ret false) else None)
              w
            = mkRun (Raise (ClientError code msg))
                    (mkSession ps1 (journal w ++ [(describe, Err (ClientError code msg))]))
                    []).
  { unfold try_except, bind, request, emit, ret, describe. rewrite Hd.
    cbn [outcome final events fst snd app is_DBInstanceNotFoundFault].
    destruct (String.eqb_spec code "DBInstanceNotFound") as [|_]; [contradiction|].
    reflexivity. }
  unfold describe in Hprobe. rewrite Hprobe. reflexivity.
Qed.

(** What the body does once the describe request has raised the
    not-found fault. *)
Lemma postgres_body_not_found (w : Session PS) msg ps1 :
  serve describe (remote w) = (Err (ClientError "DBInstanceNotFound" msg), ps1) ->
  let w1 := mkSession ps1
              (journal w ++ [(describe, Err (ClientError "DBInstanceNotFound" msg))]) in
  body w
  = (params <- build_params config credentials fields ;;
     parameter_group <- getitem config "parameter_group_name" ;;
     request (Service.CreateDBInstance
                (if truthy parameter_group
                 then params ++ [("DBParameterGroupName", parameter_group)]
                 else params)) ;;
     ret identifier) w1.
Proof.
  intros Hd w1. unfold body, ensure_postgres_body, getitem at 1. rewrite has_identifier.
  unfold describe, fields in *.
  rewrite bind_unfold. cbn [ret outcome final events].
  rewrite bind_unfold.
  assert (Hprobe :
            try_except
              (request describe ;;
               emit (LogInfo (String.append "Reusing RDS instance "
                                 (py_str repr identifier))) ;;
               ret true)
              (fun exc => if is_DBInstanceNotFoundFault exc then Some (ret false) else None)
              w
            = mkRun (Ret false) w1 []).
  { unfold try_except, bind, request, describe. rewrite Hd. reflexivity. }
  unfold describe in Hprobe. rewrite Hprobe. cbn [outcome final events app].
  apply run_eta.
Qed.

End Postgres.

Lemma db_fields_complete (config credentials : PyDict) (identifier : PyObj)
    (subnet_group security_group_id : string) (tags : TagSet) :
  (forall key, In key db_config_keys -> assoc key config <> None) ->
  assoc "username" credentials <> None ->
  assoc "password" credentials <> None ->
  Forall (fun nf => field_missing config credentials (snd nf) = None)
         (db_fields identifier subnet_group security_group_id tags).
Proof.
  intros Hcfg Hu Hp. unfold db_fields.
  repeat constructor; cbn [snd field_missing];
    match goal with
    | |- match assoc ?key config with _ => _ end = None =>
        destruct (assoc key config) eqn:Hk; [reflexivity|];
        exfalso; apply (Hcfg key); [cbn; tauto|exact Hk]
    | |- match assoc ?key credentials with _ => _ end = None =>
        destruct (assoc key credentials) eqn:Hk; [reflexivity|]; contradiction
    end.
Qed.

Lemma db_fields_incomplete (config credentials : PyDict) (identifier : PyObj)
    (subnet_group security_group_id : string) (tags : TagSet) :
  (exists key, In key db_config_keys /\ key <> "parameter_group_name"
               /\ assoc key config = None)
  \/ assoc "username" credentials = None
  \/ assoc "password" credentials = None ->
  Exists (fun nf => field_missing config credentials (snd nf) <> None)
         (db_fields identifier subnet_group security_group_id tags).
Proof.
  intros Hmiss. rewrite Exists_exists. unfold db_fields.
  destruct Hmiss as [(key & Hin & Hne & Hk)|[Hk|Hk]].
  - assert (Hfield : exists name, In (name, FromConfig key)
                                     (db_fields identifier subnet_group
                                                security_group_id tags)).
    { cbn in Hin. unfold db_fields.
      repeat (destruct Hin as [Hin|Hin]); try contradiction; subst key;
        try (exfalso; apply Hne; reflexivity);
        eexists; cbn; repeat (first [left; reflexivity | right]). }
    destruct Hfield as (name & Hname).
    exists (name, FromConfig key). split; [exact Hname|].
    cbn. rewrite Hk. discriminate.
  - exists ("MasterUsername", FromCredentials "username"). split; [cbn; tauto|].
    cbn. rewrite Hk. discriminate.
  - exists ("MasterUserPassword", FromCredentials "password"). split; [cbn; tauto|].
    cbn. rewrite Hk. discriminate.
Qed.

(** X20: [ensure_postgres] reads the identifier before anything else.  A
    configuration without it raises [KeyError] and no request is sent.
    When the describe request for the identifier returns, the identifier
    is returned after that one request, and the reuse is logged with the
    identifier as [%s] formats it: neither the credentials nor any other
    key of the configuration is read. *)
Theorem database_reused_as_found {PS : Type} `{Services PS}
    (repr : PyVal -> string)
    (config : PyDict) (subnet_group security_group_id : string)
    (credentials : PyDict) (tags : TagSet) (N B : Z) (w : Session PS) :
  1 <= N ->
  let ensure := ensure_postgres repr config subnet_group security_group_id credentials tags
                                N B in
  (assoc "identifier" config = None ->
   ensure w = mkRun (Raise (PyError "KeyError" "identifier")) w [])
  /\ (forall identifier r ps1,
      assoc "identifier" config = Some identifier ->
      serve (Service.DescribeDBInstances identifier) (remote w) = (Ok r, ps1) ->
      ensure w
      = mkRun (Ret (Some identifier))
              (mkSession ps1
                 (journal w ++ [(Service.DescribeDBInstances identifier, Ok r)]))
              [LogInfo (String.append "Reusing RDS instance " (py_str repr identifier))]).
Proof.
  intros HN ensure. split.
  - intros Hid. unfold ensure, ensure_postgres.
    assert (Hb : ensure_postgres_body repr config subnet_group security_group_id
                   credentials tags w
                 = mkRun (Raise (PyError "KeyError" "identifier")) w []).
    { unfold ensure_postgres_body, getitem. rewrite Hid. reflexivity. }
    erewrite retryable_pyerror; [|exact HN|rewrite Hb; reflexivity].
    rewrite Hb. reflexivity.
  - intros identifier r ps1 Hid Hd. unfold ensure, ensure_postgres.
    pose proof (@postgres_body_found PS H config subnet_group security_group_id
                  credentials tags repr identifier Hid w r ps1 Hd) as Hb.
    erewrite retryable_ret; [|exact HN|rewrite Hb; reflexivity].
    rewrite Hb. reflexivity.
Qed.

Lemma database_reused_as_found_witness :
  @ensure_postgres _ ScriptedServices toy_repr [("engine", Some (PStr "postgres"))]
     "cda-db-subnets" "sg-1" [] [] 5 2 (fresh_session [Ok (RList ["cda-db"])])
  = mkRun (Raise (PyError "KeyError" "identifier"))
          (fresh_session [Ok (RList ["cda-db"])]) []
  /\ @ensure_postgres _ ScriptedServices toy_repr [("identifier", Some (PStr "cda-db"))]
       "cda-db-subnets" "sg-1" [] [] 5 2 (fresh_session [Ok (RList ["cda-db"])])
     = mkRun (Ret (Some (Some (PStr "cda-db"))))
             (mkSession []
                [(Service.DescribeDBInstances (Some (PStr "cda-db")),
                  Ok (RList ["cda-db"]))])
             [LogInfo "Reusing RDS instance cda-db"].
Proof.
  split.
  - apply (proj1 (@database_reused_as_found _ ScriptedServices toy_repr
                    [("engine", Some (PStr "postgres"))] "cda-db-subnets" "sg-1" [] []
                    5 2 (fresh_session [Ok (RList ["cda-db"])]) ltac:(lia))).
    reflexivity.
  - apply (proj2 (@database_reused_as_found _ ScriptedServices toy_repr
                    [("identifier", Some (PStr "cda-db"))] "cda-db-subnets" "sg-1" [] []
                    5 2 (fresh_session [Ok (RList ["cda-db"])]) ltac:(lia)));
      reflexivity.
Defined.

(** X21: when the describe request raises the not-found fault and the
    configuration and the credentials hold every key that is read,
    [ensure_postgres] sends one create request and returns the
    identifier.  The request carries the eighteen keyword arguments in the
    order of the source, with the values of the configuration and of the
    credentials, and [DBParameterGroupName] after them only when the
    configured parameter group is truthy. *)
Theorem database_created_from_config {PS : Type} `{Services PS}
    (repr : PyVal -> string)
    (config : PyDict) (subnet_group security_group_id : string)
    (credentials : PyDict) (tags : TagSet) (N B : Z) (w : Session PS)
    (identifier : PyObj) (msg : string) (ps1 : PS) (r : Response) (ps2 : PS) :
  1 <= N ->
  let describe := Service.DescribeDBInstances identifier in
  let params :=
    map (fun nf => (fst nf, field_denote config credentials (snd nf)))
        (db_fields identifier subnet_group security_group_id tags) in
  let parameter_group := dict_get config "parameter_group_name" in
  let create :=
    Service.CreateDBInstance
      (if truthy parameter_group
       then params ++ [("DBParameterGroupName", parameter_group)]
       else params) in
  assoc "identifier" config = Some identifier ->
  (forall key, In key db_config_keys -> assoc key config <> None) ->
  assoc "username" credentials <> None ->
  assoc "password" credentials <> None ->
  serve describe (remote w) = (Err (ClientError "DBInstanceNotFound" msg), ps1) ->
  serve create ps1 = (Ok r, ps2) ->
  ensure_postgres repr config subnet_group security_group_id credentials tags N B w
  = mkRun (Ret (Some identifier))
          (mkSession ps2
             (journal w ++ [(describe, Err (ClientError "DBInstanceNotFound" msg));
                            (create, Ok r)]))
          [].
Proof.
  intros HN describe params parameter_group create Hid Hcfg Hu Hp Hd Hc.
  assert (Hb : ensure_postgres_body repr config subnet_group security_group_id
                 credentials tags w
               = mkRun (Ret identifier)
                   (mkSession ps2
                      (journal w ++ [(describe, Err (ClientError "DBInstanceNotFound" msg));
                                     (create, Ok r)]))
                   []).
  { rewrite (@postgres_body_not_found PS H config subnet_group security_group_id
               credentials tags repr identifier Hid w msg ps1 Hd).
    rewrite bind_unfold.
    rewrite (@build_params_complete _ config credentials _ _
               (@db_fields_complete config credentials identifier subnet_group
                  security_group_id tags Hcfg Hu Hp)).
    cbn [outcome final events]. fold params.
    rewrite bind_unfold. unfold getitem.
    destruct (assoc "parameter_group_name" config) as [pg|] eqn:Hpg.
    2:{ exfalso. apply (Hcfg "parameter_group_name"); [cbn; tauto|exact Hpg]. }
    assert (Hpg' : parameter_group = pg)
      by (unfold parameter_group, dict_get; now rewrite Hpg).
    cbn [ret outcome final events]. rewrite <- Hpg'. fold create.
    rewrite bind_unfold.
    rewrite (@request_ok PS H create (mkSession ps1 _) r ps2 Hc).
    cbn [outcome final events ret journal app]. rewrite <- app_assoc. reflexivity. }
  unfold ensure_postgres.
  erewrite retryable_ret; [|exact HN|rewrite Hb; reflexivity].
  rewrite Hb. reflexivity.
Qed.

Lemma database_created_from_config_witness :
  let run := @ensure_postgres _ ScriptedServices toy_repr (db_config None)
               "cda-db-subnets" "sg-1" db_credentials [("Project", "cda")] 5 2
               (fresh_session [Err (ClientError "DBInstanceNotFound" "none"); Ok RNone]) in
  outcome run = Ret (Some (Some (PStr "cda-db")))
  /\ map fst (journal (final run))
     = [Service.DescribeDBInstances (Some (PStr "cda-db"));
        Service.CreateDBInstance
          [("DBInstanceIdentifier", Some (PStr "cda-db"));
           ("AllocatedStorage", Some (PInt 20));
           ("DBInstanceClass", Some (PStr "db.t3.micro"));
           ("Engine", Some (PStr "postgres"));
           ("EngineVersion", Some (PStr "15.4"));
           ("MasterUsername", Some (PStr "admin"));
           ("MasterUserPassword", Some (PStr "s3cret"));
           ("DBSubnetGroupName", Some (PStr "cda-db-subnets"));
           ("VpcSecurityGroupIds", Some (PList [PStr "sg-1"]));
           ("StorageEncrypted", Some (PBool true));
           ("BackupRetentionPeriod", Some (PInt 7));
           ("PreferredBackupWindow", Some (PStr "02:00-03:00"));
           ("PreferredMaintenanceWindow", Some (PStr "sun:04:00-sun:05:00"));
           ("MultiAZ", Some (PBool false));
           ("EnableIAMDatabaseAuthentication", Some (PBool true));
           ("DeletionProtection", Some (PBool true));
           ("DBName", Some (PStr "analytics"));
           ("Tags", Some (PList [PDict [("Key", PStr "Project");
                                        ("Value", PStr "cda")]]))]].
Proof.
  intros run.
  assert (Hrun := @database_created_from_config _ ScriptedServices toy_repr (db_config None)
                    "cda-db-subnets" "sg-1" db_credentials [("Project", "cda")] 5 2
                    (fresh_session [Err (ClientError "DBInstanceNotFound" "none"); Ok RNone])
                    (Some (PStr "cda-db")) "none" [Ok RNone] RNone []
                    ltac:(lia) eq_refl).
  cbv zeta in Hrun. fold run in Hrun. rewrite Hrun.
  - split; reflexivity.
  - intros key Hin. cbn in Hin.
    repeat (destruct Hin as [<-|Hin]; [discriminate|]). contradiction.
  - discriminate.
  - discriminate.
  - reflexivity.
  - reflexivity.
Defined.

Lemma field_missing_key (config credentials : PyDict) (f : Field) (key : string) :
  field_missing config credentials f = Some key ->
  assoc key config = None \/ assoc key credentials = None.
Proof.
  destruct f as [v|k|k]; cbn; [discriminate| |].
  - destruct (assoc k config) eqn:Hk; [discriminate|].
    intros [= <-]. now left.
  - destruct (assoc k credentials) eqn:Hk; [discriminate|].
    intros [= <-]. now right.
Qed.

Lemma field_missing_dec (config credentials : PyDict) (nf : string * Field) :
  {field_missing config credentials (snd nf) <> None}
  + {~ field_missing config credentials (snd nf) <> None}.
Proof.
  destruct (field_missing config credentials (snd nf)).
  - left. discriminate.
  - right. intros Hn. now apply Hn.
Qed.

(** X22: when the database does not exist and the configuration or the
    credentials lack a key the create request needs, [ensure_postgres]
    raises [KeyError] for a key that is missing.  The describe request is
    the only one sent: no create request is made, and the error is not
    retried. *)
Theorem database_incomplete_config {PS : Type} `{Services PS}
    (repr : PyVal -> string)
    (config : PyDict) (subnet_group security_group_id : string)
    (credentials : PyDict) (tags : TagSet) (N B : Z) (w : Session PS)
    (identifier : PyObj) (msg : string) (ps1 : PS) :
  1 <= N ->
  let describe := Service.DescribeDBInstances identifier in
  assoc "identifier" config = Some identifier ->
  serve describe (remote w) = (Err (ClientError "DBInstanceNotFound" msg), ps1) ->
  (exists key, In key db_config_keys /\ assoc key config = None)
  \/ assoc "username" credentials = None
  \/ assoc "password" credentials = None ->
  exists key,
    (assoc key config = None \/ assoc key credentials = None)
    /\ ensure_postgres repr config subnet_group security_group_id credentials tags N B w
       = mkRun (Raise (PyError "KeyError" key))
               (mkSession ps1
                  (journal w ++ [(describe, Err (ClientError "DBInstanceNotFound" msg))]))
               [].
Proof.
  intros HN describe Hid Hd Hmiss.
  set (w1 := mkSession ps1
               (journal w ++ [(describe, Err (ClientError "DBInstanceNotFound" msg))])).
  assert (Hbody : exists key,
             (assoc key config = None \/ assoc key credentials = None)
             /\ ensure_postgres_body repr config subnet_group security_group_id
                  credentials tags w
                = mkRun (Raise (PyError "KeyError" key)) w1 []).
  { rewrite (@postgres_body_not_found PS H config subnet_group security_group_id
               credentials tags repr identifier Hid w msg ps1 Hd).
    fold describe. fold w1.
    destruct (Exists_dec
                (fun nf => field_missing config credentials (snd nf) <> None)
                (db_fields identifier subnet_group security_group_id tags)
                (field_missing_dec config credentials)) as [Hex|Hall].
    - destruct (@build_params_missing (Session PS) config credentials _ w1 Hex)
        as (key & Hrun & Hkey).
      exists key. split.
      + apply Exists_exists in Hkey. destruct Hkey as (nf & _ & Hnf).
        exact (field_missing_key _ _ _ Hnf).
      + rewrite bind_unfold, Hrun. reflexivity.
    - assert (Hpg : assoc "parameter_group_name" config = None).
      { destruct Hmiss as [(key & Hin & Hk)|Hcred].
        - destruct (string_dec key "parameter_group_name") as [->|Hne];
            [exact Hk|].
          exfalso. apply Hall.
          apply db_fields_incomplete. left. exists key. auto.
        - exfalso. apply Hall. apply db_fields_incomplete. now right. }
      exists "parameter_group_name". split; [now left|].
      assert (Hcomplete :
                Forall (fun nf => field_missing config credentials (snd nf) = None)
                       (db_fields identifier subnet_group security_group_id tags)).
      { apply Forall_Exists_neg in Hall. revert Hall. apply Forall_impl.
        intros nf Hnf. destruct (field_missing config credentials (snd nf));
          [exfalso; apply Hnf; discriminate|reflexivity]. }
      rewrite bind_unfold.
      rewrite (@build_params_complete _ config credentials _ _ Hcomplete).
      cbn [outcome final events].
      rewrite bind_unfold. unfold getitem. rewrite Hpg. reflexivity. }
  destruct Hbody as (key & Hkey & Hb).
  exists key. split; [exact Hkey|].
  unfold ensure_postgres.
  erewrite retryable_pyerror; [|exact HN|rewrite Hb; reflexivity].
  rewrite Hb. reflexivity.
Qed.

Lemma database_incomplete_config_witness :
  exists key,
    (assoc key (without "engine_version" (db_config None)) = None
     \/ assoc key db_credentials = None)
    /\ @ensure_postgres _ ScriptedServices toy_repr (without "engine_version" (db_config None))
         "cda-db-subnets" "sg-1" db_credentials [] 5 2
         (fresh_session [Err (ClientError "DBInstanceNotFound" "none"); Ok RNone])
       = mkRun (Raise (PyError "KeyError" key))
               (mkSession [Ok RNone]
                  [(Service.DescribeDBInstances (Some (PStr "cda-db")),
                    Err (ClientError "DBInstanceNotFound" "none"))])
               [].
Proof.
  apply (@database_incomplete_config _ ScriptedServices toy_repr
           (without "engine_version" (db_config None)) "cda-db-subnets" "sg-1"
           db_credentials [] 5 2
           (fresh_session [Err (ClientError "DBInstanceNotFound" "none"); Ok RNone])
           (Some (PStr "cda-db")) "none" [Ok RNone] ltac:(lia) eq_refl eq_refl).
  left. exists "engine_version". split; [cbn; tauto|reflexivity].
Defined.

(** ** Bucket encryption *)

(** X23: [apply_encryption] needs the key [type]: without it [KeyError] is
    raised and no request is sent.  With it, one request is sent, whose
    rule names the KMS key only when [kms_key_arn] is there and truthy (an
    absent, null or empty key is left out), and whatever the provider
    answers is the result: an error is raised as it is, after that one
    request and without a pause, since the method is not wrapped for
    retries. *)
Theorem encryption_one_request {PS : Type} `{Services PS}
    (bucket : string) (encryption : PyDict) (w : Session PS) :
  (assoc "type" encryption = None ->
   apply_encryption bucket encryption w
   = mkRun (Raise (PyError "KeyError" "type")) w [])
  /\ (forall algorithm,
      assoc "type" encryption = Some algorithm ->
      exists kms,
        (truthy (dict_get encryption "kms_key_arn") = true ->
         kms = Some (dict_get encryption "kms_key_arn"))
        /\ (truthy (dict_get encryption "kms_key_arn") = false -> kms = None)
        /\ forall answer ps1,
            serve (Service.PutBucketEncryption bucket algorithm kms) (remote w)
            = (answer, ps1) ->
            apply_encryption bucket encryption w
            = mkRun (match answer with Ok _ => Ret tt | Err e => Raise e end)
                    (mkSession ps1
                       (journal w
                        ++ [(Service.PutBucketEncryption bucket algorithm kms, answer)]))
                    []).
Proof.
  split.
  - intros Ht. unfold apply_encryption, getitem. rewrite Ht. reflexivity.
  - intros algorithm Ht.
    exists (if truthy (dict_get encryption "kms_key_arn")
            then Some (dict_get encryption "kms_key_arn") else None).
    split; [intros ->; reflexivity|].
    split; [intros ->; reflexivity|].
    intros answer ps1 Hs.
    unfold apply_encryption, getitem. rewrite Ht.
    rewrite bind_unfold. cbn [ret outcome final events].
    rewrite bind_unfold.
    destruct answer as [r|e].
    + rewrite (request_ok _ _ Hs). reflexivity.
    + rewrite (request_err _ _ Hs). reflexivity.
Qed.

Lemma encryption_one_request_witness :
  @apply_encryption _ ScriptedServices "cda-raw"
     [("kms_key_arn", Some (PStr "arn:aws:kms:eu-west-1:1:key/k"))]
     (fresh_session [Ok RNone])
  = mkRun (Raise (PyError "KeyError" "type")) (fresh_session [Ok RNone]) []
  /\ exists kms,
       (truthy (dict_get [("type", Some (PStr "AES256")); ("kms_key_arn", Some (PStr ""))]
                         "kms_key_arn") = false -> kms = None)
       /\ @apply_encryption _ ScriptedServices "cda-raw"
            [("type", Some (PStr "AES256")); ("kms_key_arn", Some (PStr ""))]
            (fresh_session [Err (ClientError "AccessDenied" "no")])
          = mkRun (Raise (ClientError "AccessDenied" "no"))
                  (mkSession []
                     [(Service.PutBucketEncryption "cda-raw" (Some (PStr "AES256")) kms,
                       Err (ClientError "AccessDenied" "no"))])
                  [].
Proof.
  split.
  - apply (proj1 (@encryption_one_request _ ScriptedServices "cda-raw"
                    [("kms_key_arn", Some (PStr "arn:aws:kms:eu-west-1:1:key/k"))]
                    (fresh_session [Ok RNone]))).
    reflexivity.
  - destruct (proj2 (@encryption_one_request _ ScriptedServices "cda-raw"
                       [("type", Some (PStr "AES256")); ("kms_key_arn", Some (PStr ""))]
                       (fresh_session [Err (ClientError "AccessDenied" "no")]))
                    (Some (PStr "AES256")) eq_refl) as (kms & _ & Hnone & Hrun).
    exists kms. split; [exact Hnone|].
    apply (Hrun (Err (ClientError "AccessDenied" "no")) []). reflexivity.
Defined.

(** ** The driver prints only when it has finished *)

Section DriverPrints.

Context {PS : Type} `{Provider PS}.

Let quiet (e : Event) : Prop := is_print e = false.

Lemma prints_on_return_bind {A B} (m : M PS A) (k : A -> M PS B) :
  all_events quiet m ->
  (forall a s, prints_on_return (k a s)) ->
  forall s, prints_on_return (bind m k s).
Proof.
  intros Hm Hk s. rewrite bind_unfold. specialize (Hm s).
  destruct (m s) as [[a|e] s1 t1]; cbn [outcome final events] in *.
  - specialize (Hk a s1). unfold prints_on_return in *. cbn [outcome events].
    destruct (outcome (k a s1)).
    + destruct Hk as (before & rows & -> & Hbefore).
      exists (t1 ++ before), rows. split; [now rewrite app_assoc|].
      now apply never_app.
    + now apply never_app.
  - exact Hm.
Qed.

Lemma prints_on_return_emit rows (s : PS) :
  prints_on_return (emit (ConsolePrint rows) s).
Proof. exists [], rows. split; [reflexivity|constructor]. Qed.

Lemma quiet_wrapped {A} (name : string) (f : M PS A) (N B : Z) :
  all_events quiet f -> all_events quiet (retryable name f N B).
Proof. intros Hf. apply all_events_retryable; [assumption| |]; reflexivity. Qed.

Lemma quiet_call (rq : Request) : all_events quiet (call rq).
Proof. apply all_events_call. reflexivity. Qed.

Lemma quiet_emit_info (text : string) : all_events quiet (@emit PS (LogInfo text)).
Proof. apply all_events_emit. reflexivity. Qed.

Lemma ensure_vpc_quiet name cidr tags N B :
  all_events quiet (ensure_vpc name cidr tags N B).
Proof.
  apply quiet_wrapped. unfold ensure_vpc_body.
  apply all_events_bind; [apply quiet_call|]. intros r.
  destruct (get_list r).
  - apply all_events_bind; [apply quiet_call|]. intros response.
    apply all_events_bind; [apply all_events_item_id|]. intros vpc_id.
    apply all_events_bind; [apply quiet_call|]. intros _.
    apply all_events_bind; [apply quiet_call|]. intros _.
    apply all_events_ret.
  - apply all_events_bind; [apply quiet_emit_info|].
    intros _. apply all_events_ret.
Qed.

Lemma ensure_internet_gateway_quiet vpc_id name tags N B :
  all_events quiet (ensure_internet_gateway vpc_id name tags N B).
Proof.
  apply quiet_wrapped. unfold ensure_internet_gateway_body.
  apply all_events_bind; [apply quiet_call|]. intros r.
  destruct (get_list r); [|apply all_events_ret].
  apply all_events_bind; [apply quiet_call|]. intros igw.
  apply all_events_bind; [apply all_events_item_id|]. intros igw_id.
  apply all_events_bind; [apply quiet_call|]. intros _.
  apply all_events_ret.
Qed.

Lemma ensure_subnet_quiet name vpc_id cidr az public tags N B :
  all_events quiet (ensure_subnet name vpc_id cidr az public tags N B).
Proof.
  apply quiet_wrapped. unfold ensure_subnet_body.
  apply all_events_bind; [apply quiet_call|]. intros r.
  destruct (get_list r); [|apply all_events_ret].
  apply all_events_bind; [apply quiet_call|]. intros subnet.
  apply all_events_bind; [apply all_events_item_id|]. intros subnet_id.
  apply all_events_bind; [|intros _; apply all_events_ret].
  destruct public; [|apply all_events_ret].
  apply all_events_bind; [apply quiet_call|]. intros _.
  apply all_events_ret.
Qed.

Lemma ensure_bucket_quiet bucket region N B :
  all_events quiet (ensure_bucket bucket region N B).
Proof.
  apply quiet_wrapped. unfold ensure_bucket_body. apply all_events_try_except.
  - apply all_events_bind; [apply quiet_call|]. intros _. apply quiet_emit_info.
  - intros [code msg|cls msg] h Hhandler; [|discriminate Hhandler].
    destruct (String.eqb code "404" || String.eqb code "NoSuchBucket");
      [|discriminate Hhandler].
    injection Hhandler as <-.
    apply all_events_bind; [apply quiet_emit_info|]. intros _.
    apply all_events_bind; [apply quiet_call|]. intros _.
    apply all_events_ret.
Qed.

Lemma enable_versioning_quiet bucket : all_events quiet (enable_versioning bucket).
Proof.
  unfold enable_versioning.
  apply all_events_bind; [apply quiet_call|]. intros _. apply all_events_ret.
Qed.

Lemma main_prints_on_return (config : Config) (s : PS) :
  prints_on_return (main config s).
Proof.
  unfold main. cbv zeta. revert s.
  apply prints_on_return_bind;
    [apply all_events_returned, ensure_vpc_quiet|]. intros vpc_id.
  apply prints_on_return_bind;
    [apply all_events_returned, ensure_internet_gateway_quiet|]. intros igw_id.
  apply prints_on_return_bind; [apply quiet_call|]. intros response.
  apply prints_on_return_bind; [apply all_events_index_list|]. intros azs.
  apply prints_on_return_bind.
  { apply all_events_for_each. intros ca.
    apply all_events_returned, ensure_subnet_quiet. }
  intros public_subnets.
  apply prints_on_return_bind.
  { apply all_events_for_each. intros ca.
    apply all_events_returned, ensure_subnet_quiet. }
  intros private_subnets.
  apply prints_on_return_bind; [apply ensure_bucket_quiet|]. intros _.
  apply prints_on_return_bind; [apply enable_versioning_quiet|]. intros _.
  apply prints_on_return_bind; [apply ensure_bucket_quiet|]. intros _.
  apply prints_on_return_bind; [apply enable_versioning_quiet|]. intros _.
  apply prints_on_return_emit.
Qed.

End DriverPrints.

(** X24: on every provider and configuration, [main] prints the table of
    identifiers exactly when it returns, once and as its last effect.
    When any step raises, nothing is printed: the identifiers of what was
    created before the failure are not reported. *)
Theorem main_prints_only_when_done {PS : Type} `{Provider PS}
    (config : Config) (s : PS) :
  let r := main config s in
  (outcome r = Ret tt <-> exists rows, In (ConsolePrint rows) (events r))
  /\ (outcome r = Ret tt ->
      exists before rows,
        events r = before ++ [ConsolePrint rows] /\ never is_print before).
Proof.
  intros r. pose proof (main_prints_on_return config s) as Hp.
  fold r in Hp. unfold prints_on_return in Hp.
  destruct (outcome r) as [[]|e].
  - destruct Hp as (before & rows & Hev & Hbefore). split.
    + split; [|reflexivity]. intros _. exists rows. rewrite Hev.
      apply in_or_app. right. now left.
    + intros _. now exists before, rows.
  - split; [|discriminate]. split; [discriminate|].
    intros (rows & Hin). exfalso.
    unfold never in Hp. rewrite Forall_forall in Hp.
    specialize (Hp _ Hin). discriminate Hp.
Qed.

(** ** The driver: subnets and availability zones *)

Lemma in_bind_events {St A B : Type} (m : M St A) (k : A -> M St B) (s : St)
    (e : Event) :
  In e (events (bind m k s)) ->
  In e (events (m s))
  \/ exists a, outcome (m s) = Ret a
               /\ events (bind m k s) = events (m s) ++ events (k a (final (m s)))
               /\ In e (events (k a (final (m s)))).
Proof.
  rewrite bind_unfold. destruct (outcome (m s)) as [a|exc]; cbn [events].
  - intros Hin. apply in_app_or in Hin. destruct Hin as [Hin|Hin]; [now left|].
    right. now exists a.
  - now left.
Qed.

Lemma all_events_for_each_in {St A B : Type} (Q : Event -> Prop)
    (f : A -> M St B) (xs : list A) :
  (forall x, In x xs -> all_events Q (f x)) -> all_events Q (for_each f xs).
Proof.
  induction xs as [|x xs IH]; intros Hf; cbn [for_each].
  - apply all_events_ret.
  - apply all_events_bind; [apply Hf; now left|]. intros y.
    apply all_events_bind; [apply IH; intros z Hz; apply Hf; now right|].
    intros ys. apply all_events_ret.
Qed.

Lemma subnet_among_local (pairs : list (string * string)) (e : Event) :
  (forall rq res, e <> Api rq res) -> subnet_among pairs e.
Proof.
  intros He. destruct e; try exact I. exfalso. now apply (He rq res).
Qed.

(** X25: every subnet [main] creates is in a zone that the provider
    listed before: the create request comes after a zone lookup that
    returned, and it pairs a CIDR block of the configuration with the zone
    at the same position among the first [az_count] zones of that answer
    (the public blocks and the private blocks are each zipped with the
    zones).  So a CIDR block beyond the number of those zones gets no
    subnet. *)
Theorem main_subnets_follow_zones {PS : Type} `{Provider PS}
    (config : Config) (s : PS) (vpc_id cidr az : string) (tags : TagSet)
    (res : ApiResult) :
  In (Api (CreateSubnet vpc_id cidr az tags) res) (events (main config s)) ->
  exists azs before after,
    events (main config s)
    = before
      ++ Api (DescribeAvailabilityZones (project_region config)) (Ok (RList azs))
      :: after
    /\ In (Api (CreateSubnet vpc_id cidr az tags) res) after
    /\ let zones := slice_to (network_vpc_az_count config) azs in
       In (cidr, az) (combine (subnets_public_cidr_blocks config) zones)
       \/ In (cidr, az) (combine (subnets_private_cidr_blocks config) zones).
Proof.
  unfold main. cbv zeta.
  set (tags0 := [("Project", project_name config);
                 ("Environment", project_environment config)]).
  set (stem := String.append (project_name config)
                 (String.append "-" (project_environment config))).
  intros Hin.
  (* ensure_vpc *)
  apply in_bind_events in Hin. destruct Hin as [Hin|(v & Hv & Hev1 & Hin)].
  { exfalso.
    assert (Hq : all_events (subnet_among [])
                   (returned (ensure_vpc stem (network_vpc_cidr config) tags0
                                default_max_attempts default_backoff_seconds))).
    { apply all_events_returned.
      apply ensure_vpc_effects; try (intros; exact I).
      apply subnet_among_local. }
    specialize (Hq s). rewrite Forall_forall in Hq. exact (Hq _ Hin). }
  rewrite Hev1. clear Hev1.
  set (s1 := final (returned (ensure_vpc stem (network_vpc_cidr config) tags0
                                default_max_attempts default_backoff_seconds) s)) in *.
  set (t1 := events (returned (ensure_vpc stem (network_vpc_cidr config) tags0
                                 default_max_attempts default_backoff_seconds) s)) in *.
  (* ensure_internet_gateway *)
  apply in_bind_events in Hin. destruct Hin as [Hin|(igw & Higw & Hev2 & Hin)].
  { exfalso.
    assert (Hq : all_events (subnet_among [])
                   (returned (ensure_internet_gateway v (String.append stem "-igw") tags0
                                default_max_attempts default_backoff_seconds))).
    { apply all_events_returned.
      apply ensure_internet_gateway_effects; try (intros; exact I).
      apply subnet_among_local. }
    specialize (Hq s1). rewrite Forall_forall in Hq. exact (Hq _ Hin). }
  rewrite Hev2. clear Hev2.
  set (s2 := final (returned (ensure_internet_gateway v (String.append stem "-igw") tags0
                                default_max_attempts default_backoff_seconds) s1)) in *.
  set (t2 := events (returned (ensure_internet_gateway v (String.append stem "-igw") tags0
                                 default_max_attempts default_backoff_seconds) s1)) in *.
  (* the zones *)
  apply in_bind_events in Hin. destruct Hin as [Hin|(response & Hr & Hev3 & Hin)].
  { exfalso. rewrite call_events in Hin. destruct Hin as [Hin|[]]. discriminate Hin. }
  rewrite Hev3. clear Hev3.
  assert (Hcall : call (DescribeAvailabilityZones (project_region config)) s2
                  = mkRun (Ret response)
                      (final (call (DescribeAvailabilityZones (project_region config)) s2))
                      [Api (DescribeAvailabilityZones (project_region config))
                           (Ok response)]).
  { revert Hr. unfold call.
    destruct (handle (DescribeAvailabilityZones (project_region config)) s2)
      as [[r|exc] s3]; cbn [outcome final]; [|discriminate].
    now intros [= ->]. }
  rewrite Hcall in Hin |- *. cbn [final events] in Hin |- *.
  set (s3 := final (call (DescribeAvailabilityZones (project_region config)) s2)) in *.
  apply in_bind_events in Hin. destruct Hin as [Hin|(azs & Hazs & Hev4 & Hin)].
  { exfalso. destruct response; cbn in Hin; contradiction. }
  rewrite Hev4. clear Hev4.
  assert (Hresp : response = RList azs).
  { destruct response; cbn in Hazs; [|discriminate|discriminate].
    now injection Hazs as ->. }
  subst response. cbn [index_list ret final events app] in Hin |- *.
  set (zones := slice_to (network_vpc_az_count config) azs) in *.
  match type of Hin with
  | In _ (events (?rest s3)) =>
      assert (Hq : all_events
                     (subnet_among
                        (combine (subnets_public_cidr_blocks config) zones
                         ++ combine (subnets_private_cidr_blocks config) zones))
                     rest)
  end.
  { pose proof (subnet_among_local
                  (combine (subnets_public_cidr_blocks config) zones
                   ++ combine (subnets_private_cidr_blocks config) zones)) as Hlocal.
    apply all_events_bind.
    { apply all_events_for_each_in. intros [c a] Hca.
      apply all_events_returned.
      apply ensure_subnet_effects; try (intros; exact I); [exact Hlocal|].
      intros t r. cbn [fst snd subnet_among]. apply in_or_app. now left. }
    intros public_subnets.
    apply all_events_bind.
    { apply all_events_for_each_in. intros [c a] Hca.
      apply all_events_returned.
      apply ensure_subnet_effects; try (intros; exact I); [exact Hlocal|].
      intros t r. cbn [fst snd subnet_among]. apply in_or_app. now right. }
    intros private_subnets.
    apply all_events_bind;
      [apply ensure_bucket_effects; try (intros; exact I); exact Hlocal|].
    intros _.
    apply all_events_bind.
    { unfold enable_versioning.
      apply all_events_bind; [apply all_events_call; intros; exact I|]. intros _.
      apply all_events_ret. }
    intros _.
    apply all_events_bind;
      [apply ensure_bucket_effects; try (intros; exact I); exact Hlocal|].
    intros _.
    apply all_events_bind.
    { unfold enable_versioning.
      apply all_events_bind; [apply all_events_call; intros; exact I|]. intros _.
      apply all_events_ret. }
    intros _. apply all_events_emit. exact I. }
  exists azs, (t1 ++ t2).
  eexists. split; [rewrite <- app_assoc; reflexivity|].
  split; [exact Hin|].
  specialize (Hq s3). rewrite Forall_forall in Hq. specialize (Hq _ Hin).
  cbn [subnet_among] in Hq. apply in_app_or in Hq. exact Hq.
Qed.

Lemma main_subnets_follow_zones_witness :
  exists azs before after,
    events (@main _ Cloud.provider scenario fresh_cloud)
    = before ++ Api (DescribeAvailabilityZones "eu-west-1") (Ok (RList azs)) :: after
    /\ In (Api (CreateSubnet "vpc-1" "10.0.11.0/24" "eu-west-1b"
                  [("Name", "private-eu-west-1b"); ("Project", "cda");
                   ("Environment", "dev"); ("Tier", "private")])
               (Ok (RId "subnet-6"))) after
    /\ (In ("10.0.11.0/24", "eu-west-1b")
           (combine ["10.0.0.0/24"; "10.0.1.0/24"] (slice_to 2 azs))
        \/ In ("10.0.11.0/24", "eu-west-1b")
              (combine ["10.0.10.0/24"; "10.0.11.0/24"] (slice_to 2 azs))).
Proof.
  apply (@main_subnets_follow_zones _ Cloud.provider scenario fresh_cloud
           "vpc-1" "10.0.11.0/24" "eu-west-1b"
           [("Name", "private-eu-west-1b"); ("Project", "cda");
            ("Environment", "dev"); ("Tier", "private")]
           (Ok (RId "subnet-6"))).
  vm_compute. repeat (first [left; reflexivity | right]).
Defined.

(** * The driver on the in-memory cloud *)






(** ** Looking rows up *)





Lemma subnet_rows_app (vpc_id : string) (a b : list string) : forall first,
  subnet_rows vpc_id first (a ++ b)
  = subnet_rows vpc_id first a ++ subnet_rows vpc_id (first + List.length a) b.
Proof.
  induction a as [|c a IH]; intros first; cbn [app subnet_rows List.length].
  - now rewrite Nat.add_0_r.
  - rewrite IH. now rewrite Nat.add_succ_r.
Qed.

(** ** One manager call on the cloud *)

Section OnTheCloud.

Let N := default_max_attempts.
Let B := default_backoff_seconds.




(** ** The subnets of one tier *)


(** ** Buckets *)


End OnTheCloud.

(** ** The whole driver *)




(** Names that collide: a CIDR block that is both public and private gets
    one subnet, which is listed on both sides, and one bucket name used
    twice gets one bucket. *)
Lemma main_colliding_names :
  let zones := ["eu-west-1a"; "eu-west-1b"; "eu-west-1c"] in
  let shared_block :=
    mkConfig "cda" "eu-west-1" "dev" "10.0.0.0/16" 2
             ["10.0.0.0/24"; "10.0.1.0/24"] ["10.0.0.0/24"; "10.0.11.0/24"]
             "cda-raw" "cda-curated" in
  let shared_bucket :=
    mkConfig "cda" "eu-west-1" "dev" "10.0.0.0/16" 2
             ["10.0.0.0/24"; "10.0.1.0/24"] ["10.0.10.0/24"; "10.0.11.0/24"]
             "cda-data" "cda-data" in
  (let r := @main _ Cloud.provider shared_block (Cloud.empty zones) in
   count (created KSubnet) (events r) = 3%nat
   /\ last (events r) (LogInfo "")
      = ConsolePrint [("VPC", "vpc-1"); ("InternetGateway", "igw-2");
                      ("PublicSubnets", "subnet-3, subnet-4");
                      ("PrivateSubnets", "subnet-3, subnet-5")])
  /\ (let r := @main _ Cloud.provider shared_bucket (Cloud.empty zones) in
      outcome r = Ret tt /\ count (created KBucket) (events r) = 1%nat).
Proof.
  cbv zeta. repeat split; reflexivity.
Qed.



(** * The vehicle market value pipeline *)

Import Pipeline.

Lemma perform_eq {W A : Type} (op : W -> Reply A * W) (entry : Reply A -> Entry)
    (h : Host W) (reply : Reply A) (w' : W) :
  op (world h) = (reply, w') ->
  perform op entry h
  = mkRun (outcome_of reply) (mkHost w' (ledger h ++ [entry reply])) [].
Proof. intros E. unfold perform. rewrite E. reflexivity. Qed.

Lemma clock_eq {W : Type} `{World W} (h : Host W) (t : Z) (w' : W) :
  utcnow (world h) = (t, w') ->
  clock h = mkRun (Ret t) (mkHost w' (ledger h ++ [Clock t])) [].
Proof. intros E. unfold clock. rewrite E. reflexivity. Qed.




Lemma bind_pure {St A B : Type} (m : M St A) (k : A -> M St B) (s : St) (a : A) :
  m s = mkRun (Ret a) s [] -> bind m k s = k a s.
Proof. intros Hm. rewrite bind_unfold, Hm. apply run_eta. Qed.

Section PipelineFacts.

Context {W : Type} `{World W}.
Variable loads : string -> Outcome Json.
Variable dumps : Json -> string.
Variable isoformat : Z -> string.
Variable strftime : Z -> string.
Variable config : PipelineConfig.

Lemma normalize_accepts (plate : string) (fields valuation : list (string * Json))
    (h : Host W) (t : Z) (w' : W) :
  valuation_of (JObj fields) = Some valuation ->
  utcnow (world h) = (t, w') ->
  _normalize_payload isoformat plate (JObj fields) h
  = mkRun (Ret (record_of isoformat plate fields valuation t))
          (mkHost w' (ledger h ++ [Clock t])) [].
Proof.
  intros Hv Ht. unfold _normalize_payload.
  assert (Hval : @get (Host W) (JObj fields) "valuation" (JObj []) h
                 = mkRun (Ret (JObj valuation)) h []).
  { unfold get, ret. cbn [valuation_of] in Hv.
    destruct (assoc "valuation" fields) as [[]|]; try discriminate Hv;
      now injection Hv as <-. }
  rewrite (bind_pure _ _ Hval).
  do 9 (erewrite bind_pure by reflexivity).
  rewrite bind_unfold, (clock_eq _ Ht). reflexivity.
Qed.

Lemma normalize_rejects (plate : string) (payload : Json) (h : Host W) :
  valuation_of payload = None ->
  _normalize_payload isoformat plate payload h
  = mkRun (Raise (PyError "AttributeError" "get")) h [].
Proof.
  intros Hv. unfold _normalize_payload.
  destruct payload as [| | | | |fields]; try reflexivity.
  cbn [valuation_of] in Hv.
  rewrite bind_unfold. unfold get at 1, ret.
  destruct (assoc "valuation" fields) as [[]|]; try discriminate Hv; reflexivity.
Qed.








End PipelineFacts.





(** X28: [_normalize_payload] reads the payload with [get].  A payload
    that is not a dict raises [AttributeError], and so does a payload whose
    [valuation] is given but is not a dict: the default [{}] stands in only
    when the key is absent, not when its value is null.  In both cases the
    clock is not read.  Otherwise the record is returned after one clock
    read; fields the payload or the valuation lack are null in it. *)
Theorem pipeline_normalize_payload {W : Type} `{World W}
    (isoformat : Z -> string) (plate : string) (h : Host W) :
  let refused := mkRun (Raise (PyError "AttributeError" "get")) h [] in
  (forall payload,
     (forall fields, payload <> JObj fields) ->
     _normalize_payload isoformat plate payload h = refused)
  /\ (forall fields v,
      assoc "valuation" fields = Some v ->
      (forall valuation, v <> JObj valuation) ->
      _normalize_payload isoformat plate (JObj fields) h = refused)
  /\ (forall fields valuation t w',
      assoc "valuation" fields = None /\ valuation = []
      \/ assoc "valuation" fields = Some (JObj valuation) ->
      utcnow (world h) = (t, w') ->
      _normalize_payload isoformat plate (JObj fields) h
      = mkRun (Ret (record_of isoformat plate fields valuation t))
              (mkHost w' (ledger h ++ [Clock t])) []).
Proof.
  intros refused. split; [|split].
  - intros payload Hnot. apply normalize_rejects.
    destruct payload as [| | | | |fields]; try reflexivity.
    now contradiction (Hnot fields).
  - intros fields v Hv Hnot. apply normalize_rejects.
    cbn [valuation_of]. rewrite Hv.
    destruct v as [| | | | |valuation]; try reflexivity.
    now contradiction (Hnot valuation).
  - intros fields valuation t w' Hv Ht. apply normalize_accepts; [|exact Ht].
    cbn [valuation_of]. destruct Hv as [[-> ->]| ->]; reflexivity.
Qed.

Lemma pipeline_normalize_payload_witness :
  @_normalize_payload Z (ticking None []) toy_format "S8TAN"
     (JObj [("year", JNum 2020); ("valuation", JNull)]) (mkHost 7 [])
  = mkRun (Raise (PyError "AttributeError" "get")) (mkHost 7 []) []
  /\ @_normalize_payload Z (ticking None []) toy_format "S8TAN"
       (JObj [("year", JNum 2020)]) (mkHost 7 [])
     = mkRun (Ret (JObj [("plate", JStr "S8TAN");
                         ("year", JNum 2020);
                         ("make", JNull);
                         ("model", JNull);
                         ("trim", JNull);
                         ("mileage", JNull);
                         ("condition", JNull);
                         ("retail_value", JNull);
                         ("wholesale_value", JNull);
                         ("trade_in_value", JNull);
                         ("timestamp", JStr "7");
                         ("source", JStr "vehicle_market_value_api")]))
             (mkHost 8 [Clock 7]) [].
Proof.
  split.
  - apply (proj1 (proj2 (@pipeline_normalize_payload Z (ticking None []) toy_format
                           "S8TAN" (mkHost 7 [])))
             [("year", JNum 2020); ("valuation", JNull)] JNull eq_refl).
    discriminate.
  - apply (proj2 (proj2 (@pipeline_normalize_payload Z (ticking None []) toy_format
                           "S8TAN" (mkHost 7 [])))
             [("year", JNum 2020)] [] 7 8); [left; split; reflexivity|reflexivity].
Defined.

(** X29: [run] reads the secret first.  When the read fails, or the secret
    has no [SecretString] or an empty one, [run] raises (the error of the
    read, or [ValueError] naming the secret) after that single exchange:
    no plate is fetched, nothing is stored, and only the starting line is
    logged. *)
Theorem pipeline_stops_without_secret {W : Type} `{World W}
    (loads : string -> Outcome Json) (dumps : Json -> string)
    (isoformat strftime : Z -> string) (config : PipelineConfig) (h : Host W)
    (reply : Reply (option string)) (w' : W) :
  get_secret_value (secret_name config) (world h) = (reply, w') ->
  forall error,
    match reply with
    | Failed e => error = e
    | Returned secret =>
        truthy_str secret = None
        /\ error = PyError "ValueError"
                     (String.append "Secret "
                        (String.append (secret_name config) " missing SecretString"))
    end ->
    run loads dumps isoformat strftime config h
    = mkRun (Raise error)
            (mkHost w' (ledger h ++ [SecretRead (secret_name config) reply]))
            [LogInfo "Starting vehicle market value pipeline"].
Proof.
  intros Hget error Herror. unfold run.
  rewrite bind_unfold. cbn [emit outcome final events app].
  rewrite bind_unfold.
  assert (Hsecret : _get_secret loads (secret_name config) h
                    = mkRun (Raise error)
                        (mkHost w' (ledger h ++ [SecretRead (secret_name config) reply]))
                        []).
  { unfold _get_secret. rewrite bind_unfold, (perform_eq _ _ _ Hget).
    destruct reply as [secret|e]; cbn [outcome_of outcome final events app].
    - destruct Herror as (Hfalsy & ->). rewrite Hfalsy. reflexivity.
    - now subst error. }
  rewrite Hsecret. reflexivity.
Qed.

Lemma pipeline_stops_without_secret_witness :
  @run Z (ticking (Some "") [("S8TAN", tesla)]) toy_loads toy_dumps toy_format toy_format
     (toy_config ["S8TAN"]) (mkHost 0 [])
  = mkRun (Raise (PyError "ValueError" "Secret test/secret missing SecretString"))
          (mkHost 0 [SecretRead "test/secret" (Returned (Some ""))])
          [LogInfo "Starting vehicle market value pipeline"].
Proof.
  apply (@pipeline_stops_without_secret Z (ticking (Some "") [("S8TAN", tesla)])
           toy_loads toy_dumps toy_format toy_format (toy_config ["S8TAN"]) (mkHost 0 [])
           (Returned (Some "")) 0 eq_refl).
  split; reflexivity.
Defined.
